(** * dataEntry: row import, chart aggregation and chart viewport

    A shallow embedding of the data pipeline of the dataEntry application:
    - [DataEntry]: the manual-entry required-field check ([handleSubmit]) and
      the spreadsheet bulk import ([handleFileUpload]) of
      src/pages/DataEntry.tsx;
    - [Analysis]: the chart data transforms ([chartData]: histogram, pareto,
      series) and the zoom/pan handlers ([handleWheel], [handleMouseMove]) of
      the analysis page;
    - [AnalysisPage]: the rest of the analysis page: tick labels, the
      automatic choice of the axes, [renderChart] and runs of viewport
      events;
    - [EntryPage]: the entry row of src/pages/DataEntry.tsx: keys, saving,
      deleting and editing of the listed entries;
    - [Routing]: [ProtectedRoute] and the guarded routes of src/App.tsx.

    Modelling conventions.
    - A number held by a value ([VNum]) is given by its exact value, a
      rational ([Q]): the values cover the finite numbers, and [Number] of a
      value that does not parse is [None] (NaN).
    - Arithmetic is IEEE 754 binary64 ([Binary64]): a number enters it as
      the nearest double (itself, when it is one), and every result of [+],
      [-], [*] and [/] is a double, with the rounding, the signed zeros, the
      infinities and the NaN of the standard.
    - A JavaScript object used as a record of named values is a
      [gmap string val]; reading an absent property gives [VUndefined].
      Only own properties are modelled, except for the object [grouped] of
      the pareto transform, which the code creates as [{}] and reads and
      writes under names taken from the data: there the properties that
      [Object.prototype] hands down are modelled too.
    - [Date] objects live in a heap ([gmap loc Z], the local time value in
      milliseconds), because the import mutates them in place and two rows
      may hold the same object.
    - Built-ins whose result depends on the textual form of a number
      ([Number] of a string, [String] of a number, [toFixed]) are the fields
      of the class [Runtime], as is the order in which [sort] leaves an
      array whose comparator is not consistent; every theorem holds for all
      runtimes. *)

From Stdlib Require Import ZArith QArith Qround Lia Lqa Ascii DecimalString Sorted.
From Stdlib Require Import SpecFloat.
From stdpp Require Import base gmap strings list.

Local Open Scope string_scope.

(** ** JavaScript values and built-ins *)

Module Js.

Definition loc := positive.

Inductive val : Type :=
| VUndefined
| VNull
| VBool (b : bool)
| VNum (n : Q)
| VStr (s : string)
| VObj (o : loc).

(** Built-ins that read or print the digits of a number. *)
Class Runtime := {
  (** [Number(s)] for a string [s]; [None] is NaN. *)
  StringToNumber : string -> option Q;
  (** [String(n)] for a number [n]. *)
  NumberToString : Q -> string;
  (** [Number(o)] for an object [o]; [None] is NaN. *)
  ObjectToNumber : loc -> option Q;
  (** [String(o)] for an object [o]. *)
  ObjectToString : loc -> string;
  (** [n.toFixed(digits)]. *)
  toFixed : Q -> nat -> string;
  (** The order in which [Array.prototype.sort] leaves an array when the
      comparator is not consistent, which ECMAScript leaves to the
      implementation: given the comparator's verdicts on all pairs, the
      positions to pick one after the other among the elements that
      remain. *)
  SortPicks : list (list bool) -> list nat
}.

Definition Qltb (a b : Q) : bool := negb (Qle_bool b a).

(** A number is falsy when it is zero (NaN is not a [Q]). *)
Definition truthy_num (n : Q) : bool := negb (Qeq_bool n 0).

Definition truthy_str (s : string) : bool := negb (String.eqb s "").

Definition truthy (v : val) : bool :=
  match v with
  | VUndefined | VNull => false
  | VBool b => b
  | VNum n => truthy_num n
  | VStr s => truthy_str s
  | VObj _ => true
  end.

(** [o[k]] *)
Definition get (o : gmap string val) (k : string) : val :=
  default VUndefined (o !! k).

Section WithRuntime.
Context `{RT : Runtime}.

(** [Number(v)]; [None] is NaN. *)
Definition Number (v : val) : option Q :=
  match v with
  | VUndefined => None
  | VNull => Some 0%Q
  | VBool b => Some (if b then 1%Q else 0%Q)
  | VNum n => Some n
  | VStr s => StringToNumber s
  | VObj o => ObjectToNumber o
  end.

(** [Number(v) || 0] *)
Definition Number_or_0 (v : val) : Q :=
  match Number v with
  | Some n => if truthy_num n then n else 0%Q
  | None => 0%Q
  end.

(** [String(v)] *)
Definition String_ (v : val) : string :=
  match v with
  | VUndefined => "undefined"
  | VNull => "null"
  | VBool b => if b then "true" else "false"
  | VNum n => NumberToString n
  | VStr s => s
  | VObj o => ObjectToString o
  end.
End WithRuntime.

(** [String(z)] for an integer [z]. *)
Definition String_of_int (z : Z) : string :=
  NilZero.string_of_int (Z.to_int z).

Fixpoint repeat_char (n : nat) (c : Ascii.ascii) : string :=
  match n with
  | O => ""
  | S n' => String c (repeat_char n' c)
  end.

(** [s.padStart(n, c)] for a one-character pad string. *)
Definition padStart (s : string) (n : nat) (c : Ascii.ascii) : string :=
  repeat_char (n - String.length s) c ++ s.

(** [l.slice(i, j)] for [0 <= i <= j]. *)
Definition slice {A : Type} (i j : nat) (l : list A) : list A :=
  take (j - i) (drop i l).

(** [Array.prototype.sort(compareFn)], which is stable; [le a b] stands for
    [compareFn(a, b) <= 0]. *)
Section Sort.
Context {A : Type} (le : A -> A -> bool).

Fixpoint insert_sorted (x : A) (l : list A) : list A :=
  match l with
  | [] => [x]
  | y :: l' => if le x y then x :: l else y :: insert_sorted x l'
  end.

Fixpoint sort (l : list A) : list A :=
  match l with
  | [] => []
  | x :: l' => insert_sorted x (sort l')
  end.
End Sort.

(** The elements of [l] in the order of the [picks]: each pick takes the
    element at that position, modulo their number, among those that remain;
    when the picks run out the rest keeps its order. *)
Fixpoint pick_all {A : Type} (picks : list nat) (l : list A) : list A :=
  match picks with
  | [] => l
  | p :: picks' =>
      match l !! (p mod length l)%nat with
      | Some x => x :: pick_all picks' (delete (p mod length l)%nat l)
      | None => l
      end
  end.

Fixpoint find_index {A : Type} (p : A -> bool) (l : list A) : option nat :=
  match l with
  | [] => None
  | x :: l' => if p x then Some O else S <$> find_index p l'
  end.

End Js.

(** ** Forms (shared by both pages) *)

Module Schema.

Inductive FieldType := text | number | date | time | decimal | dropdown.

Record FormField := {
  field_id : string;
  field_name : string;
  field_type : FieldType;
  required : bool;
  options : option (list string)
}.

Record FormSchema := {
  form_id : string;
  form_name : string;
  fields : list FormField
}.

End Schema.

(** ** Numbers in arithmetic: IEEE 754 binary64

    The results of [+], [-], [*] and [/] are doubles: the exact result
    rounded to the nearest double, ties to even, with signed zeros,
    infinities and NaN.  The operations are those of [SpecFloat], the
    Standard Library's specification of binary floating-point arithmetic,
    at precision 53 and maximal exponent 1024. *)

Module Binary64.

Definition prec : Z := 53.
Definition emax : Z := 1024.

Definition float := spec_float.

Definition zero : float := S754_zero false.
Definition nan : float := S754_nan.

Definition add : float -> float -> float := SFadd prec emax.
Definition sub : float -> float -> float := SFsub prec emax.
Definition mul : float -> float -> float := SFmul prec emax.
Definition div : float -> float -> float := SFdiv prec emax.
Definition opp : float -> float := SFopp.
Definition ltb : float -> float -> bool := SFltb.
Definition leb : float -> float -> bool := SFleb.

Declare Scope double_scope.
Delimit Scope double_scope with D.
Bind Scope double_scope with float.
Infix "+" := add : double_scope.
Infix "-" := sub : double_scope.
Infix "*" := mul : double_scope.
Infix "/" := div : double_scope.
Infix "<?" := ltb : double_scope.
Infix "<=?" := leb : double_scope.

(** The double of an integer (the nearest one, beyond 53 bits). *)
Definition of_Z (z : Z) : float := binary_normalize prec emax z 0 false.

(** The double nearest to [n / d]. *)
Definition round_div (s : bool) (n d : positive) : float :=
  let '(mz, ez, lz) := SFdiv_core_binary prec emax (Zpos n) 0 (Zpos d) 0 in
  binary_round_aux prec emax s mz ez lz.

(** The double nearest to a rational: the value of a decimal literal such as
    [1.1], and the number itself when it is a double. *)
Definition of_Q (q : Q) : float :=
  match Qnum q with
  | Z0 => zero
  | Zpos n => round_div false n (Qden q)
  | Zneg n => round_div true n (Qden q)
  end.

(** The exact value of a finite double. *)
Definition to_Q (f : float) : option Q :=
  match f with
  | S754_zero _ => Some 0%Q
  | S754_finite s m e =>
      let v := match e with
               | Zneg p => (Zpos m # 2 ^ p)%Q
               | _ => inject_Z (Zpos m * 2 ^ e)
               end in
      Some (if s then (- v)%Q else v)
  | _ => None
  end.

Definition is_nan (f : float) : bool :=
  match f with S754_nan => true | _ => false end.

Definition is_zero (f : float) : bool :=
  match f with S754_zero _ => true | _ => false end.

(** A number is falsy when it is [+0], [-0] or NaN. *)
Definition is_truthy (f : float) : bool := negb (is_zero f || is_nan f).

(** [f || 0] *)
Definition or_zero (f : float) : float := if is_truthy f then f else zero.

(** [Math.min(a, b)]: NaN when an argument is NaN; [-0] is below [+0]. *)
Definition Math_min (a b : float) : float :=
  if is_nan a || is_nan b then nan
  else if (a <? b)%D then a
  else if (b <? a)%D then b
  else match a with S754_zero true => a | _ => b end.

Definition max2 (a b : float) : float :=
  if is_nan a || is_nan b then nan
  else if (a <? b)%D then b
  else if (b <? a)%D then a
  else match a with S754_zero true => b | _ => a end.

(** [Math.max(...l)]; [-Infinity] for the empty list. *)
Definition Math_max (l : list float) : float :=
  fold_left max2 l (S754_infinity true).

(** [Math.round]: the nearest integer, ties towards +infinity; the result
    keeps the sign of its argument when it is zero. *)
Definition Math_round (f : float) : float :=
  match f, to_Q f with
  | S754_finite s _ _, Some q =>
      let z := Qfloor (q + (1 # 2)) in
      if (z =? 0)%Z then S754_zero s else of_Z z
  | _, _ => f
  end.

End Binary64.

(** ** The analysis page: chart data and viewport *)

Module Analysis.
Import Js Binary64.

Inductive ChartType :=
  column | bar | line | area | combo | scatter | histogram | pareto.

Record ChartConfig := {
  type : ChartType;
  xAxis : string;
  yAxis : string;
  secondaryYAxis : option string;
  groupBy : option string;
  target : option Q
}.

(** A fetched submission, [{ id: doc.id, ...doc.data() }]; the transforms
    read its [data] only. *)
Record Submission := {
  sub_id : string;
  data : gmap string val
}.

(** A histogram bin, [{ range, count, start, end, target }]. *)
Record Bin := {
  range : string;
  count : nat;
  start : float;
  end_ : float;
  bin_target : option Q
}.

(** A value of the object [grouped]: a number, or the string that [+]
    makes of an inherited function and a number.  The text of such a string
    starts with the source text of a native function, which is left to the
    implementation; it never reads as a number. *)
Inductive GroupValue :=
| GNum (n : float)
| GText.

(** A pareto point, [{ name, value, cumulativePercentage, target }]. *)
Record ParetoItem := {
  name : string;
  value : GroupValue;
  cumulativePercentage : float;
  pareto_target : option Q
}.

Inductive ChartPoint :=
| BinPoint (b : Bin)
| ParetoPoint (p : ParetoItem)
| DataPoint (o : gmap string val).

(** The viewport bounds, [number | 'auto']. *)
Inductive Bound := auto | num (n : float).

(** The zoom/pan state of the component: [yDomain], [isDragging] and the
    ref [lastY]. *)
Record View := {
  yDomain : Bound * Bound;
  isDragging : bool;
  lastY : float
}.

Definition binCount : nat := 10.

(** An optional number read as a property: absent is [undefined]. *)
Definition opt_num (t : option Q) : val :=
  match t with
  | Some n => VNum n
  | None => VUndefined
  end.

Definition of_nat (n : nat) : Q := inject_Z (Z.of_nat n).

(** *** The object [grouped] of the pareto transform

    A plain object, [{}], whose property order is observable through
    [Object.entries]: the association list holds its own properties in
    insertion order.  Reading a name that is not an own property finds the
    properties of [Object.prototype]. *)

Fixpoint assoc_get (g : list (string * GroupValue)) (k : string)
  : option GroupValue :=
  match g with
  | [] => None
  | (k', n) :: g' => if String.eqb k' k then Some n else assoc_get g' k
  end.

Fixpoint assoc_set (g : list (string * GroupValue)) (k : string)
    (n : GroupValue) : list (string * GroupValue) :=
  match g with
  | [] => [(k, n)]
  | (k', n') :: g' =>
      if String.eqb k' k then (k', n) :: g' else (k', n') :: assoc_set g' k n
  end.

(** The function-valued properties of [Object.prototype].  Its one other
    property is the accessor [__proto__]. *)
Definition inherited_functions : list string :=
  [ "constructor"; "hasOwnProperty"; "isPrototypeOf"; "propertyIsEnumerable";
    "toLocaleString"; "toString"; "valueOf";
    "__defineGetter__"; "__defineSetter__"; "__lookupGetter__";
    "__lookupSetter__" ].

Definition is_inherited_function (k : string) : bool :=
  existsb (String.eqb k) inherited_functions.

(** The array index a property name denotes, if any: a canonical decimal
    numeral below 2^32 - 1. *)
Definition array_index (k : string) : option N :=
  match NilEmpty.uint_of_string k with
  | Some u =>
      let n := N.of_uint u in
      if String.eqb (NilZero.string_of_uint (N.to_uint n)) k
         && (n <? 4294967295)%N
      then Some n else None
  | None => None
  end.

Definition is_array_index (kv : string * GroupValue) : bool :=
  match array_index kv.1 with Some _ => true | None => false end.

Definition index_of (kv : string * GroupValue) : N :=
  default 0%N (array_index kv.1).

(** [Object.entries(g)]: array-index names first, in ascending numeric
    order, then the other names in insertion order. *)
Definition Object_entries (g : list (string * GroupValue))
  : list (string * GroupValue) :=
  sort (fun a b => (index_of a <=? index_of b)%N) (List.filter is_array_index g)
  ++ List.filter (fun kv => negb (is_array_index kv)) g.

(** [b - a] on two values of [grouped]: a string reads as NaN. *)
Definition value_diff (b a : GroupValue) : float :=
  match b, a with
  | GNum x, GNum y => (x - y)%D
  | _, _ => nan
  end.

(** [compareFn(a, b) = b.value - a.value] is not positive ([sort] treats
    NaN as 0). *)
Definition by_value (a b : string * GroupValue) : bool :=
  negb (zero <? value_diff b.2 a.2)%D.

(** The values on which [b.value - a.value] is a consistent comparator:
    numbers other than NaN. *)
Definition is_ordered (kv : string * GroupValue) : bool :=
  match kv.2 with
  | GNum n => negb (is_nan n)
  | GText => false
  end.

(** [sum + item.value]: a number and a string, or a string and anything,
    concatenate to a string. *)
Definition plus (sum v : GroupValue) : GroupValue :=
  match sum, v with
  | GNum s, GNum x => GNum (s + x)%D
  | _, _ => GText
  end.

(** [sorted.reduce((sum, item) => sum + item.value, 0)] *)
Definition total_of (sorted : list (string * GroupValue)) : GroupValue :=
  fold_left (fun sum item => plus sum item.2) sorted (GNum zero).

(** [Math.round((cumulative / total) * 100)] *)
Definition percentage (cumulative total : GroupValue) : float :=
  match cumulative, total with
  | GNum c, GNum t => Math_round (c / t * of_Z 100)%D
  | _, _ => nan
  end.

Section WithRuntime.
Context `{RT : Runtime}.

(** [Number(s.data[config.yAxis]) || 0] *)
Definition y_value (config : ChartConfig) (s : Submission) : Q :=
  Number_or_0 (get (data s) (yAxis config)).

(** The same number as a double: the nearest one, and [0] when that is
    [-0]. *)
Definition y_number (config : ChartConfig) (s : Submission) : float :=
  or_zero (of_Q (y_value config s)).

(** [f.toFixed(digits)] *)
Definition toFixed64 (f : float) (digits : nat) : string :=
  match f, to_Q f with
  | _, Some q => toFixed q digits
  | S754_infinity false, None => "Infinity"
  | S754_infinity true, None => "-Infinity"
  | _, None => "NaN"
  end.

(** *** 1. Histogram *)

(** [(max - min) / binCount || 1] *)
Definition bin_size (min max : float) : float :=
  let w := ((max - min) / of_Z (Z.of_nat binCount))%D in
  if is_truthy w then w else of_Z 1.

Definition make_bin (config : ChartConfig) (min binSize : float) (i : nat) : Bin :=
  let start := (min + of_Z (Z.of_nat i) * binSize)%D in
  let end_ := (start + binSize)%D in
  {| range := toFixed64 start 1 ++ " - " ++ toFixed64 end_ 1;
     count := 0;
     start := start;
     end_ := end_;
     bin_target := target config |}.

(** [v >= b.start && v < b.end] *)
Definition in_bin (v : float) (b : Bin) : bool :=
  (start b <=? v)%D && (v <? end_ b)%D.

(** The position of [bins.find(...) || bins[bins.length - 1]]. *)
Definition bin_index (bins : list Bin) (v : float) : nat :=
  match find_index (in_bin v) bins with
  | Some i => i
  | None => length bins - 1
  end.

(** [bin.count++] *)
Definition count_up (b : Bin) : Bin :=
  {| range := range b;
     count := S (count b);
     start := start b;
     end_ := end_ b;
     bin_target := bin_target b |}.

Definition count_value (bins : list Bin) (v : float) : list Bin :=
  alter count_up (bin_index bins v) bins.

(** [compareFn(a, b) = a - b] is not positive. *)
Definition ascending (a b : float) : bool := negb (zero <? a - b)%D.

(** [submissions.map(...).sort((a, b) => a - b)] *)
Definition sorted_values (config : ChartConfig) (submissions : list Submission)
  : list float :=
  sort ascending (map (y_number config) submissions).

Definition empty_bins (config : ChartConfig) (min max : float) : list Bin :=
  map (make_bin config min (bin_size min max)) (seq 0 binCount).

Definition histogram_bins (config : ChartConfig) (submissions : list Submission)
  : list Bin :=
  let values := sorted_values config submissions in
  match values with
  | [] => []
  | min :: _ =>
      let max := default min (last values) in
      fold_left count_value values (empty_bins config min max)
  end.

(** *** 2. Pareto *)

(** [String(sub.data[config.xAxis] || 'Unknown')] *)
Definition pareto_key (config : ChartConfig) (sub : Submission) : string :=
  let x := get (data sub) (xAxis config) in
  String_ (if truthy x then x else VStr "Unknown").

(** [grouped[key] = (grouped[key] || 0) + val].  For the key [__proto__] the
    right-hand side is a string and the inherited setter ignores it: the
    object is left as it is.  An inherited function is truthy and makes the
    sum a string, as does a string already stored. *)
Definition group_step (config : ChartConfig)
    (grouped : list (string * GroupValue)) (sub : Submission)
  : list (string * GroupValue) :=
  let key := pareto_key config sub in
  let val := y_number config sub in
  if String.eqb key "__proto__" then grouped
  else
    let sum := match assoc_get grouped key with
               | Some (GNum n) => GNum (or_zero n + val)%D
               | Some GText => GText
               | None => if is_inherited_function key then GText
                         else GNum (zero + val)%D
               end in
    assoc_set grouped key sum.

Definition grouped (config : ChartConfig) (submissions : list Submission)
  : list (string * GroupValue) :=
  fold_left (group_step config) submissions [].

(** [Object.entries(grouped).map(...).sort((a, b) => b.value - a.value)].
    When a value is a string or NaN the comparator is not consistent and
    the order is the implementation's. *)
Definition sorted_groups (config : ChartConfig) (submissions : list Submission)
  : list (string * GroupValue) :=
  let entries := Object_entries (grouped config submissions) in
  if forallb is_ordered entries then sort by_value entries
  else pick_all (SortPicks (map (fun a => map (by_value a) entries) entries))
         entries.

(** [sorted.map(item => { cumulative += item.value; ... })], with the
    variable [cumulative] threaded through. *)
Fixpoint with_cumulative (config : ChartConfig) (total cumulative : GroupValue)
    (sorted : list (string * GroupValue)) : list ParetoItem :=
  match sorted with
  | [] => []
  | item :: rest =>
      let cumulative' := plus cumulative item.2 in
      {| name := item.1;
         value := item.2;
         cumulativePercentage := percentage cumulative' total;
         pareto_target := target config |}
      :: with_cumulative config total cumulative' rest
  end.

Definition pareto_items (config : ChartConfig) (submissions : list Submission)
  : list ParetoItem :=
  let sorted := sorted_groups config submissions in
  with_cumulative config (total_of sorted) (GNum zero) sorted.

(** *** 3. Default *)

(** [{ ...sub.data, index: index + 1, [config.yAxis]: ..., target }] *)
Definition data_point (config : ChartConfig) (index : nat) (sub : Submission)
  : gmap string val :=
  <["target" := opt_num (target config)]>
    (<[yAxis config := VNum (y_value config sub)]>
       (<["index" := VNum (of_nat (index + 1))]> (data sub))).

Definition chartData (submissions : list Submission) (config : ChartConfig)
  : list ChartPoint :=
  if (length submissions =? 0)%nat
     || negb (truthy_str (xAxis config))
     || negb (truthy_str (yAxis config))
  then []
  else
    match type config with
    | histogram => BinPoint <$> histogram_bins config submissions
    | pareto => ParetoPoint <$> pareto_items config submissions
    | _ => imap (fun index sub => DataPoint (data_point config index sub))
             submissions
    end.

(** *** Viewport *)

(** [Number(v) || 0] as a double. *)
Definition number_of (v : val) : float := or_zero (of_Q (Number_or_0 v)).

(** [Number(d[k]) || 0] for a chart point. *)
Definition point_number (d : ChartPoint) (k : string) : float :=
  match d with
  | DataPoint o => number_of (get o k)
  | BinPoint b =>
      if String.eqb k "range" then number_of (VStr (range b))
      else if String.eqb k "count" then or_zero (of_Z (Z.of_nat (count b)))
      else if String.eqb k "start" then or_zero (start b)
      else if String.eqb k "end" then or_zero (end_ b)
      else if String.eqb k "target" then number_of (opt_num (bin_target b))
      else zero
  | ParetoPoint p =>
      if String.eqb k "name" then number_of (VStr (name p))
      else if String.eqb k "value"
           then match value p with
                | GNum n => or_zero n
                | GText => zero
                end
      else if String.eqb k "cumulativePercentage"
           then or_zero (cumulativePercentage p)
      else if String.eqb k "target" then number_of (opt_num (pareto_target p))
      else zero
  end.

(** [chartData.map(d => Number(d[config.yAxis]) || 0)] *)
Definition y_values (config : ChartConfig) (chartData : list ChartPoint)
  : list float :=
  map (fun d => point_number d (yAxis config)) chartData.

Definition handleWheel (deltaY : float) (chartData : list ChartPoint)
    (config : ChartConfig) (yDomain : Bound * Bound) : Bound * Bound :=
  if (length chartData =? 0)%nat then yDomain
  else
    let dataMax := Math_max (y_values config chartData) in
    let currentMax := match yDomain.2 with
                      | auto => (dataMax * of_Q 1.1)%D
                      | num n => n
                      end in
    let currentMin := match yDomain.1 with
                      | auto => zero
                      | num n => n
                      end in
    let range := (currentMax - currentMin)%D in
    let zoomFactor := if (zero <? deltaY)%D then of_Q 0.10
                      else opp (of_Q 0.10) in
    let newRange := (range * (of_Z 1 + zoomFactor))%D in
    let maxDataValue := (dataMax * of_Q 1.1)%D in
    let finalRange := Math_min newRange maxDataValue in
    (num currentMin, num (currentMin + finalRange)%D).

End WithRuntime.

Definition resetZoom (v : View) : View :=
  {| yDomain := (num zero, auto); isDragging := isDragging v; lastY := lastY v |}.

Definition handleMouseDown (clientY : float) (v : View) : View :=
  {| yDomain := yDomain v; isDragging := true; lastY := clientY |}.

(** [None]: [yDomain[0]] is ['auto'] where the code casts it to a number, so
    the new bounds are not numbers. *)
Definition handleMouseMove (clientY : float) (v : View) : option View :=
  if isDragging v then
    match yDomain v with
    | (_, auto) => Some v
    | (num lo, num hi) =>
        let delta := (lastY v - clientY)%D in
        let range := (hi - lo)%D in
        let factor := (range * of_Q 0.002)%D in
        let shift := (delta * factor)%D in
        Some {| yDomain := (num (lo + shift)%D, num (hi + shift)%D);
                isDragging := isDragging v;
                lastY := clientY |}
    | (auto, num _) => None
    end
  else Some v.

Definition handleMouseUp (v : View) : View :=
  {| yDomain := yDomain v; isDragging := false; lastY := lastY v |}.

End Analysis.

(** ** The data-entry page: manual submit and bulk import *)

Module DataEntry.
Import Js Schema.

(** *** Date objects

    The state of a [Date] is its local time value in milliseconds; the local
    time zone is taken to have a fixed offset, so the local fields are those
    of ECMAScript's [HourFromTime], [MinFromTime], [YearFromTime],
    [MonthFromTime] and [DateFromTime] applied to it. *)

Definition msPerMinute : Z := 60000.
Definition msPerHour : Z := 3600000.
Definition msPerDay : Z := 86400000.

Definition getHours (t : Z) : Z := ((t / msPerHour) mod 24)%Z.
Definition getMinutes (t : Z) : Z := ((t / msPerMinute) mod 60)%Z.

(** [d.setHours(hour)]: the day, minutes, seconds and milliseconds are kept,
    and an hour outside 0..23 carries into the day. *)
Definition setHours (t : Z) (hour : Z) : Z :=
  ((t / msPerDay) * msPerDay + hour * msPerHour + t mod msPerHour)%Z.

(** Year, month (1..12) and day of the month of a day number counted from
    1970-01-01, in the proleptic Gregorian calendar. *)
Definition civil_from_days (day : Z) : Z * Z * Z :=
  let z := (day + 719468)%Z in
  let era := (z / 146097)%Z in
  let doe := (z - era * 146097)%Z in
  let yoe := ((doe - doe / 1460 + doe / 36524 - doe / 146096) / 365)%Z in
  let doy := (doe - (365 * yoe + yoe / 4 - yoe / 100))%Z in
  let mp := ((5 * doy + 2) / 153)%Z in
  let d := (doy - (153 * mp + 2) / 5 + 1)%Z in
  let m := (if mp <? 10 then mp + 3 else mp - 9)%Z in
  let y := (yoe + era * 400 + (if m <=? 2 then 1 else 0))%Z in
  (y, m, d).

Definition getFullYear (t : Z) : Z := (civil_from_days (t / msPerDay)).1.1.
Definition getMonth (t : Z) : Z := ((civil_from_days (t / msPerDay)).1.2 - 1)%Z.
Definition getDate (t : Z) : Z := (civil_from_days (t / msPerDay)).2.

(** [`${year}-${month}-${day}`] with month and day padded to two digits. *)
Definition format_date (dateVal : Z) : string :=
  let year := String_of_int (getFullYear dateVal) in
  let month := padStart (String_of_int (getMonth dateVal + 1)) 2 "0"%char in
  let day := padStart (String_of_int (getDate dateVal)) 2 "0"%char in
  year ++ "-" ++ month ++ "-" ++ day.

(** [`${hours}:${minutes}`] with both padded to two digits. *)
Definition format_time (originalDate : Z) : string :=
  let hours := padStart (String_of_int (getHours originalDate)) 2 "0"%char in
  let minutes := padStart (String_of_int (getMinutes originalDate)) 2 "0"%char in
  hours ++ ":" ++ minutes.

(** *** Results of code that can throw *)

Inductive result (A : Type) : Type :=
| Ok (a : A)
| TypeError
| OutOfFuel.
Arguments Ok {A} a.
Arguments TypeError {A}.
Arguments OutOfFuel {A}.

#[global] Instance result_ret : MRet result := fun A a => Ok a.

#[global] Instance result_bind : MBind result := fun A B k r =>
  match r with
  | Ok a => k a
  | TypeError => TypeError
  | OutOfFuel => OutOfFuel
  end.

Fixpoint foldM {A S : Type} (f : A -> S -> result S) (l : list A) (s : S)
  : result S :=
  match l with
  | [] => Ok s
  | x :: l' => s' ← f x s; foldM f l' s'
  end.

(** *** Records of the page *)

(** The document passed to [addDoc]; [submittedAt] is the server's. *)
Record SubmissionDoc := {
  formId : string;
  formName : string;
  data : gmap string val;
  submittedBy : option string
}.

(** What the import can change: the [Date] objects of the parsed rows and the
    [submissions] collection.  [addDoc_calls] counts the calls of [addDoc]. *)
Record World := {
  heap : gmap loc Z;
  submissions : list SubmissionDoc;
  addDoc_calls : nat
}.

Record Counters := {
  successCount : nat;
  errorCount : nat
}.

Inductive ToastKind := success | error.

Record Toast := {
  message : string;
  kind : ToastKind
}.

Definition batchSize : nat := 400.

(** *** handleSubmit: the required-field check of manual entry *)

(** [selectedForm.fields.some(f => f.required && !formData[f.name])] *)
Definition handleSubmit_missingRequired (selectedForm : FormSchema)
    (formData : gmap string val) : bool :=
  existsb (fun f => required f && negb (truthy (get formData (field_name f))))
    (fields selectedForm).

(** *** handleFileUpload *)

(** [v === undefined || v === null || v === ''] *)
Definition is_blank (v : val) : bool :=
  match v with
  | VUndefined | VNull => true
  | VStr s => String.eqb s ""
  | _ => false
  end.

(** [selectedForm.fields.some(f => f.required && (processedRow[f.name] ===
    undefined || ... === null || ... === ''))] *)
Definition missingRequired (selectedForm : FormSchema)
    (processedRow : gmap string val) : bool :=
  existsb (fun f => required f && is_blank (get processedRow (field_name f)))
    (fields selectedForm).

(** The body of [selectedForm.fields.forEach] for one field.  [row] is the
    parsed row and [processedRow] its shallow copy: both hold the same
    [Date] objects.  [TypeError] is [originalDate.getHours()] on a value
    that is not a [Date]. *)
Definition format_field (row : gmap string val) (field : FormField)
    (st : gmap loc Z * gmap string val) : result (gmap loc Z * gmap string val) :=
  let '(h, processedRow) := st in
  match get processedRow (field_name field) with
  | VObj dateVal =>
      match h !! dateVal with
      | Some t =>
          let t12 := setHours t (getHours t + 12) in
          let h' := <[dateVal := t12]> h in
          match field_type field with
          | date =>
              Ok (h', <[field_name field := VStr (format_date t12)]> processedRow)
          | time =>
              match get row (field_name field) with
              | VObj originalDate =>
                  match h' !! originalDate with
                  | Some t0 =>
                      Ok (h', <[field_name field := VStr (format_time t0)]>
                                processedRow)
                  | None => TypeError
                  end
              | _ => TypeError
              end
          | _ => Ok (h', processedRow)
          end
      | None => Ok st
      end
  | _ => Ok st
  end.

(** [const processedRow = { ...row }; selectedForm.fields.forEach(...)] *)
Definition format_row (selectedForm : FormSchema) (row : gmap string val)
    (h : gmap loc Z) : result (gmap loc Z * gmap string val) :=
  foldM (format_field row) (fields selectedForm) (h, row).

Section WithStore.
(** Whether the [n]-th call of [addDoc] resolves ([true]) or rejects. *)
Variable addDoc_ok : nat -> SubmissionDoc -> bool.
(** [currentUser?.uid] *)
Variable uid : option string.

(** The async function applied to each row of a chunk. *)
Definition process_row (selectedForm : FormSchema) (row : gmap string val)
    (st : World * Counters) : result (World * Counters) :=
  let '(w, c) := st in
  '(h, processedRow) ← format_row selectedForm row (heap w);
  if missingRequired selectedForm processedRow then
    Ok ({| heap := h; submissions := submissions w;
           addDoc_calls := addDoc_calls w |},
        {| successCount := successCount c; errorCount := S (errorCount c) |})
  else
    let newSubmission := {| formId := form_id selectedForm;
                            formName := form_name selectedForm;
                            data := processedRow;
                            submittedBy := uid |} in
    if addDoc_ok (addDoc_calls w) newSubmission then
      Ok ({| heap := h; submissions := app (submissions w) [newSubmission];
             addDoc_calls := S (addDoc_calls w) |},
          {| successCount := S (successCount c); errorCount := errorCount c |})
    else
      Ok ({| heap := h; submissions := submissions w;
             addDoc_calls := S (addDoc_calls w) |},
          {| successCount := successCount c; errorCount := S (errorCount c) |}).

(** [await Promise.all(chunk.map(async row => ...))].  The rows are started
    in order; the counters are read only after the last batch, so the order
    in which the writes settle is not observable and is not modelled. *)
Definition process_chunk (selectedForm : FormSchema)
    (chunk : list (gmap string val)) (st : World * Counters)
  : result (World * Counters) :=
  foldM (process_row selectedForm) chunk st.

End WithStore.

(** [for (let i = 0; i < data.length; i += batchSize) { body(data.slice(i, i +
    batchSize)) }], started at [i]. *)
Fixpoint for_batches {A S : Type} (body : list A -> S -> result S)
    (fuel i : nat) (data : list A) (st : S) : result S :=
  match fuel with
  | O => OutOfFuel
  | S fuel' =>
      if (i <? length data)%nat then
        st' ← body (slice i (i + batchSize) data) st;
        for_batches body fuel' (i + batchSize) data st'
      else Ok st
  end.

(** The chunks the loop passes to its body, in order. *)
Definition batches {A : Type} (data : list A) : result (list (list A)) :=
  for_batches (fun chunk acc => Ok (app acc [chunk])) (S (length data)) 0 data [].

(** [reader.onload] from the parsed sheet [data] on, for a selected form. *)
Definition handleFileUpload (addDoc_ok : nat -> SubmissionDoc -> bool)
    (uid : option string) (selectedForm : FormSchema)
    (data : list (gmap string val)) (w : World) : result (World * Toast) :=
  if (length data =? 0)%nat then
    Ok (w, {| message := "The uploaded file is empty."; kind := error |})
  else
    '(w', c) ← for_batches (process_chunk addDoc_ok uid selectedForm)
                     (S (length data)) 0 data
                     (w, {| successCount := 0; errorCount := 0 |});
    Ok (w', {| message := "Upload complete. Success: "
                          ++ String_of_int (Z.of_nat (successCount c))
                          ++ ", Errors: "
                          ++ String_of_int (Z.of_nat (errorCount c));
               kind := if (0 <? successCount c)%nat then success else error |}).

End DataEntry.

(** ** A runtime for evaluating scenarios

    [integer_runtime] reads and prints integers in decimal, as the built-ins
    do; it is used to evaluate the functions above on concrete inputs whose
    numbers are integers.  [toFixed] is exact decimal rounding. *)

Module IntegerRuntime.
Import Js.

(** [Number(s)] on the empty string and on decimal integer numerals with an
    optional minus sign; any other string is read as NaN. *)
Definition string_to_number (s : string) : option Q :=
  if String.eqb s "" then Some 0%Q
  else (fun i => inject_Z (Z.of_int i)) <$> NilZero.int_of_string s.

(** [String(n)] on integers; other numbers are printed as a fraction. *)
Definition number_to_string (n : Q) : string :=
  let r := Qred n in
  if (Zpos (Qden r) =? 1)%Z then String_of_int (Qnum r)
  else String_of_int (Qnum r) ++ "/" ++ String_of_int (Zpos (Qden r)).

(** [n.toFixed(digits)]: the decimal numeral with [digits] fraction digits
    nearest to [n], ties away from zero. *)
Definition to_fixed (n : Q) (digits : nat) : string :=
  let negative := Qltb n 0 in
  let x := if negative then (- n)%Q else n in
  let m := Qfloor (x * inject_Z (10 ^ Z.of_nat digits) + (1 # 2))%Q in
  let ds := padStart (String_of_int m) (digits + 1) "0"%char in
  let k := (String.length ds - digits)%nat in
  (if negative then "-" else "")
  ++ String.substring 0 k ds
  ++ (if (digits =? 0)%nat then "" else "." ++ String.substring k digits ds).

#[global] Instance integer_runtime : Runtime := {|
  StringToNumber := string_to_number;
  NumberToString := number_to_string;
  ObjectToNumber := fun _ => None;
  ObjectToString := fun _ => "[object Object]";
  toFixed := to_fixed;
  SortPicks := fun _ => []
|}.

End IntegerRuntime.

(** ** Measures used to state the properties *)

Module Measures.
Import Js Binary64 Analysis.


(** The value [grouped[key] = (grouped[key] || 0) + val] leaves after the
    numbers [l], in order. *)
Definition group_sum (l : list float) : float :=
  fold_left (fun sum val => (or_zero sum + val)%D) l zero.


Section WithRuntime.
Context `{RT : Runtime}.

(** The numeric y values of the submissions whose pareto key is [key]. *)
Definition group_values (config : ChartConfig) (key : string)
    (submissions : list Submission) : list float :=
  map (y_number config)
    (List.filter (fun sub => String.eqb (pareto_key config sub) key) submissions).

(** A sequence of wheel events with the given [deltaY]s, in order. *)
Fixpoint wheel_all (deltas : list float) (chartData : list ChartPoint)
    (config : ChartConfig) (yDomain : Bound * Bound) : Bound * Bound :=
  match deltas with
  | [] => yDomain
  | deltaY :: deltas' =>
      wheel_all deltas' chartData config
        (handleWheel deltaY chartData config yDomain)
  end.

(** The events that change the viewport. *)
Inductive Event :=
| Wheel (deltaY : float)
| MouseDown (clientY : float)
| MouseMove (clientY : float)
| MouseUp
| ResetZoom.

Definition handle (chartData : list ChartPoint) (config : ChartConfig)
    (e : Event) (v : View) : option View :=
  match e with
  | Wheel deltaY =>
      Some {| yDomain := handleWheel deltaY chartData config (yDomain v);
              isDragging := isDragging v; lastY := lastY v |}
  | MouseDown clientY => Some (handleMouseDown clientY v)
  | MouseMove clientY => handleMouseMove clientY v
  | MouseUp => Some (handleMouseUp v)
  | ResetZoom => Some (resetZoom v)
  end.

End WithRuntime.

End Measures.

(** ** Scenarios *)

Module Scenarios.
Import Js Schema Analysis.

Definition submission_of (l : list (string * val)) : Submission :=
  {| sub_id := ""; data := list_to_map l |}.

Definition config_of (t : ChartType) (x y : string) : ChartConfig :=
  {| type := t; xAxis := x; yAxis := y; secondaryYAxis := None;
     groupBy := None; target := None |}.

(** [{cat:"A",val:10}, {cat:"B",val:30}, {cat:"A",val:10}] *)
Definition cat_val_submissions : list Submission :=
  [ submission_of [("cat", VStr "A"); ("val", VNum 10)];
    submission_of [("cat", VStr "B"); ("val", VNum 30)];
    submission_of [("cat", VStr "A"); ("val", VNum 10)] ].

(** Scores 10, 20, ..., 100. *)
Definition score_submissions : list Submission :=
  map (fun z => submission_of [("Score", VNum (inject_Z z))])
    [10; 20; 30; 40; 50; 60; 70; 80; 90; 100]%Z.


(** Categories 0, "", false, missing and "Unknown". *)
Definition falsy_cat_submissions : list Submission :=
  [ submission_of [("cat", VNum 0); ("val", VNum 1)];
    submission_of [("cat", VStr ""); ("val", VNum 2)];
    submission_of [("cat", VBool false); ("val", VNum 3)];
    submission_of [("val", VNum 4)];
    submission_of [("cat", VStr "Unknown"); ("val", VNum 5)] ].





End Scenarios.

(** ** Measures of the data-entry page *)

Module EntryMeasures.
Import Js Schema DataEntry.

(** What [format_field] keeps true of the copy [processedRow]: it holds the
    same objects as [row], and the same blanks. *)
Definition copy_of (row processedRow : gmap string val) : Prop :=
  forall k,
    (forall l, get processedRow k = VObj l -> get row k = VObj l)
    /\ is_blank (get processedRow k) = is_blank (get row k).

(** The number of chunks the import loop still has to make at index [i] of
    [n] rows. *)
Definition batch_count (n i : nat) : nat :=
  ((n - i + (batchSize - 1)) / batchSize)%nat.

(** The chunks the loop makes from index [i] on. *)
Definition chunks_from {A : Type} (i : nat) (data : list A) : list (list A) :=
  map (fun j => slice (i + j * batchSize) (i + j * batchSize + batchSize) data)
    (seq 0 (batch_count (length data) i)).

End EntryMeasures.

(** ** Scenarios of the data-entry page *)

Module EntryScenarios.
Import Js Schema DataEntry.

Definition field_of (n : string) (t : FieldType) (req : bool) : FormField :=
  {| field_id := n; field_name := n; field_type := t; required := req;
     options := None |}.

(** A form with a required time field "T" and a date field "D". *)
Definition time_form : FormSchema :=
  {| form_id := "f1"; form_name := "Shifts";
     fields := [field_of "T" time true; field_of "D" date false] |}.

(** 1899-12-30 09:30 local time, as a spreadsheet time cell is parsed. *)
Definition t_0930 : Z := (-25569 * 86400000 + 9 * 3600000 + 30 * 60000)%Z.

(** 2024-03-10 00:00 local time. *)
Definition t_2024_03_10 : Z := (19792 * 86400000)%Z.

(** The row [{ T: <Date 1>, D: <Date 2> }] and the two [Date] objects. *)
Definition time_row : gmap string val :=
  list_to_map [("T", VObj 1%positive); ("D", VObj 2%positive)].

Definition time_heap : gmap loc Z :=
  list_to_map [(1%positive, t_0930); (2%positive, t_2024_03_10)].

(** A form with a required number field "Qty", and the form data of a
    submission whose quantity is the number 0, as an imported row has it. *)
Definition qty_form : FormSchema :=
  {| form_id := "f2"; form_name := "Stock";
     fields := [field_of "Qty" number true] |}.

Definition qty_zero : gmap string val := list_to_map [("Qty", VNum 0)].

Definition empty_world : World :=
  {| heap := ∅; submissions := []; addDoc_calls := 0 |}.

(** 850 parsed rows. *)
Definition rows_850 : list (gmap string val) := replicate 850 qty_zero.

End EntryScenarios.

(** ** Measures of the bulk import *)

Module ImportMeasures.
Import Js Schema DataEntry.

(** A document written by the import names the selected form and the
    user. *)
Definition tagged (uid : option string) (selectedForm : FormSchema)
    (d : SubmissionDoc) : Prop :=
  formId d = form_id selectedForm /\ formName d = form_name selectedForm
  /\ submittedBy d = uid.

(** The number of rows that pass the required-field check. *)
Definition valid_rows (selectedForm : FormSchema)
    (rows : list (gmap string val)) : nat :=
  length (List.filter (fun row => negb (missingRequired selectedForm row)) rows).

(** What the import of some rows does to the store and the counters: the
    documents [added] are appended, one [addDoc] call is made per valid
    row, and every row is counted once. *)
Definition import_effect (addDoc_ok : nat -> SubmissionDoc -> bool)
    (uid : option string) (selectedForm : FormSchema)
    (rows : list (gmap string val)) (w w' : World) (c c' : Counters) : Prop :=
  exists added,
    submissions w' = app (submissions w) added
    /\ Forall (tagged uid selectedForm) added
    /\ addDoc_calls w' = (addDoc_calls w + valid_rows selectedForm rows)%nat
    /\ successCount c' = (successCount c + length added)%nat
    /\ (successCount c' + errorCount c'
        = successCount c + errorCount c + length rows)%nat
    /\ (length added <= valid_rows selectedForm rows)%nat
    /\ ((forall n d, addDoc_ok n d = true) ->
        length added = valid_rows selectedForm rows).

End ImportMeasures.

(** ** The analysis page: tick labels, axis selection, rendering, events *)

Module AnalysisPage.
Import Js Binary64 Schema Analysis Measures.

(** What [renderChart] shows. *)
Inductive Rendered :=
| PleaseConfigure
| NoDataAvailable
| ChartOf (t : ChartType).

Section WithRuntime.
Context `{RT : Runtime}.

(** [formatYAxisTick] *)
Definition formatYAxisTick (value : Q) : string :=
  if Qle_bool 1000000 value
  then toFixed64 (of_Q value / of_Z 1000000)%D 1 ++ "M"
  else if Qle_bool 1000 value
  then toFixed64 (of_Q value / of_Z 1000)%D 1 ++ "K"
  else if Qle_bool 1 value then toFixed value 1
  else if Qltb 0 value then toFixed value 2
  else "0".

(** [Number(e.target.value) || undefined], the target typed by the user. *)
Definition target_of_input (input : string) : option Q :=
  match StringToNumber input with
  | Some n => if truthy_num n then Some n else None
  | None => None
  end.

(** A run of viewport events, in order. *)
Fixpoint handle_all (chartData : list ChartPoint) (config : ChartConfig)
    (events : list Event) (v : View) : option View :=
  match events with
  | [] => Some v
  | e :: events' =>
      v' ← handle chartData config e v;
      handle_all chartData config events' v'
  end.

End WithRuntime.

(** The state [useState<[number | 'auto', number | 'auto']>([0, 'auto'])],
    [useState(false)], [useRef<number>(0)]. *)
Definition initial_view : View :=
  {| yDomain := (num zero, auto); isDragging := false; lastY := zero |}.

(** [yDomain[0] !== 'auto'], the condition of the Reset Zoom button. *)
Definition reset_button_shown (v : View) : bool :=
  match (yDomain v).1 with
  | auto => false
  | num _ => true
  end.

Definition is_number_field (f : FormField) : bool :=
  match field_type f with
  | number | decimal => true
  | _ => false
  end.

Definition is_date_field (f : FormField) : bool :=
  match field_type f with
  | date | time => true
  | _ => false
  end.

Definition is_text_field (f : FormField) : bool :=
  match field_type f with
  | text | dropdown => true
  | _ => false
  end.

(** [fs[0]?.name] *)
Definition first_name (fs : list FormField) : option string :=
  field_name <$> head fs.

(** [a || b] on [string | undefined]. *)
Definition or_else (a b : option string) : option string :=
  match a with
  | Some s => if truthy_str s then a else b
  | None => b
  end.

(** The [setConfig] of the submissions effect: the first suitable fields
    become the axes that are not set yet. *)
Definition autoSelectAxes (selectedForm : FormSchema) (prev : ChartConfig)
  : ChartConfig :=
  let numberFields := List.filter is_number_field (fields selectedForm) in
  let dateFields := List.filter is_date_field (fields selectedForm) in
  let textFields := List.filter is_text_field (fields selectedForm) in
  {| type := type prev;
     xAxis := default ""
                (or_else (or_else (or_else (Some (xAxis prev))
                                     (first_name dateFields))
                            (first_name textFields))
                   (Some ""));
     yAxis := default ""
                (or_else (or_else (Some (yAxis prev)) (first_name numberFields))
                   (Some ""));
     secondaryYAxis := secondaryYAxis prev;
     groupBy := groupBy prev;
     target := target prev |}.

(** The form selector's [setConfig(prev => ({ ...prev, xAxis: '', yAxis: ''
    }))]. *)
Definition clearAxes (prev : ChartConfig) : ChartConfig :=
  {| type := type prev; xAxis := ""; yAxis := "";
     secondaryYAxis := secondaryYAxis prev; groupBy := groupBy prev;
     target := target prev |}.

(** [renderChart]: the two messages, or the chart of the configured type
    (the [switch] has a case for each of the eight types). *)
Definition renderChart (selectedForm : option FormSchema) (config : ChartConfig)
    (chartData : list ChartPoint) : Rendered :=
  match selectedForm with
  | None => PleaseConfigure
  | Some _ =>
      if negb (truthy_str (yAxis config)) then PleaseConfigure
      else if (length chartData =? 0)%nat then NoDataAvailable
      else ChartOf (type config)
  end.

(** The [dataKey] of the X axis in [CommonAxis]. *)
Definition commonAxis_dataKey (config : ChartConfig) : string :=
  match type config with
  | histogram => "range"
  | _ => if truthy_str (xAxis config) then xAxis config else "index"
  end.

End AnalysisPage.

(** ** The data-entry page: the entry row and the listed submissions *)

Module EntryPage.
Import Js Schema.

(** A listed submission, [{ id: doc.id, ...doc.data() }]. *)
Record Listed := {
  id : string;
  doc : DataEntry.SubmissionDoc
}.

(** The state of the page that the handlers below read or set. *)
Record Page := {
  selectedForm : option FormSchema;
  formData : gmap string val;
  submissions : list Listed;
  editingId : option string;
  toasts : list DataEntry.Toast
}.

(** The requests a handler sends to the store, and the store's answer:
    [Resolved id] carries the id of the document ([docRef.id] after
    [addDoc]); [Rejected] is a rejected promise. *)
Inductive StoreCall :=
| AddDoc (d : DataEntry.SubmissionDoc)
| UpdateDoc (target : string) (data : gmap string val) (updatedBy : option string)
| DeleteDoc (target : string).

Inductive StoreReply :=
| Resolved (id : string)
| Rejected.

Inductive Key := Enter | ArrowRight | ArrowLeft | OtherKey.

(** What [handleKeyDown] does: submit, focus the input at a position
    ([inputRefs.current[i]?.focus()], nothing when there is no such input),
    or nothing. *)
Inductive KeyAction :=
| Submit
| Focus (i : nat)
| NoAction.

Definition showToast (message : string) (kind : DataEntry.ToastKind) (p : Page)
  : Page :=
  {| selectedForm := selectedForm p; formData := formData p;
     submissions := submissions p; editingId := editingId p;
     toasts := app (toasts p)
                 [{| DataEntry.message := message; DataEntry.kind := kind |}] |}.

Definition setFormData (d : gmap string val) (p : Page) : Page :=
  {| selectedForm := selectedForm p; formData := d;
     submissions := submissions p; editingId := editingId p;
     toasts := toasts p |}.

Definition setEditingId (e : option string) (p : Page) : Page :=
  {| selectedForm := selectedForm p; formData := formData p;
     submissions := submissions p; editingId := e; toasts := toasts p |}.

Definition setSubmissions (l : list Listed) (p : Page) : Page :=
  {| selectedForm := selectedForm p; formData := formData p;
     submissions := l; editingId := editingId p; toasts := toasts p |}.

(** [setFormData(prev => ({ ...prev, [fieldName]: value }))] *)
Definition handleInputChange (fieldName : string) (value : val) (p : Page)
  : Page :=
  setFormData (<[fieldName := value]> (formData p)) p.

(** [(selectedForm?.fields.length || 0)] *)
Definition field_count (p : Page) : nat :=
  match selectedForm p with
  | Some f => length (fields f)
  | None => 0
  end.

(** [handleKeyDown(e, index)]; [index === n - 1] is [index + 1 = n] for the
    positions [index >= 0] of the inputs. *)
Definition handleKeyDown (key : Key) (index : nat) (p : Page) : KeyAction :=
  match key with
  | Enter => if (index + 1 =? field_count p)%nat then Submit
             else Focus (index + 1)
  | ArrowRight => if (index + 1 <? field_count p)%nat then Focus (index + 1)
                  else NoAction
  | ArrowLeft => if (0 <? index)%nat then Focus (index - 1) else NoAction
  | OtherKey => NoAction
  end.

(** The entry being edited, as [if (editingId)] sees it: [null] and the
    empty string are falsy. *)
Definition editing_target (p : Page) : option string :=
  match editingId p with
  | Some editing => if truthy_str editing then Some editing else None
  | None => None
  end.

(** [handleSubmit]: the request it sends, if any, and the page after the
    store's [reply] to it. *)
Definition handleSubmit (uid : option string) (reply : StoreReply) (p : Page)
  : Page * option StoreCall :=
  match selectedForm p with
  | None => (p, None)
  | Some form =>
      if DataEntry.handleSubmit_missingRequired form (formData p) then
        (showToast "Please fill in all required fields." DataEntry.error p, None)
      else
        let submissionData :=
          {| DataEntry.formId := form_id form;
             DataEntry.formName := form_name form;
             DataEntry.data := formData p;
             DataEntry.submittedBy := uid |} in
        match editing_target p with
        | Some editing =>
            (match reply with
             | Resolved _ =>
                 setFormData ∅
                   (setEditingId None
                      (showToast "Entry updated successfully" DataEntry.success
                         (setSubmissions
                            (map (fun sub =>
                                    if String.eqb (id sub) editing
                                    then {| id := id sub;
                                            doc := {| DataEntry.formId :=
                                                        DataEntry.formId (doc sub);
                                                      DataEntry.formName :=
                                                        DataEntry.formName (doc sub);
                                                      DataEntry.data := formData p;
                                                      DataEntry.submittedBy :=
                                                        DataEntry.submittedBy (doc sub)
                                                   |} |}
                                    else sub)
                               (submissions p)) p)))
             | Rejected => showToast "Failed to save data" DataEntry.error p
             end,
             Some (UpdateDoc editing (formData p) uid))
        | None =>
            (match reply with
             | Resolved newId =>
                 setFormData ∅
                   (showToast "Entry added successfully" DataEntry.success
                      (setSubmissions
                         ({| id := newId; doc := submissionData |}
                          :: submissions p) p))
             | Rejected => showToast "Failed to save data" DataEntry.error p
             end,
             Some (AddDoc submissionData))
        end
  end.

(** [handleDelete(id)]; [confirmed] is the answer to [confirm(...)]. *)
Definition handleDelete (confirmed : bool) (reply : StoreReply)
    (target : string) (p : Page) : Page * option StoreCall :=
  if negb confirmed then (p, None)
  else
    (match reply with
     | Resolved _ =>
         let p' := showToast "Entry deleted successfully" DataEntry.success
                     (setSubmissions
                        (List.filter (fun sub => negb (String.eqb (id sub) target))
                           (submissions p)) p) in
         match editingId p with
         | Some editing =>
             if String.eqb editing target
             then setFormData ∅ (setEditingId None p')
             else p'
         | None => p'
         end
     | Rejected => showToast "Failed to delete entry" DataEntry.error p
     end,
     Some (DeleteDoc target)).

(** [handleEdit(submission)] *)
Definition handleEdit (submission : Listed) (p : Page) : Page :=
  setEditingId (Some (id submission))
    (setFormData (DataEntry.data (doc submission)) p).

Definition cancelEdit (p : Page) : Page :=
  setFormData ∅ (setEditingId None p).

(** [handleDownloadTemplate]: the header row of the template sheet. *)
Definition template_headers (form : FormSchema) : list string :=
  map field_name (fields form).

End EntryPage.

(** ** Routing: the guard around the pages *)

Module Routing.

Inductive Role := admin | editor | viewer.

Definition Role_eqb (a b : Role) : bool :=
  match a, b with
  | admin, admin | editor, editor | viewer, viewer => true
  | _, _ => false
  end.

(** What [ProtectedRoute] returns. *)
Inductive Guarded :=
| Spinner
| NavigateTo (path : string)
| Children.

(** [ProtectedRoute({ children, allowedRoles })] with the values of
    [useAuth()]; [currentUser] is set or not. *)
Definition ProtectedRoute (loading : bool) (currentUser : bool)
    (userRole : option Role) (allowedRoles : option (list Role)) : Guarded :=
  if loading then Spinner
  else if negb currentUser then NavigateTo "/login"
  else
    match allowedRoles, userRole with
    | Some roles, Some role =>
        if negb (existsb (Role_eqb role) roles) then NavigateTo "/"
        else Children
    | _, _ => Children
    end.

(** The [allowedRoles] of the guarded routes of [App]; [None] for a path
    that is not one of them. *)
Definition route_allowedRoles (path : string) : option (option (list Role)) :=
  if String.eqb path "/" then Some None
  else if String.eqb path "/analysis" then Some None
  else if String.eqb path "/form-builder" then Some (Some [admin; editor])
  else if String.eqb path "/data-entry" then Some None
  else if String.eqb path "/admin" then Some (Some [admin])
  else None.

End Routing.

(** ** Scenarios of the entry row *)

Module PageScenarios.
Import Js Schema EntryPage.

(** The data of a shift entered at 09:30 on 2024-03-10. *)
Definition shift_data : gmap string val :=
  list_to_map [("T", VStr "09:30"); ("D", VStr "2024-03-10")].

Definition listed_shift : Listed :=
  {| id := "s1";
     doc := {| DataEntry.formId := "f1"; DataEntry.formName := "Shifts";
               DataEntry.data := shift_data;
               DataEntry.submittedBy := Some "u1" |} |}.

(** The page with the form "Shifts" selected, one listed entry and the row
    filled in. *)
Definition entry_page : Page :=
  {| selectedForm := Some EntryScenarios.time_form;
     formData := shift_data;
     submissions := [listed_shift];
     editingId := None;
     toasts := [] |}.

(** The same page while the listed entry is edited. *)
Definition editing_page : Page := setEditingId (Some "s1") entry_page.

(** A store that accepts every write. *)
Definition accepting : nat -> DataEntry.SubmissionDoc -> bool :=
  fun _ _ => true.

(** A wheel, a drag and a reset. *)
Definition some_events : list Measures.Event :=
  [Measures.Wheel (Binary64.of_Z (-1)); Measures.MouseDown (Binary64.of_Z 10);
   Measures.MouseMove (Binary64.of_Z 5); Measures.MouseUp;
   Measures.ResetZoom].

End PageScenarios.

(** * Properties *)

(** ** Facts about the built-ins *)

Module JsFacts.
Import Js.

Lemma truthy_num_true (n : Q) : truthy_num n = true <-> ~ (n == 0)%Q.
Proof.
  unfold truthy_num. rewrite negb_true_iff.
  split.
  - intros H E. apply Qeq_bool_iff in E. congruence.
  - intros H. destruct (Qeq_bool n 0) eqn:E; [|reflexivity].
    apply Qeq_bool_iff in E. contradiction.
Qed.

Lemma truthy_num_false (n : Q) : truthy_num n = false <-> (n == 0)%Q.
Proof.
  unfold truthy_num. rewrite negb_false_iff. apply Qeq_bool_iff.
Qed.

Lemma truthy_str_true (s : string) : truthy_str s = true <-> s <> "".
Proof.
  unfold truthy_str. rewrite negb_true_iff. apply String.eqb_neq.
Qed.

Lemma truthy_str_false (s : string) : truthy_str s = false <-> s = "".
Proof.
  unfold truthy_str. rewrite negb_false_iff. apply String.eqb_eq.
Qed.

Lemma Qltb_lt (a b : Q) : Qltb a b = true <-> (a < b)%Q.
Proof.
  unfold Qltb. rewrite negb_true_iff. split.
  - intros H. apply Qnot_le_lt. intros L. apply Qle_bool_iff in L. congruence.
  - intros H. destruct (Qle_bool b a) eqn:E; [|reflexivity].
    apply Qle_bool_iff in E. exfalso. apply (Qlt_not_le _ _ H E).
Qed.

Lemma Qltb_ge (a b : Q) : Qltb a b = false <-> (b <= a)%Q.
Proof.
  unfold Qltb. rewrite negb_false_iff. apply Qle_bool_iff.
Qed.

Lemma Qle_bool_false (a b : Q) : Qle_bool a b = false <-> (b < a)%Q.
Proof.
  rewrite <- Qltb_lt. unfold Qltb. rewrite negb_true_iff. reflexivity.
Qed.

(** *** The stable sort *)

Section SortFacts.
Context {A : Type} (le : A -> A -> bool).

Lemma insert_sorted_perm (x : A) (l : list A) :
  Permutation (insert_sorted le x l) (x :: l).
Proof.
  induction l as [|y l IH]; simpl.
  - reflexivity.
  - destruct (le x y).
    + reflexivity.
    + rewrite IH. apply perm_swap.
Qed.

Lemma sort_perm (l : list A) : Permutation (sort le l) l.
Proof.
  induction l as [|x l IH]; simpl.
  - reflexivity.
  - rewrite insert_sorted_perm. constructor. exact IH.
Qed.

Lemma sort_length (l : list A) : length (sort le l) = length l.
Proof. apply Permutation_length, sort_perm. Qed.

Lemma sort_nil_inv (l : list A) : sort le l = [] -> l = [].
Proof.
  intros H. apply (f_equal (@length A)) in H. rewrite sort_length in H.
  destruct l; [reflexivity|discriminate].
Qed.

Hypothesis le_total : forall a b, le a b = false -> le b a = true.



End SortFacts.

(** Picking the elements one after the other rearranges them. *)
Lemma pick_all_perm {A : Type} (picks : list nat) (l : list A) :
  Permutation (pick_all picks l) l.
Proof.
  revert l. induction picks as [|p picks IH]; intros l; simpl; [reflexivity|].
  destruct (l !! (p mod length l)%nat) as [x|] eqn:E; [|reflexivity].
  rewrite IH. symmetry. apply delete_Permutation. exact E.
Qed.



End JsFacts.

(** ** Facts about binary64 arithmetic *)

Module Binary64Facts.
Import Binary64.

(** *** Comparison *)

Lemma compare_antisym (x y : float) :
  SFcompare y x = CompOpp <$> SFcompare x y.
Proof.
  destruct x as [sx|sx| |sx mx ex], y as [sy|sy| |sy my ey]; simpl;
    try reflexivity;
    try (destruct sx; reflexivity); try (destruct sy; reflexivity);
    try (destruct sx, sy; reflexivity).
  assert (Hp : Pos.compare_cont Eq my mx = CompOpp (Pos.compare_cont Eq mx my)).
  { rewrite Pos.compare_cont_antisym. reflexivity. }
  rewrite Hp, (Z.compare_antisym ex ey).
  destruct sx, sy, (ex ?= ey)%Z, (Pos.compare_cont Eq mx my); reflexivity.
Qed.

Lemma ltb_asym (a b : float) : (a <? b)%D = true -> (b <? a)%D = false.
Proof.
  unfold ltb, SFltb. rewrite (compare_antisym a b).
  destruct (SFcompare a b) as [[ | | ]|]; simpl; congruence.
Qed.

Lemma ltb_irrefl (a : float) : (a <? a)%D = false.
Proof.
  destruct (a <? a)%D eqn:E; [|reflexivity].
  pose proof (ltb_asym a a E). congruence.
Qed.

Lemma ltb_leb (a b : float) : (a <? b)%D = true -> (a <=? b)%D = true.
Proof.
  unfold ltb, leb, SFltb, SFleb.
  destruct (SFcompare a b) as [[ | | ]|]; congruence.
Qed.

Lemma leb_not_ltb (a b : float) : (a <=? b)%D = true -> (b <? a)%D = false.
Proof.
  unfold ltb, leb, SFltb, SFleb. rewrite (compare_antisym a b).
  destruct (SFcompare a b) as [[ | | ]|]; simpl; congruence.
Qed.

Lemma compare_not_nan (a b : float) :
  is_nan a = false -> is_nan b = false -> exists c, SFcompare a b = Some c.
Proof.
  destruct a, b; simpl; try discriminate; intros _ _; eexists; reflexivity.
Qed.

(** Two numbers neither of which is below the other compare as equal. *)
Lemma not_ltb_leb (a b : float) :
  is_nan a = false -> is_nan b = false ->
  (b <? a)%D = false -> (a <=? b)%D = true.
Proof.
  intros Ha Hb. destruct (compare_not_nan a b Ha Hb) as [c Hc].
  unfold ltb, leb, SFltb, SFleb. rewrite (compare_antisym a b), Hc.
  destruct c; simpl; congruence.
Qed.

Lemma leb_refl (a : float) : is_nan a = false -> (a <=? a)%D = true.
Proof. intros H. apply not_ltb_leb; [exact H|exact H|apply ltb_irrefl]. Qed.

Lemma leb_is_nan (a b : float) :
  (a <=? b)%D = true -> is_nan a = false /\ is_nan b = false.
Proof.
  destruct a, b; simpl; try discriminate; intros _; split; reflexivity.
Qed.

(** Zeros compare alike, whatever their sign. *)
Lemma leb_zero_l (s : bool) (b : float) :
  (S754_zero s <=? b)%D = (zero <=? b)%D.
Proof. destruct b; reflexivity. Qed.

Lemma leb_zero_r (s : bool) (a : float) :
  (a <=? S754_zero s)%D = (a <=? zero)%D.
Proof. destruct a; reflexivity. Qed.

Lemma ltb_zero_r (s : bool) (a : float) :
  (a <? S754_zero s)%D = (a <? zero)%D.
Proof. destruct a; reflexivity. Qed.

(** *** Rounding never yields NaN and keeps the sign *)

Lemma shr_1_nonneg (mrs : shr_record) :
  (0 <= shr_m mrs)%Z -> (0 <= shr_m (shr_1 mrs))%Z.
Proof.
  destruct mrs as [m r s]. simpl. intros H.
  destruct m as [|p|p]; [simpl; lia| |lia].
  destruct p; simpl; lia.
Qed.

Lemma iter_shr_1_nonneg (p : positive) (mrs : shr_record) :
  (0 <= shr_m mrs)%Z -> (0 <= shr_m (SpecFloat.iter_pos shr_1 p mrs))%Z.
Proof.
  revert mrs. induction p as [p IH|p IH|]; intros mrs H; simpl.
  - apply IH, IH, shr_1_nonneg, H.
  - apply IH, IH, H.
  - apply shr_1_nonneg, H.
Qed.

Lemma shr_fexp_nonneg (m e : Z) (l : location) :
  (0 <= m)%Z -> (0 <= shr_m (shr_fexp prec emax m e l).1)%Z.
Proof.
  intros H. unfold shr_fexp, shr.
  assert (H0 : (0 <= shr_m (shr_record_of_loc m l))%Z).
  { destruct l as [|[ | | ]]; exact H. }
  destruct (fexp prec emax (Zdigits2 m + e) - e)%Z; simpl;
    [exact H0|apply iter_shr_1_nonneg; exact H0|exact H0].
Qed.

Lemma round_nearest_even_nonneg (m : Z) (l : location) :
  (0 <= m)%Z -> (0 <= round_nearest_even m l)%Z.
Proof.
  intros H. destruct l as [|[ | | ]]; simpl; try lia.
  destruct (Z.even m); lia.
Qed.

Lemma binary_round_aux_sign (s : bool) (m e : Z) (l : location) :
  (0 <= m)%Z ->
  match binary_round_aux prec emax s m e l with
  | S754_zero s' | S754_infinity s' | S754_finite s' _ _ => s' = s
  | S754_nan => False
  end.
Proof.
  intros H. unfold binary_round_aux.
  pose proof (shr_fexp_nonneg m e l H) as H1.
  destruct (shr_fexp prec emax m e l) as [mrs' e'] eqn:E1. simpl in H1.
  pose proof (shr_fexp_nonneg _ e' loc_Exact
                (round_nearest_even_nonneg _ (loc_of_shr_record mrs') H1)) as H2.
  destruct (shr_fexp prec emax
              (round_nearest_even (shr_m mrs') (loc_of_shr_record mrs')) e'
              loc_Exact) as [mrs'' e''] eqn:E2.
  simpl in H2. destruct (shr_m mrs'') as [|p|p] eqn:E3; [reflexivity| |lia].
  destruct (e'' <=? emax - prec)%Z; reflexivity.
Qed.


(** The product of a number with a finite number other than zero is a
    number. *)
Lemma mul_not_nan (x : float) (s : bool) (m : positive) (e : Z) :
  is_nan x = false -> is_nan (x * S754_finite s m e)%D = false.
Proof.
  destruct x as [sx|sx| |sx mx ex]; simpl; try reflexivity; try discriminate.
  intros _. unfold mul, SFmul.
  pose proof (binary_round_aux_sign (xorb sx s) (Z.pos (mx * m)) (ex + e)
                loc_Exact ltac:(lia)) as H.
  destruct (binary_round_aux prec emax (xorb sx s) (Z.pos (mx * m)) (ex + e)
              loc_Exact); [reflexivity|reflexivity|contradiction|reflexivity].
Qed.

(** *** Adding and subtracting zero *)

Lemma add_zero_l (x : float) :
  (zero + x)%D = match x with S754_zero _ => zero | _ => x end.
Proof. destruct x as [[|]| | |]; reflexivity. Qed.

Lemma sub_zero_r (x : float) :
  (x - zero)%D = match x with S754_zero true => x | S754_zero false => zero
                 | _ => x end.
Proof. destruct x as [[|]|[|]| |]; reflexivity. Qed.

(** *** The sign of a difference *)



(** *** A finite number divided by itself *)



(** *** [f || 0], [Math.min] and [Math.max] *)

Lemma or_zero_not_nan (f : float) : is_nan (or_zero f) = false.
Proof. destruct f; reflexivity. Qed.

Lemma Math_min_not_nan (a b : float) :
  is_nan a = false -> is_nan b = false -> is_nan (Math_min a b) = false.
Proof.
  intros Ha Hb. unfold Math_min. rewrite Ha, Hb. simpl.
  destruct (a <? b)%D; [exact Ha|].
  destruct (b <? a)%D; [exact Hb|].
  destruct a as [[|]| | |]; assumption.
Qed.

Lemma Math_min_leb (a b : float) :
  is_nan a = false -> is_nan b = false -> (Math_min a b <=? b)%D = true.
Proof.
  intros Ha Hb. unfold Math_min. rewrite Ha, Hb. simpl.
  destruct (a <? b)%D eqn:E1; [apply ltb_leb; exact E1|].
  destruct (b <? a)%D eqn:E2; [apply leb_refl; exact Hb|].
  assert (H : (a <=? b)%D = true) by (apply not_ltb_leb; assumption).
  destruct a as [[|]| | |]; try exact H; apply leb_refl; exact Hb.
Qed.

Lemma max2_not_nan (a b : float) :
  is_nan a = false -> is_nan b = false -> is_nan (max2 a b) = false.
Proof.
  intros Ha Hb. unfold max2. rewrite Ha, Hb. simpl.
  destruct (a <? b)%D; [exact Hb|].
  destruct (b <? a)%D; [exact Ha|].
  destruct a as [[|]| | |]; assumption.
Qed.

Lemma Math_max_not_nan (l : list float) :
  Forall (fun f => is_nan f = false) l -> is_nan (Math_max l) = false.
Proof.
  unfold Math_max.
  assert (H : forall l a, is_nan a = false ->
                Forall (fun f => is_nan f = false) l ->
                is_nan (fold_left max2 l a) = false).
  { clear l. induction l as [|x l IH]; intros a Ha Hl; simpl; [exact Ha|].
    apply Forall_cons in Hl. destruct Hl as [Hx Hl].
    apply IH; [apply max2_not_nan; assumption|exact Hl]. }
  apply H. reflexivity.
Qed.

Lemma Math_max_zeros (n : nat) : Math_max (replicate (S n) zero) = zero.
Proof.
  unfold Math_max. simpl.
  change (max2 (S754_infinity true) zero) with zero.
  induction n as [|n IH]; [reflexivity|exact IH].
Qed.

End Binary64Facts.

(** ** The chart data transforms *)

Module AnalysisSpec.
Import Js JsFacts Binary64 Binary64Facts Analysis Measures.

Lemma filter_split_perm {A : Type} (p : A -> bool) (l : list A) :
  Permutation (List.filter p l ++ List.filter (fun x => negb (p x)) l) l.
Proof.
  induction l as [|x l IH]; simpl.
  - reflexivity.
  - destruct (p x); simpl.
    + constructor. exact IH.
    + rewrite <- Permutation_middle. constructor. exact IH.
Qed.

Lemma Object_entries_perm (g : list (string * GroupValue)) :
  Permutation (Object_entries g) g.
Proof.
  unfold Object_entries. rewrite sort_perm. apply filter_split_perm.
Qed.

(** The double nearest to a rational is a number. *)
Lemma of_Q_not_nan (q : Q) : is_nan (of_Q q) = false.
Proof.
  assert (H : forall s n d, is_nan (round_div s n d) = false).
  { intros s n d. unfold round_div, SFdiv_core_binary.
    set (m' := match (0 - 0 - _)%Z with
               | 0%Z => Z.pos n
               | Z.pos _ => Z.shiftl (Z.pos n) _
               | Z.neg _ => 0%Z
               end).
    assert (Hm : (0 <= m')%Z).
    { unfold m'.
      destruct (0 - 0 - _)%Z; [lia| |lia].
      apply Z.shiftl_nonneg. lia. }
    pose proof (Z.div_pos m' (Z.pos d) Hm ltac:(lia)) as Hq.
    unfold Z.div in Hq.
    destruct (Z.div_eucl m' (Z.pos d)) as [q' r]. simpl in Hq.
    match goal with
    | |- context [binary_round_aux _ _ ?s' ?m ?e ?l] =>
        pose proof (binary_round_aux_sign s' m e l Hq) as Hs;
        destruct (binary_round_aux prec emax s' m e l);
        [reflexivity|reflexivity|contradiction|reflexivity]
    end. }
  unfold of_Q. destruct (Qnum q); [reflexivity|apply H|apply H].
Qed.

Section WithRuntime.
Context `{RT : Runtime}.

Lemma fold_count_value_length (values : list float) (bins : list Bin) :
  length (fold_left count_value values bins) = length bins.
Proof.
  revert bins. induction values as [|v values IH]; intros bins; simpl.
  - reflexivity.
  - rewrite IH. unfold count_value. apply length_alter.
Qed.

Lemma empty_bins_length (config : ChartConfig) (min max : float) :
  length (empty_bins config min max) = 10%nat.
Proof. reflexivity. Qed.


Lemma sorted_values_length (config : ChartConfig) (submissions : list Submission) :
  length (sorted_values config submissions) = length submissions.
Proof.
  unfold sorted_values. rewrite sort_length. apply length_map.
Qed.


Lemma histogram_bins_length (config : ChartConfig) (submissions : list Submission) :
  submissions <> [] -> length (histogram_bins config submissions) = 10%nat.
Proof.
  intros Hne. unfold histogram_bins.
  destruct (sorted_values config submissions) as [|min values] eqn:E.
  - apply (f_equal (@length float)) in E. rewrite sorted_values_length in E.
    destruct submissions; [contradiction|discriminate].
  - rewrite fold_count_value_length. apply empty_bins_length.
Qed.

Lemma with_cumulative_length (config : ChartConfig) (total cumulative : GroupValue)
    (sorted : list (string * GroupValue)) :
  length (with_cumulative config total cumulative sorted) = length sorted.
Proof.
  revert cumulative. induction sorted as [|item rest IH]; intros c; simpl.
  - reflexivity.
  - rewrite IH. reflexivity.
Qed.

Lemma sorted_groups_perm (config : ChartConfig) (submissions : list Submission) :
  Permutation (sorted_groups config submissions) (grouped config submissions).
Proof.
  unfold sorted_groups.
  destruct (forallb is_ordered (Object_entries (grouped config submissions))).
  - rewrite sort_perm. apply Object_entries_perm.
  - rewrite pick_all_perm. apply Object_entries_perm.
Qed.

Lemma pareto_items_length (config : ChartConfig) (submissions : list Submission) :
  length (pareto_items config submissions)
  = length (grouped config submissions).
Proof.
  unfold pareto_items. rewrite with_cumulative_length.
  apply Permutation_length, sorted_groups_perm.
Qed.

Lemma chartData_guard (submissions : list Submission) (config : ChartConfig) :
  submissions = [] \/ xAxis config = "" \/ yAxis config = "" ->
  chartData submissions config = [].
Proof.
  intros H. unfold chartData.
  destruct H as [-> | [H | H]].
  - reflexivity.
  - apply truthy_str_false in H. rewrite H.
    destruct (length submissions =? 0)%nat; reflexivity.
  - apply truthy_str_false in H. rewrite H.
    destruct (length submissions =? 0)%nat, (truthy_str (xAxis config));
      reflexivity.
Qed.

Lemma chartData_unguarded (submissions : list Submission) (config : ChartConfig) :
  submissions <> [] -> xAxis config <> "" -> yAxis config <> "" ->
  chartData submissions config
  = match type config with
    | histogram => BinPoint <$> histogram_bins config submissions
    | pareto => ParetoPoint <$> pareto_items config submissions
    | _ => imap (fun index sub => DataPoint (data_point config index sub))
             submissions
    end.
Proof.
  intros Hs Hx Hy. unfold chartData.
  apply truthy_str_true in Hx, Hy. rewrite Hx, Hy.
  destruct submissions; [contradiction|]. reflexivity.
Qed.

Lemma chartData_length (submissions : list Submission) (config : ChartConfig) :
  submissions <> [] -> xAxis config <> "" -> yAxis config <> "" ->
  length (chartData submissions config)
  = match type config with
    | histogram => 10%nat
    | pareto => length (grouped config submissions)
    | _ => length submissions
    end.
Proof.
  intros Hs Hx Hy. rewrite chartData_unguarded by assumption.
  destruct (type config); rewrite ?length_fmap, ?length_imap;
    try reflexivity.
  - apply histogram_bins_length. exact Hs.
  - apply pareto_items_length.
Qed.

(** *** Histogram: where a value is counted *)















(** *** Pareto: the object [grouped] *)

Lemma assoc_get_set_eq (g : list (string * GroupValue)) (k : string)
    (n : GroupValue) :
  assoc_get (assoc_set g k n) k = Some n.
Proof.
  induction g as [|[k' n'] g IH]; simpl.
  - rewrite String.eqb_refl. reflexivity.
  - destruct (String.eqb k' k) eqn:E; simpl; rewrite E; [reflexivity|exact IH].
Qed.

Lemma assoc_get_set_ne (g : list (string * GroupValue)) (k k' : string)
    (n : GroupValue) :
  k' <> k -> assoc_get (assoc_set g k n) k' = assoc_get g k'.
Proof.
  intros Hne. induction g as [|[k0 n0] g IH]; simpl.
  - apply String.eqb_neq in Hne. rewrite String.eqb_sym, Hne. reflexivity.
  - destruct (String.eqb k0 k) eqn:E; simpl.
    + apply String.eqb_eq in E. subst k0.
      assert (F : String.eqb k k' = false) by (apply String.eqb_neq; congruence).
      rewrite F. reflexivity.
    + rewrite IH. reflexivity.
Qed.

Lemma assoc_get_In (g : list (string * GroupValue)) (k : string)
    (n : GroupValue) :
  assoc_get g k = Some n -> In (k, n) g.
Proof.
  induction g as [|[k' n'] g IH]; simpl; [discriminate|].
  destruct (String.eqb k' k) eqn:E.
  - apply String.eqb_eq in E. intros [= ->]. left. congruence.
  - intros H. right. apply IH. exact H.
Qed.

Lemma assoc_get_None (g : list (string * GroupValue)) (k : string) :
  assoc_get g k = None -> ~ In k (map fst g).
Proof.
  induction g as [|[k' n'] g IH]; simpl; [tauto|].
  destruct (String.eqb k' k) eqn:E; [discriminate|].
  apply String.eqb_neq in E. intros H [F|F]; [contradiction|].
  apply IH; assumption.
Qed.


Lemma assoc_set_keys (g : list (string * GroupValue)) (k : string)
    (n : GroupValue) :
  map fst (assoc_set g k n)
  = match assoc_get g k with
    | Some _ => map fst g
    | None => (map fst g ++ [k])%list
    end.
Proof.
  induction g as [|[k' n'] g IH]; simpl; [reflexivity|].
  destruct (String.eqb k' k) eqn:E; simpl; [reflexivity|].
  rewrite IH. destruct (assoc_get g k); reflexivity.
Qed.

Lemma assoc_set_NoDup (g : list (string * GroupValue)) (k : string)
    (n : GroupValue) :
  NoDup (map fst g) -> NoDup (map fst (assoc_set g k n)).
Proof.
  intros Hnd. rewrite assoc_set_keys.
  destruct (assoc_get g k) eqn:E; [exact Hnd|].
  apply NoDup_app. split; [exact Hnd|]. split.
  - intros x Hx Hk. apply list_elem_of_In in Hx, Hk.
    destruct Hk as [<-|[]]. apply (assoc_get_None _ _ E). exact Hx.
  - apply NoDup_singleton.
Qed.

Lemma group_sum_snoc (l : list float) (x : float) :
  group_sum (l ++ [x])%list = (or_zero (group_sum l) + x)%D.
Proof. unfold group_sum. rewrite fold_left_app. reflexivity. Qed.

Lemma group_values_snoc (config : ChartConfig) (key : string)
    (pre : list Submission) (sub : Submission) :
  group_values config key (pre ++ [sub])%list
  = (group_values config key pre
     ++ (if String.eqb (pareto_key config sub) key
         then [y_number config sub] else []))%list.
Proof.
  unfold group_values. rewrite List.filter_app, map_app. simpl.
  destruct (String.eqb (pareto_key config sub) key); reflexivity.
Qed.

Lemma grouped_snoc (config : ChartConfig) (pre : list Submission)
    (sub : Submission) :
  grouped config (pre ++ [sub])%list
  = group_step config (grouped config pre) sub.
Proof. unfold grouped. rewrite fold_left_app. reflexivity. Qed.

(** After any number of submissions, [grouped] has one own property per key
    seen so far other than [__proto__]: a string when the key names an
    inherited function, and otherwise the number that the key's y values
    leave, added in order. *)
Lemma grouped_spec (config : ChartConfig) (submissions : list Submission) :
  NoDup (map fst (grouped config submissions))
  /\ forall key,
       match assoc_get (grouped config submissions) key with
       | Some v =>
           key <> "__proto__"
           /\ group_values config key submissions <> []
           /\ v = if is_inherited_function key then GText
                  else GNum (group_sum (group_values config key submissions))
       | None =>
           key = "__proto__" \/ group_values config key submissions = []
       end.
Proof.
  induction submissions as [|sub pre IH] using rev_ind.
  - split; [constructor|]. intros key. right. reflexivity.
  - destruct IH as [Hnd IH]. rewrite grouped_snoc. unfold group_step.
    destruct (String.eqb (pareto_key config sub) "__proto__") eqn:P.
    + apply String.eqb_eq in P. split; [exact Hnd|].
      intros key. specialize (IH key). rewrite group_values_snoc.
      destruct (String.eqb (pareto_key config sub) key) eqn:E.
      * apply String.eqb_eq in E. rewrite P in E. subst key.
        destruct (assoc_get (grouped config pre) "__proto__").
        -- destruct IH as [IH _]. contradiction.
        -- left. reflexivity.
      * rewrite app_nil_r. exact IH.
    + apply String.eqb_neq in P.
      split; [apply assoc_set_NoDup; exact Hnd|].
      intros key. rewrite group_values_snoc.
      destruct (String.eqb (pareto_key config sub) key) eqn:E.
      * apply String.eqb_eq in E. subst key. rewrite assoc_get_set_eq.
        split; [exact P|].
        split; [intros F; apply app_eq_nil in F; destruct F; discriminate|].
        specialize (IH (pareto_key config sub)).
        destruct (assoc_get (grouped config pre) (pareto_key config sub))
          as [[n|]|].
        -- destruct IH as (_ & _ & IH).
           destruct (is_inherited_function (pareto_key config sub));
             [discriminate|].
           injection IH as ->. rewrite group_sum_snoc. reflexivity.
        -- destruct IH as (_ & _ & IH).
           destruct (is_inherited_function (pareto_key config sub));
             [reflexivity|discriminate].
        -- destruct IH as [IH|IH]; [contradiction|]. rewrite IH.
           destruct (is_inherited_function (pareto_key config sub));
             reflexivity.
      * apply String.eqb_neq in E. rewrite assoc_get_set_ne by congruence.
        rewrite app_nil_r. apply IH.
Qed.

(** [grouped] has no property exactly when every key is [__proto__]. *)
Lemma grouped_nil_iff (config : ChartConfig) (submissions : list Submission) :
  grouped config submissions = []
  <-> forall sub, In sub submissions -> pareto_key config sub = "__proto__".
Proof.
  split.
  - intros E sub Hin.
    destruct (grouped_spec config submissions) as [_ Hg].
    specialize (Hg (pareto_key config sub)). rewrite E in Hg. simpl in Hg.
    destruct Hg as [Hg|Hg]; [exact Hg|]. exfalso.
    unfold group_values in Hg.
    assert (Hin' : In (y_number config sub)
                     (map (y_number config)
                        (List.filter
                           (fun s => String.eqb (pareto_key config s)
                                       (pareto_key config sub)) submissions))).
    { apply in_map. apply List.filter_In. split; [exact Hin|].
      apply String.eqb_refl. }
    rewrite Hg in Hin'. exact Hin'.
  - intros H. unfold grouped.
    induction submissions as [|sub pre IH] using rev_ind; [reflexivity|].
    rewrite fold_left_app. simpl. rewrite IH.
    + unfold group_step. rewrite (H sub). * reflexivity.
      * apply in_or_app. right. left. reflexivity.
    + intros s Hs. apply H. apply in_or_app. left. exact Hs.
Qed.

(** *** Pareto: sorting and cumulative percentages *)

Lemma with_cumulative_pairs (config : ChartConfig) (total cumulative : GroupValue)
    (sorted : list (string * GroupValue)) :
  map (fun it => (name it, value it))
    (with_cumulative config total cumulative sorted) = sorted.
Proof.
  revert cumulative. induction sorted as [|[k n] rest IH]; intros c; simpl.
  - reflexivity.
  - rewrite IH. reflexivity.
Qed.








(** The items of the pareto output are the properties of [grouped]. *)
Lemma pareto_items_pairs (config : ChartConfig) (submissions : list Submission) :
  Permutation (map (fun it => (name it, value it))
                 (pareto_items config submissions))
    (grouped config submissions).
Proof.
  unfold pareto_items. rewrite with_cumulative_pairs.
  apply sorted_groups_perm.
Qed.



(** Every submission whose key is not [__proto__] is in the item named by
    its key. *)
Lemma pareto_items_group (config : ChartConfig) (submissions : list Submission)
    (sub : Submission) :
  In sub submissions ->
  pareto_key config sub <> "__proto__" ->
  exists it, In it (pareto_items config submissions)
             /\ name it = pareto_key config sub
             /\ value it
                = if is_inherited_function (pareto_key config sub) then GText
                  else GNum (group_sum (group_values config
                                          (pareto_key config sub) submissions)).
Proof.
  intros Hsub Hproto. destruct (grouped_spec config submissions) as [Hnd Hg].
  specialize (Hg (pareto_key config sub)).
  destruct (assoc_get (grouped config submissions) (pareto_key config sub))
    as [v|] eqn:E.
  - destruct Hg as (_ & _ & Hv). apply assoc_get_In in E.
    apply list_elem_of_In in E.
    rewrite <- (pareto_items_pairs config submissions) in E.
    apply list_elem_of_In in E.
    apply in_map_iff in E. destruct E as (it & Heq & Hit).
    injection Heq as Hname Hvalue.
    exists it. split; [exact Hit|]. split; [exact Hname|].
    rewrite Hvalue. exact Hv.
  - exfalso. destruct Hg as [Hg|Hg]; [contradiction|].
    unfold group_values in Hg.
    assert (Hin : In (y_number config sub)
                    (map (y_number config)
                       (List.filter
                          (fun s => String.eqb (pareto_key config s)
                                      (pareto_key config sub)) submissions))).
    { apply in_map. apply List.filter_In. split; [exact Hsub|].
      apply String.eqb_refl. }
    rewrite Hg in Hin. exact Hin.
Qed.


(** *** The guard of [chartData] *)

(** C1 (amended).  [chartData] is empty whenever there are no submissions or
    the y axis is unset, and, for every chart type other than histogram
    (pareto included), whenever the x axis is unset.  When there are
    submissions and both axes are set it has 10 bins for a histogram, one
    point per submission for the series types and, for pareto, one item per
    own property of [grouped]; it is then empty only for a pareto chart
    every submission of which has the key "__proto__". *)
Theorem chartData_empty_when (submissions : list Submission) (config : ChartConfig) :
  (submissions = [] \/ yAxis config = ""
   \/ (type config <> histogram /\ xAxis config = "") ->
   chartData submissions config = [])
  /\ (submissions <> [] /\ xAxis config <> "" /\ yAxis config <> "" ->
      length (chartData submissions config)
      = match type config with
        | histogram => 10%nat
        | pareto => length (grouped config submissions)
        | _ => length submissions
        end
      /\ (chartData submissions config = []
          <-> type config = pareto
              /\ forall sub, In sub submissions ->
                   pareto_key config sub = "__proto__")).
Proof.
  split.
  - intros H. apply chartData_guard. tauto.
  - intros (Hs & Hx & Hy).
    pose proof (chartData_length submissions config Hs Hx Hy) as Hlen.
    split; [exact Hlen|].
    split.
    + intros E. rewrite E in Hlen. simpl in Hlen.
      destruct (type config); try discriminate;
        try (destruct submissions; [contradiction|discriminate]).
      split; [reflexivity|]. apply grouped_nil_iff.
      destruct (grouped config submissions); [reflexivity|discriminate].
    + intros [Hty Hall]. apply grouped_nil_iff in Hall.
      rewrite Hty, Hall in Hlen.
      destruct (chartData submissions config); [reflexivity|discriminate].
Qed.

(** *** Falsy categories in the pareto transform *)

Lemma truthy_false_iff (v : val) :
  truthy v = false
  <-> v = VUndefined \/ v = VNull \/ v = VBool false
      \/ (exists n, v = VNum n /\ (n == 0)%Q) \/ v = VStr "".
Proof.
  split.
  - destruct v as [| |b|n|s|o]; simpl; intros H; auto.
    + subst b. auto.
    + apply truthy_num_false in H. right. right. right. left. exists n. auto.
    + apply truthy_str_false in H. subst s. auto 6.
    + discriminate.
  - intros [ -> | [ -> | [ -> | [ [n [ -> Hn ] ] | -> ] ] ] ]; try reflexivity.
    apply truthy_num_false. exact Hn.
Qed.

(** C10.  A submission whose x value is falsy (missing, null, false, the
    number 0 or the empty string) has the pareto key "Unknown"; in the
    output of any list of submissions that contains it, it is part of the
    item named "Unknown", whose value sums all the submissions with that
    key.  On the categories 0, "", false, missing and "Unknown" the output
    is the single item Unknown. *)
Theorem pareto_key_falsy (config : ChartConfig) (sub : Submission) :
  (get (data sub) (xAxis config) = VUndefined
   \/ get (data sub) (xAxis config) = VNull
   \/ get (data sub) (xAxis config) = VBool false
   \/ (exists n, get (data sub) (xAxis config) = VNum n /\ (n == 0)%Q)
   \/ get (data sub) (xAxis config) = VStr "") ->
  pareto_key config sub = "Unknown"
  /\ (forall submissions, In sub submissions ->
        exists it, In it (pareto_items config submissions)
                   /\ name it = "Unknown"
                   /\ value it
                      = GNum (group_sum
                                (group_values config "Unknown" submissions)))
  /\ chartData Scenarios.falsy_cat_submissions
       (Scenarios.config_of pareto "cat" "val")
     = [ ParetoPoint {| name := "Unknown"; value := GNum (of_Z 15);
                        cumulativePercentage := of_Z 100;
                        pareto_target := None |} ].
Proof.
  intros Hfalsy. apply truthy_false_iff in Hfalsy.
  assert (Hkey : pareto_key config sub = "Unknown").
  { unfold pareto_key. rewrite Hfalsy. reflexivity. }
  split; [exact Hkey|]. split.
  - intros submissions Hin.
    destruct (pareto_items_group config submissions sub Hin)
      as (it & Hit & Hname & Hvalue).
    + rewrite Hkey. discriminate.
    + rewrite Hkey in Hname, Hvalue. exists it. auto.
  - vm_compute. reflexivity.
Qed.

(** *** Viewport: zoom *)

Lemma number_of_not_nan (v : val) : is_nan (number_of v) = false.
Proof. apply or_zero_not_nan. Qed.

(** [Number(d[k]) || 0] is never NaN. *)
Lemma point_number_not_nan (d : ChartPoint) (k : string) :
  is_nan (point_number d k) = false.
Proof.
  destruct d as [b|p|o]; simpl.
  - repeat match goal with
           | |- context [String.eqb k ?s] => destruct (String.eqb k s)
           end;
      first [apply number_of_not_nan|apply or_zero_not_nan|reflexivity].
  - repeat match goal with
           | |- context [String.eqb k ?s] => destruct (String.eqb k s)
           end;
      first [apply number_of_not_nan|apply or_zero_not_nan|reflexivity|idtac].
    destruct (value p); [apply or_zero_not_nan|reflexivity].
  - apply number_of_not_nan.
Qed.

(** The cap [Math.max(...) * 1.1] of the zoom is a number. *)
Lemma cap_not_nan (config : ChartConfig) (chartData : list ChartPoint) :
  is_nan (Math_max (y_values config chartData) * of_Q 1.1)%D = false.
Proof.
  change (of_Q 1.1) with (S754_finite false 4953959590107546 (-52)).
  apply mul_not_nan. apply Math_max_not_nan.
  unfold y_values. apply Forall_forall. intros f Hf.
  apply list_elem_of_In in Hf. apply in_map_iff in Hf.
  destruct Hf as (d & <- & _). apply point_number_not_nan.
Qed.

(** One wheel event over chart data that is not empty. *)
Lemma handleWheel_eq (deltaY : float) (chartData : list ChartPoint)
    (config : ChartConfig) (lo : float) (hi : Bound) :
  chartData <> [] ->
  handleWheel deltaY chartData config (num lo, hi)
  = (num lo,
     num (lo + Math_min
                 ((match hi with
                   | auto => Math_max (y_values config chartData) * of_Q 1.1
                   | num n => n
                   end - lo)
                  * (of_Z 1 + (if (zero <? deltaY)%D then of_Q 0.10
                               else opp (of_Q 0.10))))
                 (Math_max (y_values config chartData) * of_Q 1.1))%D).
Proof.
  intros Hne. unfold handleWheel.
  destruct chartData; [contradiction|]. reflexivity.
Qed.

(** From a domain that starts at 0 and ends at a number, a wheel event
    leaves a domain that starts at 0 and ends at a number that is at most
    the cap. *)
Lemma wheel_step_bounded (deltaY : float) (chartData : list ChartPoint)
    (config : ChartConfig) (hi : Bound) :
  chartData <> [] ->
  match hi with auto => True | num n => is_nan n = false end ->
  exists hi',
    handleWheel deltaY chartData config (num zero, hi) = (num zero, num hi')
    /\ is_nan hi' = false
    /\ (hi' <=? Math_max (y_values config chartData) * of_Q 1.1)%D = true.
Proof.
  intros Hne Hhi. rewrite (handleWheel_eq deltaY _ _ _ _ Hne).
  pose proof (cap_not_nan config chartData) as Hcap.
  set (cap := (Math_max (y_values config chartData) * of_Q 1.1)%D) in *.
  set (currentMax := match hi with auto => cap | num n => n end).
  assert (Hmax : is_nan currentMax = false).
  { unfold currentMax. destruct hi; [exact Hcap|exact Hhi]. }
  assert (Hrange : is_nan (currentMax - zero)%D = false).
  { rewrite sub_zero_r. destruct currentMax as [[|]| | |]; first
      [reflexivity|discriminate]. }
  set (factor := (of_Z 1 + (if (zero <? deltaY)%D then of_Q 0.10
                            else opp (of_Q 0.10)))%D).
  assert (Hfactor : exists s m e, factor = S754_finite s m e).
  { unfold factor. destruct (zero <? deltaY)%D.
    - exists false, 4953959590107546%positive, (-52)%Z. reflexivity.
    - exists false, 8106479329266893%positive, (-53)%Z. reflexivity. }
  destruct Hfactor as (s & m & e & ->).
  pose proof (mul_not_nan _ s m e Hrange) as Hnew.
  set (newRange := ((currentMax - zero) * S754_finite s m e)%D) in *.
  pose proof (Math_min_not_nan _ _ Hnew Hcap) as Hfin.
  pose proof (Math_min_leb _ _ Hnew Hcap) as Hle.
  set (finalRange := Math_min newRange cap) in *.
  eexists. split; [reflexivity|]. rewrite add_zero_l.
  destruct finalRange as [z| | |]; try (split; assumption).
Qed.

Lemma wheel_all_bounded (deltas : list float) (chartData : list ChartPoint)
    (config : ChartConfig) (hi : Bound) :
  chartData <> [] ->
  match hi with auto => True | num n => is_nan n = false end ->
  exists hi',
    wheel_all deltas chartData config (num zero, hi) = (num zero, hi')
    /\ match hi' with
       | auto => deltas = [] /\ hi = auto
       | num n =>
           deltas = [] /\ hi = num n
           \/ (n <=? Math_max (y_values config chartData) * of_Q 1.1)%D = true
       end.
Proof.
  intros Hne. revert hi.
  induction deltas as [|deltaY deltas IH]; intros hi Hhi; simpl.
  - exists hi. split; [reflexivity|]. destruct hi; auto.
  - destruct (wheel_step_bounded deltaY chartData config hi Hne Hhi)
      as (h1 & -> & Hn1 & Hle1).
    destruct (IH (num h1) Hn1) as (hi' & -> & Hinv).
    exists hi'. split; [reflexivity|].
    destruct hi' as [|n].
    + destruct Hinv as [_ Hinv]. discriminate.
    + right. destruct Hinv as [[_ Hinv]|Hinv]; [|exact Hinv].
      injection Hinv as <-. exact Hle1.
Qed.

(** With the largest value 100, zooming out from (0, auto) or from the cap
    gives the cap. *)
Lemma zoom_out_100 (deltaY : float) (chartData : list ChartPoint)
    (config : ChartConfig) (hi : Bound) :
  Math_max (y_values config chartData) = of_Z 100 ->
  (zero <? deltaY)%D = true ->
  hi = auto \/ hi = num (of_Z 100 * of_Q 1.1)%D ->
  handleWheel deltaY chartData config (num zero, hi)
  = (num zero, num (of_Z 100 * of_Q 1.1)%D).
Proof.
  intros Hmax Hd Hhi.
  assert (Hne : chartData <> []).
  { intros ->. discriminate Hmax. }
  rewrite (handleWheel_eq deltaY _ _ _ _ Hne), Hmax, Hd.
  destruct Hhi as [-> | ->]; vm_compute; reflexivity.
Qed.

(** C8 (amended).  Over chart data whose largest y value is 100, from the
    viewport (0, auto): one zoom-in wheel event (deltaY not above 0) gives
    the domain (0, 99.00000000000001), strictly narrower than (0, 110);
    after any sequence of wheel events yMin is 0 and yMax is at most
    100 * 1.1 as the code computes it in doubles, which is
    110.00000000000001 and above 110; after one or more zoom-out events
    (deltaY > 0) yMax is that number. *)
Theorem handleWheel_zoom (chartData : list ChartPoint) (config : ChartConfig) :
  Math_max (y_values config chartData) = of_Z 100 ->
  (forall deltaY, (zero <? deltaY)%D = false ->
     handleWheel deltaY chartData config (num zero, auto)
     = (num zero, num (S754_finite false 6966505673588737 (-46)))
     /\ (of_Z 99 <? S754_finite false 6966505673588737 (-46))%D = true
     /\ (S754_finite false 6966505673588737 (-46) <? of_Z 110)%D = true)
  /\ (forall deltas,
        exists hi, wheel_all deltas chartData config (num zero, auto)
                   = (num zero, hi)
                   /\ match hi with
                      | auto => deltas = []
                      | num n => (n <=? of_Z 100 * of_Q 1.1)%D = true
                      end)
  /\ (forall deltas, Forall (fun deltaY => (zero <? deltaY)%D = true) deltas ->
        deltas <> [] ->
        wheel_all deltas chartData config (num zero, auto)
        = (num zero, num (of_Z 100 * of_Q 1.1)%D))
  /\ (of_Z 100 * of_Q 1.1)%D = S754_finite false 7740561859543041 (-46)
  /\ of_Z 110 = S754_finite false 7740561859543040 (-46)
  /\ (of_Z 110 <? of_Z 100 * of_Q 1.1)%D = true
  /\ of_Q 110.00000000000001 = S754_finite false 7740561859543041 (-46)
  /\ of_Q 99.00000000000001 = S754_finite false 6966505673588737 (-46).
Proof.
  intros Hmax.
  assert (Hne : chartData <> []).
  { intros ->. discriminate Hmax. }
  split; [|split; [|split; [|vm_compute; repeat split]]].
  - intros deltaY Hd.
    rewrite (handleWheel_eq deltaY _ _ _ _ Hne), Hmax, Hd.
    split; [vm_compute; reflexivity|]. split; reflexivity.
  - intros deltas.
    destruct (wheel_all_bounded deltas chartData config auto Hne I)
      as (hi & Hrun & Hinv).
    exists hi. split; [exact Hrun|].
    destruct hi as [|n]; [apply Hinv|].
    destruct Hinv as [[_ Hinv]|Hinv]; [discriminate|].
    rewrite Hmax in Hinv. exact Hinv.
  - intros deltas Hall.
    assert (H : deltas <> [] ->
                forall hi, hi = auto \/ hi = num (of_Z 100 * of_Q 1.1)%D ->
                wheel_all deltas chartData config (num zero, hi)
                = (num zero, num (of_Z 100 * of_Q 1.1)%D)).
    { induction Hall as [|deltaY deltas Hd Hall IH]; intros Hnil hi Hhi.
      - contradiction.
      - simpl. rewrite (zoom_out_100 deltaY _ _ _ Hmax Hd Hhi).
        destruct deltas as [|d deltas]; [reflexivity|].
        apply IH; [discriminate|]. right. reflexivity. }
    intros Hnil. apply H; [exact Hnil|]. left. reflexivity.
Qed.

(** *** Viewport: pan *)

(** The lower bound of the viewport is a number in every state the events
    can reach from a state where it is one, so the cast of [yDomain[0]] in
    [handleMouseMove] never meets ['auto']. *)
Lemma handle_keeps_yMin_numeric (chartData : list ChartPoint)
    (config : ChartConfig) (e : Event) (v v' : View) :
  (exists lo, (yDomain v).1 = num lo) ->
  handle chartData config e v = Some v' ->
  exists lo', (yDomain v').1 = num lo'.
Proof.
  intros [lo Hlo] H. destruct e as [deltaY|clientY|clientY| |]; simpl in H.
  - injection H as <-. simpl. unfold handleWheel.
    destruct (length chartData =? 0)%nat; [exists lo; exact Hlo|].
    eexists. reflexivity.
  - injection H as <-. exists lo. exact Hlo.
  - unfold handleMouseMove in H. destruct (isDragging v).
    + destruct (yDomain v) as [[|l] [|h]] eqn:E; simpl in Hlo; try discriminate.
      * injection H as <-. rewrite E. eexists. reflexivity.
      * injection H as <-. eexists. reflexivity.
    + injection H as <-. exists lo. exact Hlo.
  - injection H as <-. exists lo. exact Hlo.
  - injection H as <-. eexists. reflexivity.
Qed.

(** C9 (amended).  A mouse move leaves the view unchanged while yMax is
    'auto', and while the mouse is not dragging; otherwise it adds the same
    shift, [delta * ((yMax - yMin) * 0.002)] for the pointer delta
    [delta = lastY - clientY], to yMin and to yMax, the shift and each of
    the two sums being rounded to a double.  (The width yMax - yMin is
    therefore kept only up to that rounding.) *)
Theorem handleMouseMove_pan (clientY : float) (v : View) :
  ((yDomain v).2 = auto -> handleMouseMove clientY v = Some v)
  /\ (isDragging v = false -> handleMouseMove clientY v = Some v)
  /\ (isDragging v = true ->
      forall lo hi, yDomain v = (num lo, num hi) ->
        exists shift,
          shift = ((lastY v - clientY) * ((hi - lo) * of_Q 0.002))%D
          /\ handleMouseMove clientY v
             = Some {| yDomain := (num (lo + shift)%D, num (hi + shift)%D);
                       isDragging := true;
                       lastY := clientY |}).
Proof.
  split; [|split].
  - intros Hauto. unfold handleMouseMove.
    destruct (isDragging v); [|reflexivity].
    destruct (yDomain v) as [lo hi]. simpl in Hauto. subst hi.
    destruct lo; reflexivity.
  - intros Hdrag. unfold handleMouseMove. rewrite Hdrag. reflexivity.
  - intros Hdrag lo hi Hdom. unfold handleMouseMove. rewrite Hdrag, Hdom.
    eexists. split; reflexivity.
Qed.

End WithRuntime.

(** *** Evaluations on the scenarios *)

(** A pareto chart with the x axis set and the y axis unset is empty although
    there are submissions. *)
Lemma pareto_unset_yAxis_is_empty :
  type (Scenarios.config_of pareto "cat" "") = pareto
  /\ xAxis (Scenarios.config_of pareto "cat" "") <> ""
  /\ Scenarios.cat_val_submissions <> []
  /\ chartData Scenarios.cat_val_submissions (Scenarios.config_of pareto "cat" "")
     = [].
Proof.
  split; [reflexivity|]. split; [discriminate|]. split; [discriminate|].
  reflexivity.
Qed.

Lemma chartData_empty_when_witness :
  chartData [] (Scenarios.config_of histogram "Score" "Score") = []
  /\ length (chartData Scenarios.score_submissions
               (Scenarios.config_of column "Score" "Score")) = 10%nat.
Proof.
  split.
  - apply (proj1 (chartData_empty_when [] _)). left. reflexivity.
  - destruct (proj2 (chartData_empty_when Scenarios.score_submissions
                       (Scenarios.config_of column "Score" "Score")))
      as [Hlen _]; [repeat split; discriminate|exact Hlen].
Defined.





(** Over the scores 10, ..., 100 a zoom-out from (0, auto) gives the yMax
    110.00000000000001, which exceeds 110. *)
Lemma zoom_out_exceeds_110 :
  Math_max (y_values (Scenarios.config_of column "Score" "Score")
              (chartData Scenarios.score_submissions
                 (Scenarios.config_of column "Score" "Score"))) = of_Z 100
  /\ handleWheel (of_Z 1)
       (chartData Scenarios.score_submissions
          (Scenarios.config_of column "Score" "Score"))
       (Scenarios.config_of column "Score" "Score") (num zero, auto)
     = (num zero, num (S754_finite false 7740561859543041 (-46)))
  /\ of_Z 110 = S754_finite false 7740561859543040 (-46)
  /\ (of_Z 110 <? S754_finite false 7740561859543041 (-46))%D = true.
Proof. vm_compute. repeat split; reflexivity. Qed.

Lemma handleWheel_zoom_witness :
  handleWheel (of_Z (-1))
    (chartData Scenarios.score_submissions
       (Scenarios.config_of column "Score" "Score"))
    (Scenarios.config_of column "Score" "Score") (num zero, auto)
  = (num zero, num (S754_finite false 6966505673588737 (-46))).
Proof.
  assert (H : Math_max (y_values (Scenarios.config_of column "Score" "Score")
                          (chartData Scenarios.score_submissions
                             (Scenarios.config_of column "Score" "Score")))
              = of_Z 100) by (vm_compute; reflexivity).
  destruct (handleWheel_zoom _ _ H) as [Hin _].
  destruct (Hin (of_Z (-1)) eq_refl) as [Hw _]. exact Hw.
Defined.

(** From the domain (0, 99) a drag by 154 pixels gives the domain
    (30.492, 129.492), whose width is 98.99999999999999. *)
Lemma pan_changes_the_width :
  handleMouseMove zero
    {| yDomain := (num zero, num (of_Z 99)); isDragging := true;
       lastY := of_Z 154 |}
  = Some {| yDomain := (num (of_Q 30.492), num (of_Q 129.492));
            isDragging := true; lastY := zero |}
  /\ (of_Q 129.492 - of_Q 30.492)%D
     = S754_finite false 6966505673588735 (-46)
  /\ (of_Z 99 - zero)%D = S754_finite false 6966505673588736 (-46)
  /\ (of_Q 129.492 - of_Q 30.492 <? of_Z 99 - zero)%D = true.
Proof. vm_compute. repeat split; reflexivity. Qed.

Lemma handleMouseMove_pan_witness :
  handleMouseMove (of_Z 5)
    {| yDomain := (num zero, num (of_Z 99)); isDragging := true;
       lastY := of_Z 10 |}
  = Some {| yDomain :=
              (num (zero + (of_Z 10 - of_Z 5) * ((of_Z 99 - zero) * of_Q 0.002))%D,
               num (of_Z 99
                    + (of_Z 10 - of_Z 5) * ((of_Z 99 - zero) * of_Q 0.002))%D);
            isDragging := true; lastY := of_Z 5 |}.
Proof.
  destruct (handleMouseMove_pan (of_Z 5)
              {| yDomain := (num zero, num (of_Z 99)); isDragging := true;
                 lastY := of_Z 10 |})
    as (_ & _ & H).
  destruct (H eq_refl zero (of_Z 99) eq_refl) as (shift & -> & Hmove).
  exact Hmove.
Defined.

Lemma pareto_key_falsy_witness :
  (exists n, get (data (Scenarios.submission_of
                          [("cat", VNum 0); ("val", VNum 1)]))
               (xAxis (Scenarios.config_of pareto "cat" "val")) = VNum n
             /\ (n == 0)%Q)
  /\ pareto_key (Scenarios.config_of pareto "cat" "val")
       (Scenarios.submission_of [("cat", VNum 0); ("val", VNum 1)])
     = "Unknown".
Proof.
  assert (H : exists n, get (data (Scenarios.submission_of
                                     [("cat", VNum 0); ("val", VNum 1)]))
                          (xAxis (Scenarios.config_of pareto "cat" "val"))
                        = VNum n /\ (n == 0)%Q).
  { exists 0%Q. split; [vm_compute|]; reflexivity. }
  split; [exact H|].
  apply (pareto_key_falsy (Scenarios.config_of pareto "cat" "val")
           (Scenarios.submission_of [("cat", VNum 0); ("val", VNum 1)])).
  right. right. right. left. exact H.
Defined.

End AnalysisSpec.

(** ** The data-entry page *)

Module DataEntrySpec.
Import Js JsFacts Schema DataEntry EntryMeasures.

(** *** Date arithmetic *)

Lemma setHours_plus_12 (t : Z) :
  setHours t (getHours t + 12) = (t + 12 * msPerHour)%Z.
Proof.
  unfold setHours, getHours, msPerDay, msPerHour.
  assert (D : (t / 86400000 = t / 3600000 / 24)%Z)
    by (rewrite Z.div_div by lia; reflexivity).
  rewrite D.
  pose proof (Z.div_mod t 3600000 ltac:(lia)) as H1.
  pose proof (Z.div_mod (t / 3600000) 24 ltac:(lia)) as H2.
  lia.
Qed.

Lemma getHours_plus_12 (t : Z) :
  getHours (t + 12 * msPerHour) = ((getHours t + 12) mod 24)%Z.
Proof.
  unfold getHours, msPerHour.
  rewrite Z.div_add by lia. rewrite Zplus_mod_idemp_l. reflexivity.
Qed.

Lemma getMinutes_plus_12 (t : Z) :
  getMinutes (t + 12 * msPerHour) = getMinutes t.
Proof.
  unfold getMinutes, msPerHour, msPerMinute.
  replace (t + 12 * 3600000)%Z with (t + 720 * 60000)%Z by lia.
  rewrite Z.div_add by lia.
  replace (t / 60000 + 720)%Z with (t / 60000 + 12 * 60)%Z by lia.
  apply Z_mod_plus_full.
Qed.

(** *** Formatting a row *)

Lemma foldM_cons {A S : Type} (f : A -> S -> result S) (x : A) (l : list A)
    (s : S) :
  foldM f (x :: l) s = f x s ≫= foldM f l.
Proof. reflexivity. Qed.

Lemma get_insert (o : gmap string val) (k k' : string) (v : val) :
  get (<[k := v]> o) k' = if decide (k = k') then v else get o k'.
Proof.
  unfold get. rewrite lookup_insert. destruct (decide (k = k')); reflexivity.
Qed.

Lemma append_not_empty (a b : string) (c : Ascii.ascii) :
  (a ++ String c b)%string <> "".
Proof. destruct a; discriminate. Qed.

Lemma format_date_not_empty (t : Z) : format_date t <> "".
Proof. unfold format_date. apply append_not_empty. Qed.

Lemma format_time_not_empty (t : Z) : format_time t <> "".
Proof. unfold format_time. apply append_not_empty. Qed.

Lemma copy_of_refl (row : gmap string val) : copy_of row row.
Proof. intros k. split; [tauto|reflexivity]. Qed.

Lemma copy_of_insert_str (row processedRow : gmap string val) (k : string)
    (l : loc) (s : string) :
  copy_of row processedRow ->
  get processedRow k = VObj l ->
  s <> "" ->
  copy_of row (<[k := VStr s]> processedRow).
Proof.
  intros Hc Hk Hs k'. rewrite get_insert.
  destruct (decide (k = k')) as [<-|Hne]; [|apply Hc].
  split; [discriminate|].
  destruct (Hc k) as [Hobj _]. rewrite (Hobj l Hk). simpl.
  apply String.eqb_neq. exact Hs.
Qed.

Lemma format_field_ok (row : gmap string val) (field : FormField)
    (h : gmap loc Z) (processedRow : gmap string val) :
  copy_of row processedRow ->
  exists h' processedRow',
    format_field row field (h, processedRow) = Ok (h', processedRow')
    /\ copy_of row processedRow'.
Proof.
  intros Hc. unfold format_field.
  destruct (get processedRow (field_name field)) as [| |b|n|s|dateVal] eqn:G;
    try (eexists; eexists; split; [reflexivity|exact Hc]).
  destruct (h !! dateVal) as [t|] eqn:Ht;
    [|eexists; eexists; split; [reflexivity|exact Hc]].
  destruct (field_type field);
    try (eexists; eexists; split; [reflexivity|exact Hc]).
  - eexists. eexists. split; [reflexivity|].
    apply (copy_of_insert_str _ _ _ dateVal); [exact Hc|exact G|].
    apply format_date_not_empty.
  - destruct (Hc (field_name field)) as [Hobj _].
    rewrite (Hobj dateVal G), lookup_insert_eq.
    eexists. eexists. split; [reflexivity|].
    apply (copy_of_insert_str _ _ _ dateVal); [exact Hc|exact G|].
    apply format_time_not_empty.
Qed.

(** [format_row] never throws, and keeps the blanks of the row. *)
Lemma format_row_ok (selectedForm : FormSchema) (row : gmap string val)
    (h : gmap loc Z) :
  exists h' processedRow,
    format_row selectedForm row h = Ok (h', processedRow)
    /\ copy_of row processedRow.
Proof.
  unfold format_row. generalize (copy_of_refl row).
  generalize row at 2 4 as processedRow. revert h.
  induction (fields selectedForm) as [|field rest IH]; intros h p Hc.
  - exists h, p. split; [reflexivity|exact Hc].
  - destruct (format_field_ok row field h p Hc) as (h1 & p1 & Hf & Hc1).
    destruct (IH h1 p1 Hc1) as (h' & p' & Hr & Hc').
    exists h', p'. split; [|exact Hc'].
    rewrite foldM_cons, Hf. exact Hr.
Qed.

(** A [Date] in a time field is printed with its hours moved by 12: the
    object read back from [row] is the one [setHours] has just changed. *)
Lemma format_field_time (row : gmap string val) (field : FormField)
    (h : gmap loc Z) (processedRow : gmap string val) (dateVal : loc) (t : Z) :
  field_type field = time ->
  get processedRow (field_name field) = VObj dateVal ->
  get row (field_name field) = VObj dateVal ->
  h !! dateVal = Some t ->
  format_field row field (h, processedRow)
  = Ok (<[dateVal := (t + 12 * msPerHour)%Z]> h,
        <[field_name field :=
            VStr (padStart (String_of_int ((getHours t + 12) mod 24)) 2 "0"%char
                  ++ ":" ++ padStart (String_of_int (getMinutes t)) 2 "0"%char)]>
          processedRow).
Proof.
  intros Hty Hp Hr Ht. unfold format_field.
  rewrite Hp, Ht, Hty, Hr, lookup_insert_eq, setHours_plus_12.
  unfold format_time. rewrite getHours_plus_12, getMinutes_plus_12.
  reflexivity.
Qed.

Lemma format_field_date (row : gmap string val) (field : FormField)
    (h : gmap loc Z) (processedRow : gmap string val) (dateVal : loc) (t : Z) :
  field_type field = date ->
  get processedRow (field_name field) = VObj dateVal ->
  h !! dateVal = Some t ->
  format_field row field (h, processedRow)
  = Ok (<[dateVal := (t + 12 * msPerHour)%Z]> h,
        <[field_name field := VStr (format_date (t + 12 * msPerHour))]>
          processedRow).
Proof.
  intros Hty Hp Ht. unfold format_field.
  rewrite Hp, Ht, Hty, setHours_plus_12. reflexivity.
Qed.

(** *** The required-field checks *)

Lemma is_blank_iff (v : val) :
  is_blank v = true <-> v = VUndefined \/ v = VNull \/ v = VStr "".
Proof.
  split.
  - destruct v as [| |b|n|s|o]; simpl; intros H; auto; try discriminate.
    apply String.eqb_eq in H. subst s. auto.
  - intros [ -> | [ -> | -> ] ]; reflexivity.
Qed.

Lemma missingRequired_iff (selectedForm : FormSchema)
    (processedRow : gmap string val) :
  missingRequired selectedForm processedRow = true
  <-> exists f, In f (fields selectedForm) /\ required f = true
                /\ is_blank (get processedRow (field_name f)) = true.
Proof.
  unfold missingRequired. rewrite existsb_exists. split.
  - intros (f & Hin & H). apply andb_true_iff in H. exists f. tauto.
  - intros (f & Hin & Hr & Hb). exists f. split; [exact Hin|].
    rewrite Hr, Hb. reflexivity.
Qed.

Lemma handleSubmit_missingRequired_iff (selectedForm : FormSchema)
    (formData : gmap string val) :
  handleSubmit_missingRequired selectedForm formData = true
  <-> exists f, In f (fields selectedForm) /\ required f = true
                /\ truthy (get formData (field_name f)) = false.
Proof.
  unfold handleSubmit_missingRequired. rewrite existsb_exists. split.
  - intros (f & Hin & H). apply andb_true_iff in H. destruct H as [Hr Ht].
    apply negb_true_iff in Ht. exists f. tauto.
  - intros (f & Hin & Hr & Ht). exists f. split; [exact Hin|].
    rewrite Hr, Ht. reflexivity.
Qed.

(** On the values an HTML input produces (strings, or nothing) the two
    checks agree. *)
Lemma checks_agree_on_strings (selectedForm : FormSchema)
    (formData : gmap string val) :
  (forall k, get formData k = VUndefined \/ exists s, get formData k = VStr s) ->
  handleSubmit_missingRequired selectedForm formData
  = missingRequired selectedForm formData.
Proof.
  intros Hstr. unfold handleSubmit_missingRequired, missingRequired.
  induction (fields selectedForm) as [|f rest IH]; [reflexivity|].
  simpl. rewrite IH. f_equal. f_equal.
  destruct (Hstr (field_name f)) as [ -> | [s -> ] ]; [reflexivity|].
  simpl. unfold truthy_str. rewrite negb_involutive. reflexivity.
Qed.

(** In the import the check runs on the formatted copy, whose blanks are
    those of the parsed row. *)
Lemma missingRequired_of_row (selectedForm : FormSchema) (row : gmap string val)
    (h h' : gmap loc Z) (processedRow : gmap string val) :
  format_row selectedForm row h = Ok (h', processedRow) ->
  missingRequired selectedForm processedRow = true
  <-> exists f, In f (fields selectedForm) /\ required f = true
                /\ (get row (field_name f) = VUndefined
                    \/ get row (field_name f) = VNull
                    \/ get row (field_name f) = VStr "").
Proof.
  intros Hf. destruct (format_row_ok selectedForm row h) as (h1 & p1 & Hf1 & Hc).
  rewrite Hf in Hf1. injection Hf1 as <- <-.
  rewrite missingRequired_iff. split.
  - intros (f & Hin & Hr & Hb). exists f. split; [exact Hin|].
    split; [exact Hr|]. apply is_blank_iff.
    destruct (Hc (field_name f)) as [_ <-]. exact Hb.
  - intros (f & Hin & Hr & Hb). exists f. split; [exact Hin|].
    split; [exact Hr|]. destruct (Hc (field_name f)) as [_ ->].
    apply is_blank_iff. exact Hb.
Qed.

(** A row that fails the check is counted as an error and nothing is
    written for it. *)
Lemma process_row_missing (addDoc_ok : nat -> SubmissionDoc -> bool)
    (uid : option string) (selectedForm : FormSchema) (row : gmap string val)
    (w : World) (c : Counters) :
  (exists f, In f (fields selectedForm) /\ required f = true
             /\ (get row (field_name f) = VUndefined
                 \/ get row (field_name f) = VNull
                 \/ get row (field_name f) = VStr "")) ->
  exists w',
    process_row addDoc_ok uid selectedForm row (w, c)
    = Ok (w', {| successCount := successCount c;
                 errorCount := S (errorCount c) |})
    /\ submissions w' = submissions w
    /\ addDoc_calls w' = addDoc_calls w.
Proof.
  intros Hmiss. unfold process_row.
  destruct (format_row_ok selectedForm row (heap w)) as (h' & p & Hf & Hc).
  rewrite Hf. simpl.
  apply (missingRequired_of_row _ _ _ _ _ Hf) in Hmiss. rewrite Hmiss.
  eexists. split; [reflexivity|]. split; reflexivity.
Qed.

(** *** The batches of the import *)

Lemma batch_count_lt (n i : nat) :
  (i < n)%nat -> batch_count n i = S (batch_count n (i + batchSize)).
Proof.
  unfold batch_count, batchSize. intros H.
  destruct (le_lt_dec 400 (n - i)) as [L|L].
  - replace (n - i + (400 - 1))%nat
      with (n - (i + 400) + (400 - 1) + 1 * 400)%nat by lia.
    rewrite Nat.div_add by lia. lia.
  - replace (n - (i + 400))%nat with 0%nat by lia.
    replace (n - i + (400 - 1))%nat with ((n - i - 1) + 1 * 400)%nat by lia.
    rewrite Nat.div_add by lia.
    rewrite (Nat.div_small (n - i - 1) 400) by lia.
    rewrite (Nat.div_small (0 + (400 - 1)) 400) by lia. reflexivity.
Qed.

Lemma batch_count_ge (n i : nat) : (n <= i)%nat -> batch_count n i = 0%nat.
Proof.
  unfold batch_count, batchSize. intros H.
  replace (n - i)%nat with 0%nat by lia. apply Nat.div_small. lia.
Qed.

Lemma chunks_from_lt {A : Type} (i : nat) (data : list A) :
  (i < length data)%nat ->
  chunks_from i data
  = slice i (i + batchSize) data :: chunks_from (i + batchSize) data.
Proof.
  intros H. unfold chunks_from. rewrite (batch_count_lt _ _ H).
  rewrite <- cons_seq, <- seq_shift, map_cons, map_map. f_equal.
  - rewrite Nat.add_0_r. reflexivity.
  - apply map_ext. intros j. f_equal; lia.
Qed.

Lemma chunks_from_ge {A : Type} (i : nat) (data : list A) :
  (length data <= i)%nat -> chunks_from i data = [].
Proof.
  intros H. unfold chunks_from. rewrite (batch_count_ge _ _ H). reflexivity.
Qed.

(** With enough fuel the loop runs its body on the chunks, in order. *)
Lemma for_batches_chunks {A S : Type} (body : list A -> S -> result S)
    (fuel i : nat) (data : list A) (st : S) :
  (batch_count (length data) i < fuel)%nat ->
  for_batches body fuel i data st = foldM body (chunks_from i data) st.
Proof.
  revert i st. induction fuel as [|fuel IH]; intros i st Hfuel; [lia|].
  simpl. destruct (i <? length data)%nat eqn:E.
  - apply Nat.ltb_lt in E. rewrite (chunks_from_lt _ _ E), foldM_cons.
    rewrite (batch_count_lt _ _ E) in Hfuel.
    destruct (body (slice i (i + batchSize) data) st) as [st'| |];
      try reflexivity.
    apply IH. lia.
  - apply Nat.ltb_ge in E. rewrite (chunks_from_ge _ _ E). reflexivity.
Qed.

Lemma foldM_collect {A : Type} (l acc : list (list A)) :
  foldM (fun chunk acc => Ok (app acc [chunk])) l acc = Ok (app acc l).
Proof.
  revert acc. induction l as [|x l IH]; intros acc.
  - rewrite app_nil_r. reflexivity.
  - rewrite foldM_cons. simpl. rewrite IH, <- app_assoc. reflexivity.
Qed.

Lemma batch_count_le (n : nat) : (batch_count n 0 <= n)%nat.
Proof.
  unfold batch_count, batchSize. rewrite Nat.sub_0_r.
  destruct n as [|n]; [reflexivity|].
  apply Nat.Div0.div_le_upper_bound. lia.
Qed.

Lemma batches_chunks {A : Type} (data : list A) :
  batches data = Ok (chunks_from 0 data).
Proof.
  unfold batches. rewrite for_batches_chunks.
  - apply foldM_collect.
  - pose proof (batch_count_le (length data)). lia.
Qed.

Lemma chunks_from_concat {A : Type} (data : list A) (c i : nat) :
  batch_count (length data) i = c ->
  concat (chunks_from i data) = drop i data.
Proof.
  revert i. induction c as [|c IH]; intros i Hc.
  - destruct (le_lt_dec (length data) i) as [L|L].
    + rewrite (chunks_from_ge _ _ L), drop_ge by exact L. reflexivity.
    + rewrite (batch_count_lt _ _ L) in Hc. discriminate.
  - destruct (le_lt_dec (length data) i) as [L|L].
    + rewrite (batch_count_ge _ _ L) in Hc. discriminate.
    + rewrite (chunks_from_lt _ _ L). simpl.
      rewrite (batch_count_lt _ _ L) in Hc. injection Hc as Hc.
      rewrite (IH _ Hc). unfold slice.
      replace (i + batchSize - i)%nat with batchSize by lia.
      rewrite <- drop_drop. apply take_drop.
Qed.

Lemma chunks_from_lookup {A : Type} (data : list A) (j : nat) (b : list A) :
  chunks_from 0 data !! j = Some b ->
  (j < batch_count (length data) 0)%nat
  /\ b = take batchSize (drop (batchSize * j) data).
Proof.
  unfold chunks_from. intros H.
  change (map ?f ?l) with (f <$> l) in H.
  rewrite list_lookup_fmap in H.
  destruct (seq 0 (batch_count (length data) 0) !! j) as [k|] eqn:E;
    [|discriminate].
  apply lookup_seq in E. destruct E as [-> E]. simpl in H.
  injection H as <-. split; [exact E|]. unfold slice.
  replace (j * batchSize + batchSize - j * batchSize)%nat with batchSize by lia.
  rewrite (Nat.mul_comm j). reflexivity.
Qed.

(** C5.  For a non-empty list of n parsed rows the import loop makes
    ceil(n / 400) chunks, which are consecutive slices of the rows in order:
    every chunk but the last has 400 rows and the last has n mod 400 rows
    (400 when n is a multiple of 400); the loop of [handleFileUpload] runs
    its body on these chunks, one after the other; 850 rows make the chunks
    of sizes 400, 400 and 50. *)
Theorem batches_spec {A : Type} (data : list A) :
  data <> [] ->
  exists bs,
    batches data = Ok bs
    /\ concat bs = data
    /\ length bs = ((length data + 399) / 400)%nat
    /\ (forall j b, bs !! j = Some b ->
          b = take 400 (drop (400 * j) data)
          /\ (S j < length bs -> length b = 400)%nat
          /\ (S j = length bs ->
              length b = if (length data mod 400 =? 0)%nat then 400%nat
                         else (length data mod 400)%nat))
    /\ (forall (T : Type) (body : list A -> T -> result T) (st : T),
          for_batches body (S (length data)) 0 data st = foldM body bs st)
    /\ (length data = 850%nat -> length <$> bs = [400; 400; 50]%nat).
Proof.
  intros Hne. exists (chunks_from 0 data).
  assert (Hlen : length (chunks_from 0 data) = ((length data + 399) / 400)%nat).
  { unfold chunks_from. rewrite length_map, length_seq.
    unfold batch_count, batchSize. rewrite Nat.sub_0_r. reflexivity. }
  split; [apply batches_chunks|].
  split; [apply (chunks_from_concat data _ 0 eq_refl)|].
  split; [exact Hlen|].
  split; [|split].
  - intros j b Hb. apply chunks_from_lookup in Hb. destruct Hb as [Hj ->].
    split; [reflexivity|].
    rewrite Hlen, length_take, length_drop. unfold batchSize.
    pose proof (Nat.div_mod_eq (length data + 399) 400) as Hd.
    pose proof (Nat.mod_upper_bound (length data + 399) 400 ltac:(lia)) as Hm.
    pose proof (Nat.div_mod_eq (length data) 400) as Hd'.
    pose proof (Nat.mod_upper_bound (length data) 400 ltac:(lia)) as Hm'.
    split.
    + intros Hlast. lia.
    + intros Hlast.
      destruct (length data mod 400 =? 0)%nat eqn:E.
      * apply Nat.eqb_eq in E. lia.
      * apply Nat.eqb_neq in E. lia.
  - intros T body st. apply for_batches_chunks.
    pose proof (batch_count_le (length data)). lia.
  - intros H850. unfold chunks_from. rewrite H850.
    replace (batch_count 850 0) with 3%nat by (vm_compute; reflexivity).
    simpl. unfold slice. rewrite !length_take, !length_drop, H850.
    vm_compute. reflexivity.
Qed.

(** C7.  On an empty sheet the import reports "The uploaded file is empty."
    and changes nothing: no [Date] is touched, no chunk is made and
    [addDoc] is not called. *)
Theorem handleFileUpload_empty (addDoc_ok : nat -> SubmissionDoc -> bool)
    (uid : option string) (selectedForm : FormSchema) (w : World) :
  handleFileUpload addDoc_ok uid selectedForm [] w
  = Ok (w, {| message := "The uploaded file is empty."; kind := error |})
  /\ batches ([] : list (gmap string val)) = Ok [].
Proof. split; reflexivity. Qed.

(** *** The import always completes *)

Lemma process_row_ok (addDoc_ok : nat -> SubmissionDoc -> bool)
    (uid : option string) (selectedForm : FormSchema) (row : gmap string val)
    (w : World) (c : Counters) :
  exists w' c',
    process_row addDoc_ok uid selectedForm row (w, c) = Ok (w', c')
    /\ (successCount c' + errorCount c'
        = S (successCount c + errorCount c))%nat.
Proof.
  unfold process_row.
  destruct (format_row_ok selectedForm row (heap w)) as (h' & p & Hf & _).
  rewrite Hf. simpl.
  destruct (missingRequired selectedForm p);
    [|destruct (addDoc_ok _ _)];
    eexists; eexists; (split; [reflexivity|simpl; lia]).
Qed.

Lemma process_chunk_ok (addDoc_ok : nat -> SubmissionDoc -> bool)
    (uid : option string) (selectedForm : FormSchema)
    (chunk : list (gmap string val)) (w : World) (c : Counters) :
  exists w' c',
    process_chunk addDoc_ok uid selectedForm chunk (w, c) = Ok (w', c')
    /\ (successCount c' + errorCount c'
        = successCount c + errorCount c + length chunk)%nat.
Proof.
  unfold process_chunk. revert w c.
  induction chunk as [|row chunk IH]; intros w c.
  - exists w, c. split; [reflexivity|simpl; lia].
  - destruct (process_row_ok addDoc_ok uid selectedForm row w c)
      as (w1 & c1 & H1 & Hc1).
    destruct (IH w1 c1) as (w' & c' & H' & Hc').
    exists w', c'. split; [rewrite foldM_cons, H1; exact H'|].
    simpl. lia.
Qed.

Lemma process_chunks_ok (addDoc_ok : nat -> SubmissionDoc -> bool)
    (uid : option string) (selectedForm : FormSchema)
    (chunks : list (list (gmap string val))) (w : World) (c : Counters) :
  exists w' c',
    foldM (process_chunk addDoc_ok uid selectedForm) chunks (w, c) = Ok (w', c')
    /\ (successCount c' + errorCount c'
        = successCount c + errorCount c + length (concat chunks))%nat.
Proof.
  revert w c. induction chunks as [|chunk chunks IH]; intros w c.
  - exists w, c. split; [reflexivity|simpl; lia].
  - destruct (process_chunk_ok addDoc_ok uid selectedForm chunk w c)
      as (w1 & c1 & H1 & Hc1).
    destruct (IH w1 c1) as (w' & c' & H' & Hc').
    exists w', c'. split; [rewrite foldM_cons, H1; exact H'|].
    simpl. rewrite length_app. lia.
Qed.

(** For a sheet with rows the import neither throws nor runs out of fuel:
    it reports the counts, and every row is counted once. *)
Lemma handleFileUpload_complete (addDoc_ok : nat -> SubmissionDoc -> bool)
    (uid : option string) (selectedForm : FormSchema)
    (data : list (gmap string val)) (w : World) :
  data <> [] ->
  exists w' c,
    handleFileUpload addDoc_ok uid selectedForm data w
    = Ok (w', {| message := "Upload complete. Success: "
                            ++ String_of_int (Z.of_nat (successCount c))
                            ++ ", Errors: "
                            ++ String_of_int (Z.of_nat (errorCount c));
                 kind := if (0 <? successCount c)%nat then success else error |})
    /\ (successCount c + errorCount c = length data)%nat.
Proof.
  intros Hne. unfold handleFileUpload.
  destruct data as [|row data]; [contradiction|].
  change (length (row :: data) =? 0)%nat with false. cbv iota.
  rewrite for_batches_chunks
    by (pose proof (batch_count_le (length (row :: data))); lia).
  destruct (process_chunks_ok addDoc_ok uid selectedForm
              (chunks_from 0 (row :: data)) w
              {| successCount := 0; errorCount := 0 |})
    as (w' & c & Hrun & Hc).
  rewrite Hrun. exists w', c. split; [reflexivity|].
  rewrite (chunks_from_concat (row :: data) _ 0 eq_refl) in Hc.
  exact Hc.
Qed.

(** *** Evaluations on the scenarios *)

(** C2.  A time cell holding 09:30 is imported as "21:30": the hours are
    those of the instant moved by 12 hours.  The date cell is formatted
    from the moved instant, as intended. *)
Theorem time_field_is_shifted :
  getHours EntryScenarios.t_0930 = 9%Z
  /\ getMinutes EntryScenarios.t_0930 = 30%Z
  /\ exists h' processedRow,
       format_row EntryScenarios.time_form EntryScenarios.time_row
         EntryScenarios.time_heap = Ok (h', processedRow)
       /\ get processedRow "T" = VStr "21:30"
       /\ get processedRow "D" = VStr "2024-03-10"
       /\ h' !! 1%positive = Some (EntryScenarios.t_0930 + 12 * msPerHour)%Z.
Proof.
  split; [reflexivity|]. split; [reflexivity|].
  destruct (format_row_ok EntryScenarios.time_form EntryScenarios.time_row
              EntryScenarios.time_heap) as (h' & p & Hf & _).
  exists h', p. split; [exact Hf|].
  revert Hf. vm_compute. intros [= <- <-]. repeat split; reflexivity.
Qed.

(** C6.  The manual check rejects a required field holding the number 0,
    which is neither absent, null nor the empty string; the import check
    accepts the same data. *)
Theorem manual_check_rejects_zero :
  get EntryScenarios.qty_zero "Qty" = VNum 0
  /\ is_blank (get EntryScenarios.qty_zero "Qty") = false
  /\ missingRequired EntryScenarios.qty_form EntryScenarios.qty_zero = false
  /\ handleSubmit_missingRequired EntryScenarios.qty_form EntryScenarios.qty_zero
     = true.
Proof. vm_compute. repeat split; reflexivity. Qed.

Lemma batches_spec_witness :
  EntryScenarios.rows_850 <> []
  /\ exists bs, batches EntryScenarios.rows_850 = Ok bs
                /\ length <$> bs = [400; 400; 50]%nat.
Proof.
  assert (H : EntryScenarios.rows_850 <> []) by discriminate.
  split; [exact H|].
  destruct (batches_spec EntryScenarios.rows_850 H)
    as (bs & Hb & _ & _ & _ & _ & H850).
  exists bs. split; [exact Hb|]. apply H850.
  unfold EntryScenarios.rows_850. apply length_replicate.
Defined.

End DataEntrySpec.

(** ** The analysis page: series, viewport, axis selection, rendering *)

Module AnalysisPageSpec.
Import Js JsFacts Binary64 Binary64Facts Schema Analysis Measures AnalysisPage
  AnalysisSpec.

Lemma get_insert_eq (o : gmap string val) (k : string) (v : val) :
  get (<[k := v]> o) k = v.
Proof. unfold get. rewrite lookup_insert_eq. reflexivity. Qed.

Lemma get_insert_ne (o : gmap string val) (k k' : string) (v : val) :
  k <> k' -> get (<[k := v]> o) k' = get o k'.
Proof. intros H. unfold get. rewrite lookup_insert_ne by exact H. reflexivity. Qed.

Section WithRuntime.
Context `{RT : Runtime}.

Lemma Number_or_0_idem (v : val) :
  Number_or_0 (VNum (Number_or_0 v)) = Number_or_0 v.
Proof.
  unfold Number_or_0 at 1. simpl.
  destruct (truthy_num (Number_or_0 v)) eqn:E; [reflexivity|].
  unfold Number_or_0 in *. destruct (Number v) as [n|]; [|reflexivity].
  destruct (truthy_num n) eqn:F; [congruence|reflexivity].
Qed.

Lemma series_unfold (submissions : list Submission) (config : ChartConfig) :
  type config <> histogram -> type config <> pareto ->
  xAxis config <> "" -> yAxis config <> "" ->
  chartData submissions config
  = imap (fun index sub => DataPoint (data_point config index sub)) submissions.
Proof.
  intros Hh Hp Hx Hy. destruct submissions as [|s l].
  - apply chartData_guard. left. reflexivity.
  - rewrite chartData_unguarded by (try discriminate; assumption).
    destruct (type config); try reflexivity; contradiction.
Qed.

(** X1.  For the series chart types, with both axes set, there is one point
    per submission, in order.  The point of the submission at position i
    holds the submission's own fields unchanged, except that "index" is
    i + 1, the y-axis field is the number [Number(raw) || 0], and "target"
    is the configured target; the later of these wins when their names
    coincide. *)
Theorem series_points (submissions : list Submission) (config : ChartConfig) :
  type config <> histogram -> type config <> pareto ->
  xAxis config <> "" -> yAxis config <> "" ->
  length (chartData submissions config) = length submissions
  /\ forall i sub, submissions !! i = Some sub ->
       exists o,
         chartData submissions config !! i = Some (DataPoint o)
         /\ get o "target" = opt_num (target config)
         /\ (yAxis config <> "target" ->
             get o (yAxis config) = VNum (y_value config sub))
         /\ (yAxis config <> "index" ->
             get o "index" = VNum (of_nat (i + 1)))
         /\ (forall k, k <> "index" -> k <> yAxis config -> k <> "target" ->
               get o k = get (data sub) k).
Proof.
  intros Hh Hp Hx Hy. rewrite (series_unfold _ _ Hh Hp Hx Hy).
  split; [apply length_imap|].
  intros i sub Hi. exists (data_point config i sub).
  split; [rewrite list_lookup_imap, Hi; reflexivity|].
  unfold data_point. split; [apply get_insert_eq|]. split; [|split].
  - intros Hne. rewrite get_insert_ne by congruence. apply get_insert_eq.
  - intros Hne. rewrite get_insert_ne by discriminate.
    rewrite get_insert_ne by congruence. apply get_insert_eq.
  - intros k H1 H2 H3. rewrite !get_insert_ne by congruence. reflexivity.
Qed.

(** X2.  For the series chart types whose y axis is not named "target", the
    y values that the zoom handler reads back from the chart points are the
    coerced y values of the submissions, in order. *)
Theorem series_y_values (submissions : list Submission) (config : ChartConfig) :
  type config <> histogram -> type config <> pareto ->
  xAxis config <> "" -> yAxis config <> "" -> yAxis config <> "target" ->
  y_values config (chartData submissions config)
  = map (y_number config) submissions.
Proof.
  intros Hh Hp Hx Hy Ht. rewrite (series_unfold _ _ Hh Hp Hx Hy).
  unfold y_values.
  change (map (y_number config) submissions)
    with (y_number config <$> submissions).
  match goal with
  | |- map ?f ?l = _ => change (map f l) with (f <$> l)
  end.
  apply list_eq. intros i.
  rewrite !list_lookup_fmap, list_lookup_imap.
  destruct (submissions !! i) as [sub|]; [|reflexivity].
  change (Some (point_number (DataPoint (data_point config i sub))
                  (yAxis config))
          = Some (y_number config sub)).
  f_equal. unfold point_number, number_of, y_number, y_value, data_point.
  rewrite get_insert_ne by congruence. rewrite get_insert_eq.
  unfold y_value. rewrite Number_or_0_idem. reflexivity.
Qed.

(** *** Zooming *)

Lemma y_values_zero (config : ChartConfig) (chartData : list ChartPoint) :
  Forall (fun d => point_number d (yAxis config) = zero) chartData ->
  y_values config chartData = replicate (length chartData) zero.
Proof.
  intros H. unfold y_values.
  induction H as [|d l Hd Hl IH]; simpl; [reflexivity|].
  rewrite Hd, IH. reflexivity.
Qed.

Lemma bin_point_zero (b : Bin) (k : string) :
  ~ In k ["range"; "count"; "start"; "end"; "target"] ->
  point_number (BinPoint b) k = zero.
Proof.
  intros H. simpl in H. unfold point_number.
  repeat match goal with
         | |- context [String.eqb k ?s] =>
             destruct (String.eqb k s) eqn:?E;
             [apply String.eqb_eq in E; subst k; exfalso; tauto|clear E]
         end.
  reflexivity.
Qed.

Lemma pareto_point_zero (p : ParetoItem) (k : string) :
  ~ In k ["name"; "value"; "cumulativePercentage"; "target"] ->
  point_number (ParetoPoint p) k = zero.
Proof.
  intros H. simpl in H. unfold point_number.
  repeat match goal with
         | |- context [String.eqb k ?s] =>
             destruct (String.eqb k s) eqn:?E;
             [apply String.eqb_eq in E; subst k; exfalso; tauto|clear E]
         end.
  reflexivity.
Qed.

(** X3.  On a histogram, or on a pareto chart with at least one item, whose
    y-axis field is not named like a property of the chart points, every
    chart point reads as 0, so the first wheel event, whatever its
    direction, sets the domain to (0, 0). *)
Theorem wheel_collapses_binned_charts (submissions : list Submission)
    (config : ChartConfig) (deltaY : float) :
  type config = histogram
  \/ (type config = pareto
      /\ exists sub, In sub submissions /\ pareto_key config sub <> "__proto__") ->
  submissions <> [] -> xAxis config <> "" -> yAxis config <> "" ->
  ~ In (yAxis config)
      ["range"; "count"; "start"; "end"; "target"; "name"; "value";
       "cumulativePercentage"] ->
  handleWheel deltaY (chartData submissions config) config (num zero, auto)
  = (num zero, num zero).
Proof.
  intros Hty Hs Hx Hy Hk.
  assert (Hlen : exists n, length (chartData submissions config) = S n).
  { rewrite (chartData_length _ _ Hs Hx Hy).
    destruct Hty as [-> | [-> (sub & Hin & Hkey)]]; [exists 9%nat; reflexivity|].
    destruct (grouped config submissions) as [|g l] eqn:Eg.
    - exfalso. apply Hkey.
      apply (proj1 (grouped_nil_iff config submissions) Eg sub Hin).
    - exists (length l). reflexivity. }
  destruct Hlen as [n Hlen].
  assert (Hne : chartData submissions config <> []).
  { intros E. rewrite E in Hlen. discriminate Hlen. }
  assert (Hys : y_values config (chartData submissions config)
                = replicate (S n) zero).
  { rewrite <- Hlen. apply y_values_zero.
    rewrite (chartData_unguarded _ _ Hs Hx Hy).
    destruct Hty as [-> | [-> _]]; apply Forall_fmap, Forall_forall;
      intros d _; simpl;
      [apply bin_point_zero|apply pareto_point_zero];
      intros Hin; apply Hk; simpl in Hin |- *; tauto. }
  rewrite (handleWheel_eq deltaY _ _ _ _ Hne), Hys, Math_max_zeros.
  destruct (zero <? deltaY)%D; vm_compute; reflexivity.
Qed.

(** X4.  A wheel event over non-empty chart data never moves yMin and always
    leaves a numeric yMax: yMin plus the new range.  Unless the range before
    the event is NaN, the new range is a number of at most the largest y
    value times 1.1.  From yMin = 0 and a yMax that is 'auto' or not NaN,
    the new yMax itself is a number of at most that cap. *)
Theorem handleWheel_bounds (deltaY : float) (chartData : list ChartPoint)
    (config : ChartConfig) (lo : float) (hi : Bound) :
  chartData <> [] ->
  let cap := (Math_max (y_values config chartData) * of_Q 1.1)%D in
  let currentMax := match hi with auto => cap | num n => n end in
  exists newRange,
    handleWheel deltaY chartData config (num lo, hi)
    = (num lo, num (lo + newRange)%D)
    /\ (is_nan (currentMax - lo)%D = false ->
        is_nan newRange = false /\ (newRange <=? cap)%D = true)
    /\ (lo = zero -> is_nan currentMax = false ->
        is_nan (lo + newRange)%D = false
        /\ (lo + newRange <=? cap)%D = true).
Proof.
  intros Hne cap currentMax.
  rewrite (handleWheel_eq deltaY _ _ _ _ Hne).
  pose proof (cap_not_nan config chartData) as Hcap.
  fold cap in Hcap |- *. fold currentMax.
  eexists. split; [reflexivity|]. split.
  - intros Hrange.
    assert (Hnew : is_nan ((currentMax - lo)
                           * (of_Z 1 + (if (zero <? deltaY)%D then of_Q 0.10
                                        else opp (of_Q 0.10))))%D = false).
    { destruct (zero <? deltaY)%D.
      - change (of_Z 1 + of_Q 0.10)%D
          with (S754_finite false 4953959590107546 (-52)).
        apply mul_not_nan. exact Hrange.
      - change (of_Z 1 + opp (of_Q 0.10))%D
          with (S754_finite false 8106479329266893 (-53)).
        apply mul_not_nan. exact Hrange. }
    split; [apply Math_min_not_nan; assumption|].
    apply Math_min_leb; assumption.
  - intros -> Hmax.
    destruct (wheel_step_bounded deltaY chartData config hi Hne)
      as (hi' & Hw & Hnan & Hle).
    { unfold currentMax in Hmax. destruct hi; [exact I|exact Hmax]. }
    rewrite (handleWheel_eq deltaY _ _ _ _ Hne) in Hw.
    fold cap in Hw, Hle. fold currentMax in Hw.
    match goal with
    | |- is_nan ?x = false /\ _ =>
        assert (E : x = hi') by (injection Hw; intros E'; exact E')
    end.
    rewrite E. split; assumption.
Qed.

(** *** The views the events can reach *)

Lemma handle_defined (chartData : list ChartPoint) (config : ChartConfig)
    (e : Event) (v : View) (lo : float) :
  yDomain v = (num lo, (yDomain v).2) ->
  ((yDomain v).2 = auto -> lo = zero) ->
  exists v' lo',
    handle chartData config e v = Some v'
    /\ yDomain v' = (num lo', (yDomain v').2)
    /\ ((yDomain v').2 = auto -> lo' = zero).
Proof.
  intros Hdom Hauto.
  destruct e as [deltaY|clientY|clientY| |]; simpl.
  - destruct chartData as [|d l] eqn:E.
    + unfold handleWheel. simpl. eexists. exists lo. split; [reflexivity|].
      split; [exact Hdom|exact Hauto].
    + rewrite <- E in *.
      assert (Hne : chartData <> []) by (rewrite E; discriminate).
      rewrite Hdom.
      rewrite (handleWheel_eq deltaY _ _ _ _ Hne). simpl.
      eexists. exists lo. split; [reflexivity|]. simpl.
      split; [reflexivity|discriminate].
  - eexists. exists lo. split; [reflexivity|]. split; [exact Hdom|exact Hauto].
  - unfold handleMouseMove. destruct (isDragging v).
    + rewrite Hdom. destruct ((yDomain v).2) as [|h] eqn:E.
      * eexists. exists lo. split; [reflexivity|].
        rewrite E. split; [exact Hdom|exact Hauto].
      * eexists. eexists. split; [reflexivity|]. simpl.
        split; [reflexivity|discriminate].
    + eexists. exists lo. split; [reflexivity|].
      split; [exact Hdom|exact Hauto].
  - eexists. exists lo. split; [reflexivity|]. split; [exact Hdom|exact Hauto].
  - eexists. exists zero. split; [reflexivity|]. simpl.
    split; reflexivity.
Qed.

(** X7.  Over any chart data, every sequence of wheel, mouse and reset
    events is handled from the initial view: [handleMouseMove] never meets
    a yMin that is 'auto'.  In the view reached yMin is a number, so the
    Reset Zoom button is shown (as it is in the initial view), and yMax is
    'auto' only in the domain (0, auto). *)
Theorem reachable_views (chartData : list ChartPoint) (config : ChartConfig)
    (events : list Event) :
  exists v,
    handle_all chartData config events initial_view = Some v
    /\ reset_button_shown v = true
    /\ ((yDomain v).2 = auto -> yDomain v = (num zero, auto)).
Proof.
  assert (H : forall events v lo,
             yDomain v = (num lo, (yDomain v).2) ->
             ((yDomain v).2 = auto -> lo = zero) ->
             exists v' lo',
               handle_all chartData config events v = Some v'
               /\ yDomain v' = (num lo', (yDomain v').2)
               /\ ((yDomain v').2 = auto -> lo' = zero)).
  { clear events. induction events as [|e events IH]; intros v lo Hdom Hauto.
    - exists v, lo. split; [reflexivity|]. split; assumption.
    - destruct (handle_defined chartData config e v lo Hdom Hauto)
        as (v1 & lo1 & H1 & Hdom1 & Hauto1).
      destruct (IH v1 lo1 Hdom1 Hauto1) as (v' & lo' & H' & Hdom' & Hauto').
      exists v', lo'. split; [|split; assumption].
      simpl. rewrite H1. exact H'. }
  destruct (H events initial_view zero eq_refl (fun _ => eq_refl))
    as (v & lo & Hrun & Hdom & Hauto).
  exists v. split; [exact Hrun|]. split.
  - unfold reset_button_shown. rewrite Hdom. reflexivity.
  - intros E. rewrite Hdom, E, (Hauto E). reflexivity.
Qed.

(** *** Tick labels *)

(** X8.  Every tick value at or below zero is labelled "0": negative ticks,
    which the axis has once the domain is panned below zero, all read
    alike. *)
Theorem formatYAxisTick_nonpositive (value : Q) :
  (value <= 0)%Q -> formatYAxisTick value = "0".
Proof.
  intros H. unfold formatYAxisTick.
  assert (H1 : Qle_bool 1000000 value = false) by (apply Qle_bool_false; lra).
  assert (H2 : Qle_bool 1000 value = false) by (apply Qle_bool_false; lra).
  assert (H3 : Qle_bool 1 value = false) by (apply Qle_bool_false; lra).
  assert (H4 : Qltb 0 value = false) by (apply Qltb_ge; exact H).
  rewrite H1, H2, H3, H4. reflexivity.
Qed.

(** *** Axis selection and rendering *)

Lemma head_filter_In {A : Type} (p : A -> bool) (l : list A) (x : A) :
  head (List.filter p l) = Some x -> In x l /\ p x = true.
Proof.
  intros H. apply List.filter_In.
  destruct (List.filter p l) as [|y l'] eqn:E; [discriminate|].
  injection H as ->. left. reflexivity.
Qed.

Lemma filter_none {A : Type} (p : A -> bool) (l : list A) :
  (forall x, In x l -> p x = false) -> List.filter p l = [].
Proof.
  induction l as [|x l IH]; intros H; simpl; [reflexivity|].
  rewrite (H x) by (left; reflexivity). apply IH.
  intros y Hy. apply H. right. exact Hy.
Qed.

Lemma or_else_default (a : string) (b : option string) :
  default "" (or_else (or_else (Some a) b) (Some ""))
  = if truthy_str a then a
    else match b with Some s => s | None => "" end.
Proof.
  unfold or_else. destruct (truthy_str a) eqn:Ea.
  - rewrite Ea. reflexivity.
  - destruct b as [s|]; [|reflexivity].
    destruct (truthy_str s) eqn:Es; [reflexivity|].
    apply truthy_str_false in Es. subst s. reflexivity.
Qed.

Lemma or_else3_default (a : string) (b c : option string) :
  default "" (or_else (or_else (or_else (Some a) b) c) (Some ""))
  = if truthy_str a then a
    else match b with
         | Some s => if truthy_str s then s
                     else match c with Some s' => s' | None => "" end
         | None => match c with Some s' => s' | None => "" end
         end.
Proof.
  unfold or_else.
  destruct (truthy_str a) eqn:Ea; simpl; rewrite ?Ea; simpl; rewrite ?Ea;
    [reflexivity|].
  destruct b as [s|]; simpl.
  - destruct (truthy_str s) eqn:Es; simpl; rewrite ?Es; simpl; rewrite ?Es;
      [reflexivity|].
    destruct c as [s'|]; [|reflexivity].
    destruct (truthy_str s') eqn:Es'; [reflexivity|].
    apply truthy_str_false in Es'. subst s'. reflexivity.
  - destruct c as [s'|]; [|reflexivity].
    destruct (truthy_str s') eqn:Es'; [reflexivity|].
    apply truthy_str_false in Es'. subst s'. reflexivity.
Qed.

(** X9.  Loading a form's submissions never replaces an axis that is set and
    changes nothing else of the configuration.  An unset y axis becomes the
    name of the form's first number or decimal field, and stays unset when
    there is none.  An unset x axis becomes the name of a date, time, text
    or dropdown field of the form, the first date or time field when its
    name is not empty, and stays unset when the form has no such field. *)
Theorem autoSelectAxes_spec (selectedForm : FormSchema) (prev : ChartConfig) :
  let config := autoSelectAxes selectedForm prev in
  type config = type prev /\ target config = target prev
  /\ secondaryYAxis config = secondaryYAxis prev
  /\ groupBy config = groupBy prev
  /\ (xAxis prev <> "" -> xAxis config = xAxis prev)
  /\ (yAxis prev <> "" -> yAxis config = yAxis prev)
  /\ (yAxis prev = "" ->
      match head (List.filter is_number_field (fields selectedForm)) with
      | Some f => yAxis config = field_name f /\ In f (fields selectedForm)
                  /\ is_number_field f = true
      | None => yAxis config = ""
      end)
  /\ (xAxis prev = "" ->
      (xAxis config <> "" ->
       exists f, In f (fields selectedForm) /\ field_name f = xAxis config
                 /\ (is_date_field f = true \/ is_text_field f = true))
      /\ (forall f, head (List.filter is_date_field (fields selectedForm))
                    = Some f ->
                    field_name f <> "" -> xAxis config = field_name f)
      /\ ((forall f, In f (fields selectedForm) ->
                     is_date_field f = false /\ is_text_field f = false) ->
          xAxis config = "")).
Proof.
  intros config. unfold config, autoSelectAxes.
  cbn [type xAxis yAxis target secondaryYAxis groupBy].
  split; [reflexivity|]. split; [reflexivity|]. split; [reflexivity|].
  split; [reflexivity|].
  split.
  { intros Hx. rewrite or_else3_default. apply truthy_str_true in Hx.
    rewrite Hx. reflexivity. }
  split.
  { intros Hy. rewrite or_else_default. apply truthy_str_true in Hy.
    rewrite Hy. reflexivity. }
  split.
  { intros Hy. rewrite or_else_default. apply truthy_str_false in Hy.
    rewrite Hy. unfold first_name.
    destruct (head (List.filter is_number_field (fields selectedForm)))
      as [f|] eqn:E; [|reflexivity].
    split; [reflexivity|]. apply head_filter_In. exact E. }
  intros Hx. rewrite or_else3_default. apply truthy_str_false in Hx.
  rewrite Hx. unfold first_name.
  destruct (head (List.filter is_date_field (fields selectedForm)))
    as [fd|] eqn:Ed;
    destruct (head (List.filter is_text_field (fields selectedForm)))
      as [ft|] eqn:Et; simpl.
  - apply head_filter_In in Ed, Et. destruct Ed as [Hind Hpd], Et as [Hint Hpt].
    destruct (truthy_str (field_name fd)) eqn:Td.
    + split; [intros _; exists fd; auto|]. split; [intros f [= <-] _; reflexivity|].
      intros Hall. destruct (Hall fd Hind). congruence.
    + split; [intros _; exists ft; auto|]. split.
      * intros f [= <-] Hn. apply truthy_str_true in Hn. congruence.
      * intros Hall. destruct (Hall fd Hind). congruence.
  - apply head_filter_In in Ed. destruct Ed as [Hind Hpd].
    destruct (truthy_str (field_name fd)) eqn:Td.
    + split; [intros _; exists fd; auto|]. split; [intros f [= <-] _; reflexivity|].
      intros Hall. destruct (Hall fd Hind). congruence.
    + split; [intros Hne; exfalso; apply Hne; reflexivity|]. split.
      * intros f [= <-] Hn. apply truthy_str_true in Hn. congruence.
      * intros _. reflexivity.
  - apply head_filter_In in Et. destruct Et as [Hint Hpt].
    split; [intros _; exists ft; auto|]. split; [intros f Hf; discriminate|].
    intros Hall. destruct (Hall ft Hint). congruence.
  - split; [intros Hne; exfalso; apply Hne; reflexivity|].
    split; [intros f Hf; discriminate|]. intros _. reflexivity.
Qed.

(** X10.  [renderChart] draws a chart exactly when a form is selected, there
    are submissions, both axes are set and, for a pareto chart, some
    submission has a key other than "__proto__"; the chart is that of the
    configured type, and the X axis of the shared axes is then keyed by
    "range" for a histogram and by the x-axis field otherwise: the fallback
    key "index" is never used. *)
Theorem renderChart_draws (selectedForm : option FormSchema)
    (submissions : list Submission) (config : ChartConfig) (t : ChartType) :
  (renderChart selectedForm config (chartData submissions config) = ChartOf t
   <-> selectedForm <> None /\ submissions <> [] /\ xAxis config <> ""
       /\ yAxis config <> ""
       /\ (type config = pareto ->
           exists sub, In sub submissions
                       /\ pareto_key config sub <> "__proto__")
       /\ t = type config)
  /\ (renderChart selectedForm config (chartData submissions config) = ChartOf t ->
      commonAxis_dataKey config
      = match type config with
        | histogram => "range"
        | _ => xAxis config
        end).
Proof.
  assert (Hiff : renderChart selectedForm config (chartData submissions config)
                 = ChartOf t
                 <-> selectedForm <> None /\ submissions <> []
                     /\ xAxis config <> "" /\ yAxis config <> ""
                     /\ (type config = pareto ->
                         exists sub, In sub submissions
                                     /\ pareto_key config sub <> "__proto__")
                     /\ t = type config).
  { unfold renderChart. split.
    - destruct selectedForm as [form|]; [|discriminate].
      destruct (truthy_str (yAxis config)) eqn:Ty; [|discriminate]. simpl.
      destruct (length (chartData submissions config) =? 0)%nat eqn:El;
        [discriminate|].
      intros [= <-]. apply Nat.eqb_neq in El.
      split; [discriminate|].
      assert (Hn : ~ (submissions = [] \/ xAxis config = ""
                      \/ yAxis config = "")).
      { intros Hg. apply chartData_guard in Hg. rewrite Hg in El.
        apply El. reflexivity. }
      assert (Hs : submissions <> []) by (intros E; apply Hn; auto).
      assert (Hx : xAxis config <> "") by (intros E; apply Hn; auto).
      assert (Hy : yAxis config <> "") by (intros E; apply Hn; auto).
      split; [exact Hs|]. split; [exact Hx|]. split; [exact Hy|].
      split; [|reflexivity].
      intros Hp. rewrite (chartData_length _ _ Hs Hx Hy), Hp in El.
      assert (Hex : Exists (compose not
                              (fun sub => pareto_key config sub = "__proto__"))
                      submissions).
      { apply not_Forall_Exists;
          [intros sub; unfold Decision; apply String.string_dec|].
        intros Hall. apply El.
        rewrite (proj2 (grouped_nil_iff config submissions)); [reflexivity|].
        intros sub Hin. rewrite Forall_forall in Hall. apply Hall.
        apply list_elem_of_In. exact Hin. }
      apply Exists_exists in Hex. destruct Hex as (sub & Hin & Hkey).
      exists sub. split; [apply list_elem_of_In; exact Hin|exact Hkey].
    - intros (Hf & Hs & Hx & Hy & Hp & ->).
      destruct selectedForm as [form|]; [|contradiction].
      apply truthy_str_true in Hy. rewrite Hy. simpl.
      apply truthy_str_true in Hy.
      pose proof (chartData_length submissions config Hs Hx Hy) as Hl.
      assert (Hpos : length (chartData submissions config) <> 0%nat).
      { rewrite Hl. destruct (type config) eqn:Et;
          try (destruct submissions; [contradiction|discriminate]);
          try discriminate.
        destruct (Hp eq_refl) as (sub & Hin & Hkey).
        intros E. apply Hkey. apply length_zero_iff_nil in E.
        apply (proj1 (grouped_nil_iff config submissions) E sub Hin). }
      apply Nat.eqb_neq in Hpos. rewrite Hpos. reflexivity. }
  split; [exact Hiff|].
  intros H. apply Hiff in H. destruct H as (_ & _ & Hx & _ & _).
  unfold commonAxis_dataKey. apply truthy_str_true in Hx. rewrite Hx.
  destruct (type config); reflexivity.
Qed.

(** X11.  After selecting a form whose fields are all of type number or
    decimal, the automatic selection leaves the x axis unset, so the chart
    data is empty and no chart is drawn, whatever the chart type and the
    submissions (for a histogram the page offers no x-axis selector). *)
Theorem numeric_only_form_draws_no_chart (form : FormSchema)
    (prev : ChartConfig) (submissions : list Submission) :
  (forall f, In f (fields form) -> is_number_field f = true) ->
  let config := autoSelectAxes form (clearAxes prev) in
  type config = type prev
  /\ xAxis config = ""
  /\ chartData submissions config = []
  /\ forall t, renderChart (Some form) config (chartData submissions config)
               <> ChartOf t.
Proof.
  intros Hall config.
  assert (Hx : xAxis config = "").
  { unfold config, autoSelectAxes. simpl.
    rewrite (filter_none is_date_field), (filter_none is_text_field).
    - reflexivity.
    - intros f Hf. specialize (Hall f Hf). unfold is_number_field in Hall.
      unfold is_text_field. destruct (field_type f); congruence.
    - intros f Hf. specialize (Hall f Hf). unfold is_number_field in Hall.
      unfold is_date_field. destruct (field_type f); congruence. }
  assert (Hc : chartData submissions config = []).
  { apply chartData_guard. right. left. exact Hx. }
  split; [reflexivity|]. split; [exact Hx|]. split; [exact Hc|].
  intros t. rewrite Hc. unfold renderChart.
  destruct (negb (truthy_str (yAxis config))); discriminate.
Qed.

(** *** The target line *)

(** X28.  The target typed by the user is the number the input reads as,
    and it is never 0: an input that reads as 0 or as NaN leaves the chart
    without a target, so a target line at 0 cannot be configured. *)
Theorem target_of_input_never_zero (input : string) (n : Q) :
  target_of_input input = Some n ->
  StringToNumber input = Some n /\ ~ (n == 0)%Q.
Proof.
  unfold target_of_input, truthy_num. intros H.
  destruct (StringToNumber input) as [m|]; [|discriminate].
  destruct (Qeq_bool m 0) eqn:E; simpl in H; [discriminate|].
  injection H as <-. split; [reflexivity|].
  intros Hz. apply Qeq_bool_iff in Hz. congruence.
Qed.

End WithRuntime.

(** *** Evaluations on the scenarios *)

Lemma series_points_witness :
  length (chartData Scenarios.cat_val_submissions
            (Scenarios.config_of line "cat" "val"))
  = length Scenarios.cat_val_submissions.
Proof.
  destruct (series_points Scenarios.cat_val_submissions
              (Scenarios.config_of line "cat" "val")) as [H _];
    [discriminate | discriminate | discriminate | discriminate | exact H].
Defined.

Lemma series_y_values_witness :
  y_values (Scenarios.config_of line "cat" "val")
    (chartData Scenarios.cat_val_submissions
       (Scenarios.config_of line "cat" "val"))
  = map (y_number (Scenarios.config_of line "cat" "val"))
      Scenarios.cat_val_submissions.
Proof.
  apply (series_y_values Scenarios.cat_val_submissions
           (Scenarios.config_of line "cat" "val")); discriminate.
Defined.

Lemma wheel_collapses_binned_charts_witness :
  handleWheel (of_Z 1)
    (chartData Scenarios.score_submissions
       (Scenarios.config_of histogram "Score" "Score"))
    (Scenarios.config_of histogram "Score" "Score") (num zero, auto)
  = (num zero, num zero).
Proof.
  apply (wheel_collapses_binned_charts Scenarios.score_submissions
           (Scenarios.config_of histogram "Score" "Score") (of_Z 1)).
  - left. reflexivity.
  - discriminate.
  - discriminate.
  - discriminate.
  - simpl. intuition discriminate.
Defined.

Lemma handleWheel_bounds_witness :
  exists newRange,
    handleWheel (of_Z (-1))
      (chartData Scenarios.score_submissions
         (Scenarios.config_of column "Score" "Score"))
      (Scenarios.config_of column "Score" "Score") (num zero, num (of_Z 50))
    = (num zero, num (zero + newRange)%D)
    /\ is_nan newRange = false.
Proof.
  assert (Hne : chartData Scenarios.score_submissions
                  (Scenarios.config_of column "Score" "Score") <> [])
    by (vm_compute; discriminate).
  destruct (handleWheel_bounds (of_Z (-1)) _
              (Scenarios.config_of column "Score" "Score") zero
              (num (of_Z 50)) Hne)
    as (newRange & Hw & Hrange & _).
  exists newRange. split; [exact Hw|].
  apply Hrange. reflexivity.
Defined.

(** X5.  Zooming in and then out does not restore the view.  Over the
    scores 10, ..., 100, from the domain (0, 50), a zoom-in gives (0, 45)
    and the zoom-out that follows gives (0, 49.50000000000001): the product
    45 * 1.1 is rounded above 49.5, and it stays below 50. *)
Theorem zoom_in_then_out :
  handleWheel (of_Z (-1))
    (chartData Scenarios.score_submissions
       (Scenarios.config_of column "Score" "Score"))
    (Scenarios.config_of column "Score" "Score") (num zero, num (of_Z 50))
  = (num zero, num (of_Z 45))
  /\ wheel_all [of_Z (-1); of_Z 1]
       (chartData Scenarios.score_submissions
          (Scenarios.config_of column "Score" "Score"))
       (Scenarios.config_of column "Score" "Score") (num zero, num (of_Z 50))
     = (num zero, num (of_Q 49.50000000000001))
  /\ (of_Q 49.5 <? of_Q 49.50000000000001)%D = true
  /\ (of_Q 49.50000000000001 <? of_Z 50)%D = true.
Proof. vm_compute. repeat split; reflexivity. Qed.

(** X6.  Two mouse moves in a row need not leave the domain of one move to
    the last position.  From the domain (0, 99), dragging from 10 to 5 and
    on to 0 leaves (1.98, 100.97999999999999); dragging from 10 to 0 at once
    leaves (1.98, 100.98).  Dragging from 10 to 5 and back to 10 restores
    (0, 99). *)
Theorem pan_steps_round :
  let v := {| yDomain := (num zero, num (of_Z 99)); isDragging := true;
              lastY := of_Z 10 |} in
  (v1 ← handleMouseMove (of_Z 5) v; handleMouseMove zero v1)
  = Some {| yDomain := (num (of_Q 1.98), num (of_Q 100.97999999999999));
            isDragging := true; lastY := zero |}
  /\ handleMouseMove zero v
     = Some {| yDomain := (num (of_Q 1.98), num (of_Q 100.98));
               isDragging := true; lastY := zero |}
  /\ (of_Q 100.97999999999999 <? of_Q 100.98)%D = true
  /\ (v1 ← handleMouseMove (of_Z 5) v; handleMouseMove (of_Z 10) v1)
     = Some v.
Proof. vm_compute. repeat split; reflexivity. Qed.

Lemma formatYAxisTick_nonpositive_witness :
  formatYAxisTick (-5) = "0".
Proof.
  apply (formatYAxisTick_nonpositive (-5)%Q). vm_compute. discriminate.
Defined.

Lemma numeric_only_form_draws_no_chart_witness :
  xAxis (autoSelectAxes EntryScenarios.qty_form
           (clearAxes (Scenarios.config_of histogram "cat" "val"))) = "".
Proof.
  destruct (numeric_only_form_draws_no_chart EntryScenarios.qty_form
              (Scenarios.config_of histogram "cat" "val") []) as (_ & H & _).
  - intros f [<- | []]. reflexivity.
  - exact H.
Defined.

Lemma target_of_input_never_zero_witness :
  StringToNumber "50" = Some 50%Q /\ ~ (50 == 0)%Q.
Proof.
  apply (target_of_input_never_zero "50" 50%Q). vm_compute. reflexivity.
Defined.

End AnalysisPageSpec.

(** ** The bulk import: rows, store and dates *)

Module ImportSpec.
Import Js JsFacts Schema DataEntry EntryMeasures ImportMeasures DataEntrySpec.

Lemma missingRequired_copy (selectedForm : FormSchema)
    (row processedRow : gmap string val) :
  copy_of row processedRow ->
  missingRequired selectedForm processedRow = missingRequired selectedForm row.
Proof.
  intros Hc. unfold missingRequired.
  induction (fields selectedForm) as [|f rest IH]; [reflexivity|].
  simpl. rewrite IH. destruct (Hc (field_name f)) as [_ ->]. reflexivity.
Qed.

Section WithStore.
Variable addDoc_ok : nat -> SubmissionDoc -> bool.
Variable uid : option string.
Variable selectedForm : FormSchema.

Lemma process_row_effect (row : gmap string val) (w : World) (c : Counters) :
  exists w' c',
    process_row addDoc_ok uid selectedForm row (w, c) = Ok (w', c')
    /\ import_effect addDoc_ok uid selectedForm [row] w w' c c'.
Proof.
  unfold process_row, import_effect, valid_rows.
  destruct (format_row_ok selectedForm row (heap w)) as (h' & p & Hf & Hc).
  rewrite Hf. simpl. rewrite (missingRequired_copy _ _ _ Hc).
  destruct (missingRequired selectedForm row) eqn:M; simpl.
  - eexists. eexists. split; [reflexivity|]. exists []. simpl.
    rewrite app_nil_r.
    repeat split; try constructor; try lia.
  - destruct (addDoc_ok _ _) eqn:A.
    + eexists. eexists. split; [reflexivity|]. eexists. simpl.
      split; [reflexivity|].
      split; [repeat constructor|]. simpl. repeat split; lia.
    + eexists. eexists. split; [reflexivity|]. exists []. simpl.
      rewrite app_nil_r.
      split; [reflexivity|]. split; [constructor|].
      repeat split; try lia.
      intros Hall. rewrite Hall in A. discriminate.
Qed.

Lemma import_effect_nil (w : World) (c : Counters) :
  import_effect addDoc_ok uid selectedForm [] w w c c.
Proof.
  exists []. unfold valid_rows. simpl. rewrite app_nil_r.
  repeat split; try constructor; lia.
Qed.

Lemma import_effect_app (rows1 rows2 : list (gmap string val))
    (w w1 w2 : World) (c c1 c2 : Counters) :
  import_effect addDoc_ok uid selectedForm rows1 w w1 c c1 ->
  import_effect addDoc_ok uid selectedForm rows2 w1 w2 c1 c2 ->
  import_effect addDoc_ok uid selectedForm (rows1 ++ rows2)%list w w2 c c2.
Proof.
  intros (a1 & Hs1 & Ht1 & Hc1 & Hn1 & Ht1' & Hl1 & Ha1)
         (a2 & Hs2 & Ht2 & Hc2 & Hn2 & Ht2' & Hl2 & Ha2).
  exists (a1 ++ a2)%list. unfold valid_rows in *.
  rewrite List.filter_app, !length_app.
  split; [rewrite Hs2, Hs1, app_assoc; reflexivity|].
  split; [apply Forall_app; split; assumption|].
  repeat split; try lia.
  intros Hall. rewrite (Ha1 Hall), (Ha2 Hall). reflexivity.
Qed.

Lemma process_chunk_effect (chunk : list (gmap string val)) (w : World)
    (c : Counters) :
  exists w' c',
    process_chunk addDoc_ok uid selectedForm chunk (w, c) = Ok (w', c')
    /\ import_effect addDoc_ok uid selectedForm chunk w w' c c'.
Proof.
  unfold process_chunk. revert w c.
  induction chunk as [|row chunk IH]; intros w c.
  - exists w, c. split; [reflexivity|apply import_effect_nil].
  - destruct (process_row_effect row w c) as (w1 & c1 & H1 & E1).
    destruct (IH w1 c1) as (w' & c' & H' & E').
    exists w', c'. split; [rewrite foldM_cons, H1; exact H'|].
    apply (import_effect_app [row] chunk _ _ _ _ _ _ E1 E').
Qed.

Lemma process_chunks_effect (chunks : list (list (gmap string val)))
    (w : World) (c : Counters) :
  exists w' c',
    foldM (process_chunk addDoc_ok uid selectedForm) chunks (w, c)
    = Ok (w', c')
    /\ import_effect addDoc_ok uid selectedForm (concat chunks) w w' c c'.
Proof.
  revert w c. induction chunks as [|chunk chunks IH]; intros w c.
  - exists w, c. split; [reflexivity|apply import_effect_nil].
  - destruct (process_chunk_effect chunk w c) as (w1 & c1 & H1 & E1).
    destruct (IH w1 c1) as (w' & c' & H' & E').
    exists w', c'. split; [rewrite foldM_cons, H1; exact H'|].
    simpl. apply (import_effect_app _ _ _ _ _ _ _ _ E1 E').
Qed.

Lemma handleFileUpload_effect (data : list (gmap string val)) (w : World) :
  data <> [] ->
  exists w' c,
    handleFileUpload addDoc_ok uid selectedForm data w
    = Ok (w', {| message := "Upload complete. Success: "
                            ++ String_of_int (Z.of_nat (successCount c))
                            ++ ", Errors: "
                            ++ String_of_int (Z.of_nat (errorCount c));
                 kind := if (0 <? successCount c)%nat then success else error |})
    /\ import_effect addDoc_ok uid selectedForm data w w'
         {| successCount := 0; errorCount := 0 |} c.
Proof.
  intros Hne. unfold handleFileUpload.
  destruct data as [|row data]; [contradiction|].
  change (length (row :: data) =? 0)%nat with false. cbv iota.
  rewrite for_batches_chunks
    by (pose proof (batch_count_le (length (row :: data))); lia).
  destruct (process_chunks_effect (chunks_from 0 (row :: data)) w
              {| successCount := 0; errorCount := 0 |})
    as (w' & c & Hrun & He).
  rewrite Hrun. exists w', c. split; [reflexivity|].
  rewrite (chunks_from_concat (row :: data) _ 0 eq_refl) in He.
  exact He.
Qed.

(** X12.  The import of a sheet with rows always completes: it neither
    throws nor depends on the loop's fuel, whatever the store answers, and
    the reported counts add up to the number of rows. *)
Theorem import_counts_every_row (data : list (gmap string val)) (w : World) :
  data <> [] ->
  exists w' c,
    handleFileUpload addDoc_ok uid selectedForm data w
    = Ok (w', {| message := "Upload complete. Success: "
                            ++ String_of_int (Z.of_nat (successCount c))
                            ++ ", Errors: "
                            ++ String_of_int (Z.of_nat (errorCount c));
                 kind := if (0 <? successCount c)%nat then success else error |})
    /\ (successCount c + errorCount c = length data)%nat.
Proof.
  intros Hne.
  destruct (handleFileUpload_effect data w Hne)
    as (w' & c & Hrun & added & _ & _ & _ & _ & Hsum & _).
  exists w', c. split; [exact Hrun|]. simpl in Hsum. exact Hsum.
Qed.

(** X13.  The import only appends to the submissions collection: the stored
    documents are kept, in order, and the new ones name the selected form
    and the user.  It calls [addDoc] once per row that passes the
    required-field check, stores at most that many documents (exactly that
    many when the store accepts every write), and its toast is a success
    exactly when at least one document was stored. *)
Theorem import_only_appends (data : list (gmap string val)) (w : World) :
  data <> [] ->
  exists w' t added,
    handleFileUpload addDoc_ok uid selectedForm data w = Ok (w', t)
    /\ submissions w' = app (submissions w) added
    /\ Forall (tagged uid selectedForm) added
    /\ addDoc_calls w' = (addDoc_calls w + valid_rows selectedForm data)%nat
    /\ (length added <= valid_rows selectedForm data)%nat
    /\ ((forall n d, addDoc_ok n d = true) ->
        length added = valid_rows selectedForm data)
    /\ (kind t = success <-> added <> []).
Proof.
  intros Hne.
  destruct (handleFileUpload_effect data w Hne)
    as (w' & c & Hrun & added & Hs & Ht & Hc & Hn & _ & Hl & Ha).
  eexists. eexists. exists added. split; [exact Hrun|].
  split; [exact Hs|]. split; [exact Ht|]. split; [exact Hc|].
  split; [exact Hl|]. split; [exact Ha|].
  simpl in Hn |- *. rewrite Hn. destruct added as [|d l]; simpl.
  - split; [discriminate|contradiction].
  - split; [discriminate|reflexivity].
Qed.

(** X14.  A parsed row is sent to the store exactly when none of the form's
    required fields is undefined, null or the empty string in it: such a
    row costs one [addDoc] call and is counted as a success or, when the
    store rejects the write, as an error; a row with a blank required field
    is counted as an error without any call. *)
Theorem row_sent_iff_complete (row : gmap string val) (w : World) (c : Counters) :
  exists w' c',
    process_row addDoc_ok uid selectedForm row (w, c) = Ok (w', c')
    /\ ((exists f, In f (fields selectedForm) /\ required f = true
                   /\ (get row (field_name f) = VUndefined
                       \/ get row (field_name f) = VNull
                       \/ get row (field_name f) = VStr "")) ->
        addDoc_calls w' = addDoc_calls w
        /\ submissions w' = submissions w
        /\ successCount c' = successCount c
        /\ errorCount c' = S (errorCount c))
    /\ (~ (exists f, In f (fields selectedForm) /\ required f = true
                     /\ (get row (field_name f) = VUndefined
                         \/ get row (field_name f) = VNull
                         \/ get row (field_name f) = VStr "")) ->
        addDoc_calls w' = S (addDoc_calls w)
        /\ ((exists d, submissions w' = app (submissions w) [d]
                       /\ successCount c' = S (successCount c)
                       /\ errorCount c' = errorCount c)
            \/ (submissions w' = submissions w
                /\ successCount c' = successCount c
                /\ errorCount c' = S (errorCount c)))).
Proof.
  destruct (process_row_effect row w c)
    as (w' & c' & Hrun & added & Hs & _ & Hc & Hn & Hsum & Hl & _).
  exists w', c'. split; [exact Hrun|].
  assert (Hblank : missingRequired selectedForm row = true
                   <-> exists f, In f (fields selectedForm) /\ required f = true
                                 /\ (get row (field_name f) = VUndefined
                                     \/ get row (field_name f) = VNull
                                     \/ get row (field_name f) = VStr "")).
  { rewrite missingRequired_iff. split; intros (f & Hin & Hr & Hb);
      exists f; (split; [exact Hin|]); (split; [exact Hr|]);
      apply is_blank_iff; exact Hb. }
  unfold valid_rows in Hc, Hl. simpl in Hc, Hl, Hsum. split.
  - intros Hb. apply Hblank in Hb. rewrite Hb in Hc, Hl. simpl in Hc, Hl.
    destruct added; [|simpl in Hl; lia]. rewrite app_nil_r in Hs.
    simpl in Hn. repeat split; [lia|exact Hs|lia|lia].
  - intros Hb.
    assert (Hv : missingRequired selectedForm row = false).
    { destruct (missingRequired selectedForm row) eqn:M; [|reflexivity].
      exfalso. apply Hb, Hblank. reflexivity. }
    rewrite Hv in Hc, Hl. simpl in Hc, Hl. split; [lia|].
    destruct added as [|d [|d' l]]; simpl in Hl, Hn; [| |lia].
    + right. rewrite app_nil_r in Hs. repeat split; [exact Hs|lia|lia].
    + left. exists d. repeat split; [exact Hs|lia|lia].
Qed.

(** X15.  When every row of the sheet has a blank required field, the import
    writes nothing and calls [addDoc] not once, and its toast is an error
    that counts every row. *)
Theorem import_of_blank_rows (data : list (gmap string val)) (w : World) :
  data <> [] ->
  (forall row, In row data -> missingRequired selectedForm row = true) ->
  exists w',
    handleFileUpload addDoc_ok uid selectedForm data w
    = Ok (w', {| message := "Upload complete. Success: 0, Errors: "
                            ++ String_of_int (Z.of_nat (length data));
                 kind := error |})
    /\ submissions w' = submissions w
    /\ addDoc_calls w' = addDoc_calls w.
Proof.
  intros Hne Hall.
  destruct (handleFileUpload_effect data w Hne)
    as (w' & c & Hrun & added & Hs & _ & Hc & Hn & Hsum & Hl & _).
  assert (Hv : valid_rows selectedForm data = 0%nat).
  { unfold valid_rows. rewrite (AnalysisPageSpec.filter_none _ data);
      [reflexivity|].
    intros row Hin. rewrite (Hall row Hin). reflexivity. }
  rewrite Hv in Hc, Hl. destruct added; [|simpl in Hl; lia].
  rewrite app_nil_r in Hs. simpl in Hn, Hsum.
  exists w'. split; [|split; [exact Hs|lia]].
  rewrite Hrun. destruct c as [sc ec]. simpl in *. subst sc.
  replace ec with (length data) by lia. reflexivity.
Qed.

End WithStore.

(** *** What formatting a row changes *)

Lemma format_field_step (row : gmap string val) (field : FormField)
    (h h' : gmap loc Z) (p p' : gmap string val) :
  format_field row field (h, p) = Ok (h', p') ->
  (forall l, h' !! l = None <-> h !! l = None)
  /\ (forall l t, h !! l = Some t ->
        exists n : nat, h' !! l = Some (t + Z.of_nat n * (12 * msPerHour))%Z)
  /\ (forall k,
        get p' k = get p k
        \/ (k = field_name field
            /\ (field_type field = date \/ field_type field = time)
            /\ exists l s, get p k = VObj l /\ is_Some (h !! l)
                           /\ get p' k = VStr s /\ s <> "")).
Proof.
  assert (Hsame : forall l t, h !! l = Some t ->
            exists n : nat, h !! l = Some (t + Z.of_nat n * (12 * msPerHour))%Z).
  { intros l t Hl. exists 0%nat. rewrite Hl. f_equal; lia. }
  assert (Hshift : forall d t0 l t, h !! d = Some t0 -> h !! l = Some t ->
            exists n : nat,
              <[d := setHours t0 (getHours t0 + 12)]> h !! l
              = Some (t + Z.of_nat n * (12 * msPerHour))%Z).
  { intros d t0 l t Hd Hl. rewrite setHours_plus_12.
    destruct (decide (d = l)) as [->|Hne].
    - exists 1%nat. rewrite lookup_insert_eq. rewrite Hd in Hl.
      injection Hl as ->. f_equal; lia.
    - exists 0%nat. rewrite lookup_insert_ne by exact Hne. rewrite Hl.
      f_equal; lia. }
  assert (Hdom : forall d t0 v l, h !! d = Some t0 ->
            (<[d := v]> h !! l = None <-> h !! l = None)).
  { intros d t0 v l Hd. destruct (decide (d = l)) as [->|Hne].
    - rewrite lookup_insert_eq, Hd. split; discriminate.
    - rewrite lookup_insert_ne by exact Hne. reflexivity. }
  unfold format_field.
  destruct (get p (field_name field)) as [| |b|n|s|dateVal] eqn:G;
    try (intros [= <- <-]; split; [reflexivity|]; split; [exact Hsame|];
         intros k; left; reflexivity).
  destruct (h !! dateVal) as [t0|] eqn:Ht;
    [|intros [= <- <-]; split; [reflexivity|]; split; [exact Hsame|];
      intros k; left; reflexivity].
  destruct (field_type field) eqn:Ty;
    try (intros [= <- <-]; split; [intros l; apply (Hdom _ t0); exact Ht|];
         split; [intros l t; apply Hshift; exact Ht|];
         intros k; left; reflexivity).
  - intros [= <- <-]. split; [intros l; apply (Hdom _ t0); exact Ht|].
    split; [intros l t; apply Hshift; exact Ht|].
    intros k. rewrite get_insert.
    destruct (decide (field_name field = k)) as [<-|Hne]; [right|left; reflexivity].
    split; [reflexivity|]. split; [left; reflexivity|].
    exists dateVal. eexists. split; [exact G|]. split; [eauto|].
    split; [reflexivity|apply format_date_not_empty].
  - destruct (get row (field_name field)) as [| |b|n|s|originalDate];
      try discriminate.
    destruct (_ !! originalDate) as [t1|]; [|discriminate].
    intros [= <- <-]. split; [intros l; apply (Hdom _ t0); exact Ht|].
    split; [intros l t; apply Hshift; exact Ht|].
    intros k. rewrite get_insert.
    destruct (decide (field_name field = k)) as [<-|Hne]; [right|left; reflexivity].
    split; [reflexivity|]. split; [right; reflexivity|].
    exists dateVal. eexists. split; [exact G|]. split; [eauto|].
    split; [reflexivity|apply format_time_not_empty].
Qed.

Lemma format_fields_changes (row : gmap string val) (fs all : list FormField)
    (h0 h h' : gmap loc Z) (p p' : gmap string val) :
  (forall f, In f fs -> In f all) ->
  foldM (format_field row) fs (h, p) = Ok (h', p') ->
  (forall l, h !! l = None <-> h0 !! l = None) ->
  (forall l t, h0 !! l = Some t ->
     exists n : nat, h !! l = Some (t + Z.of_nat n * (12 * msPerHour))%Z) ->
  (forall k,
     get p k = get row k
     \/ exists f l s, In f all /\ field_name f = k
                      /\ (field_type f = date \/ field_type f = time)
                      /\ get row k = VObj l /\ is_Some (h0 !! l)
                      /\ get p k = VStr s /\ s <> "") ->
  (forall l, h' !! l = None <-> h0 !! l = None)
  /\ (forall l t, h0 !! l = Some t ->
        exists n : nat, h' !! l = Some (t + Z.of_nat n * (12 * msPerHour))%Z)
  /\ (forall k,
        get p' k = get row k
        \/ exists f l s, In f all /\ field_name f = k
                         /\ (field_type f = date \/ field_type f = time)
                         /\ get row k = VObj l /\ is_Some (h0 !! l)
                         /\ get p' k = VStr s /\ s <> "").
Proof.
  revert h p. induction fs as [|f fs IH]; intros h p Hin Hrun Hdom Hsh Hp.
  - injection Hrun as <- <-. auto.
  - rewrite foldM_cons in Hrun.
    destruct (format_field row f (h, p)) as [[h1 p1]| |] eqn:Hf;
      try discriminate.
    simpl in Hrun.
    destruct (format_field_step _ _ _ _ _ _ Hf) as (Hd1 & Hs1 & Hp1).
    apply (IH h1 p1); [intros g Hg; apply Hin; right; exact Hg|exact Hrun| | |].
    + intros l. rewrite Hd1. apply Hdom.
    + intros l t Hl. destruct (Hsh l t Hl) as [n Hn].
      destruct (Hs1 l _ Hn) as [m Hm]. exists (n + m)%nat. rewrite Hm.
      f_equal; lia.
    + intros k. destruct (Hp1 k) as [E|(-> & Hty & l & s & Hg & Hl & Hs & Hne)].
      * rewrite E. apply Hp.
      * right. destruct (Hp (field_name f)) as [E|(g & l' & s' & _ & _ & _ & _ & _ & Hs' & _)].
        -- exists f, l, s. rewrite E in Hg.
           assert (Hl0 : is_Some (h0 !! l)).
           { destruct (h0 !! l) eqn:E0; [eauto|].
             apply Hdom in E0. destruct Hl as [x Hx]. congruence. }
           split; [apply Hin; left; reflexivity|]. split; [reflexivity|].
           split; [exact Hty|]. split; [exact Hg|]. split; [exact Hl0|].
           split; [exact Hs|exact Hne].
        -- congruence.
Qed.

(** X16.  Formatting a parsed row never throws; it leaves every cell as
    parsed except the [Date] cells of date and time fields, which become
    non-empty strings; it creates and removes no [Date], and moves each
    [Date] by a whole number of 12-hour steps. *)
Theorem format_row_changes_only_dates (selectedForm : FormSchema)
    (row : gmap string val) (h : gmap loc Z) :
  exists h' processedRow,
    format_row selectedForm row h = Ok (h', processedRow)
    /\ (forall k,
          get processedRow k = get row k
          \/ exists f l s, In f (fields selectedForm) /\ field_name f = k
                           /\ (field_type f = date \/ field_type f = time)
                           /\ get row k = VObj l /\ is_Some (h !! l)
                           /\ get processedRow k = VStr s /\ s <> "")
    /\ (forall l, h' !! l = None <-> h !! l = None)
    /\ (forall l t, h !! l = Some t ->
          exists n : nat, h' !! l = Some (t + Z.of_nat n * (12 * msPerHour))%Z).
Proof.
  destruct (format_row_ok selectedForm row h) as (h' & p & Hf & _).
  exists h', p. split; [exact Hf|].
  unfold format_row in Hf.
  destruct (format_fields_changes row (fields selectedForm) (fields selectedForm)
              h h h' row p (fun f H => H) Hf)
    as (Hd & Hs & Hp).
  - reflexivity.
  - intros l t Hl. exists 0%nat. rewrite Hl. f_equal; lia.
  - intros k. left. reflexivity.
  - auto.
Qed.

(** *** Dates of the import *)

Lemma day_of_shift (t : Z) :
  ((t + 12 * msPerHour) / msPerDay
   = t / msPerDay + (if getHours t <? 12 then 0 else 1))%Z.
Proof.
  unfold getHours, msPerHour, msPerDay.
  destruct (Z.ltb_spec ((t / 3600000) mod 24) 12);
    Z.div_mod_to_equations; lia.
Qed.

Lemma format_date_same_day (t t' : Z) :
  (t / msPerDay = t' / msPerDay)%Z -> format_date t = format_date t'.
Proof.
  intros H. unfold format_date, getFullYear, getMonth, getDate.
  rewrite H. reflexivity.
Qed.

(** X17.  The date written for a date field is the day of the cell's instant
    when its local hour is before noon, and the following day otherwise: the
    12-hour shift that repairs a cell read slightly before midnight moves
    every afternoon instant to the next day.  The [Date] object itself is
    left 12 hours later. *)
Theorem date_field_rolls_over_at_noon (row processedRow : gmap string val)
    (field : FormField) (h : gmap loc Z) (dateVal : loc) (t : Z) :
  field_type field = date ->
  get processedRow (field_name field) = VObj dateVal ->
  h !! dateVal = Some t ->
  format_field row field (h, processedRow)
  = Ok (<[dateVal := (t + 12 * msPerHour)%Z]> h,
        <[field_name field :=
            VStr (format_date (if (getHours t <? 12)%Z then t
                               else (t + msPerDay)%Z))]> processedRow).
Proof.
  intros Hty Hget Hh. unfold format_field. rewrite Hget, Hh, Hty.
  rewrite setHours_plus_12. do 4 f_equal.
  apply format_date_same_day. rewrite day_of_shift.
  destruct (getHours t <? 12)%Z.
  - lia.
  - unfold msPerDay. rewrite <- (Z.div_add t 1 86400000) by lia. f_equal.
Qed.

Lemma date_field_rolls_over_at_noon_witness :
  format_field EntryScenarios.time_row (EntryScenarios.field_of "D" date false)
    (EntryScenarios.time_heap, EntryScenarios.time_row)
  = Ok (<[2%positive := (EntryScenarios.t_2024_03_10 + 12 * msPerHour)%Z]>
          EntryScenarios.time_heap,
        <["D" := VStr "2024-03-10"]> EntryScenarios.time_row).
Proof.
  apply (date_field_rolls_over_at_noon EntryScenarios.time_row
           EntryScenarios.time_row (EntryScenarios.field_of "D" date false)
           EntryScenarios.time_heap 2%positive EntryScenarios.t_2024_03_10);
    reflexivity.
Defined.


Lemma length_append (a b : string) :
  String.length (a ++ b) = (String.length a + String.length b)%nat.
Proof. induction a as [|c a IH]; simpl; [reflexivity|]. rewrite IH. reflexivity. Qed.

Lemma two_digits (z : Z) :
  (0 <= z < 100)%Z ->
  String.length (padStart (String_of_int z) 2 "0"%char) = 2%nat.
Proof.
  intros H.
  assert (E : exists n : nat, z = Z.of_nat n /\ (n < 100)%nat).
  { exists (Z.to_nat z). lia. }
  destruct E as (n & -> & Hn). clear H.
  do 100 (destruct n as [|n]; [reflexivity|]). lia.
Qed.

Lemma civil_from_days_bounds (day : Z) :
  (1 <= (civil_from_days day).1.2 <= 12)%Z
  /\ (1 <= (civil_from_days day).2 <= 31)%Z.
Proof.
  unfold civil_from_days. cbv zeta. cbn [fst snd].
  match goal with
  | |- context [(?mp <? 10)%Z] => destruct (Z.ltb_spec mp 10)
  end; Z.div_mod_to_equations; lia.
Qed.

(** X18.  The strings the import writes have a fixed shape: a time is five
    characters, two digits, a colon and two digits; a date is the year
    followed by six characters, with the month in 01..12 and the day in
    01..31.  No instant gives a pad of more than two digits. *)
Theorem import_strings_shape (t : Z) :
  String.length (format_time t) = 5%nat
  /\ String.get 2 (format_time t) = Some ":"%char
  /\ (exists suffix,
        format_date t = String_of_int (getFullYear t) ++ suffix
        /\ String.length suffix = 6%nat)
  /\ (0 <= getMonth t <= 11)%Z /\ (1 <= getDate t <= 31)%Z.
Proof.
  assert (Hh : (0 <= getHours t < 100)%Z).
  { unfold getHours. pose proof (Z.mod_pos_bound (t / msPerHour) 24). lia. }
  assert (Hm : (0 <= getMinutes t < 100)%Z).
  { unfold getMinutes. pose proof (Z.mod_pos_bound (t / msPerMinute) 60). lia. }
  pose proof (civil_from_days_bounds (t / msPerDay)) as [Hmo Hda].
  fold (getDate t) in Hda.
  assert (Hmo' : (0 <= getMonth t <= 11)%Z) by (unfold getMonth; lia).
  pose proof (two_digits _ Hh) as Lh. pose proof (two_digits _ Hm) as Lm.
  split; [|split; [|split; [|split; [exact Hmo'|exact Hda]]]].
  - unfold format_time. cbv zeta. rewrite !length_append, Lh, Lm. reflexivity.
  - unfold format_time. cbv zeta.
    destruct (padStart (String_of_int (getHours t)) 2 "0") as [|a [|b [|c s]]];
      simpl in Lh; try discriminate. reflexivity.
  - eexists. split; [unfold format_date; cbv zeta; reflexivity|].
    rewrite !length_append, !two_digits by lia. reflexivity.
Qed.

(** *** Evaluations on the scenarios *)

Lemma import_counts_every_row_witness :
  exists w' c,
    handleFileUpload PageScenarios.accepting None EntryScenarios.qty_form
      [EntryScenarios.qty_zero] EntryScenarios.empty_world
    = Ok (w', {| message := "Upload complete. Success: "
                            ++ String_of_int (Z.of_nat (successCount c))
                            ++ ", Errors: "
                            ++ String_of_int (Z.of_nat (errorCount c));
                 kind := if (0 <? successCount c)%nat then success else error |})
    /\ (successCount c + errorCount c
        = length [EntryScenarios.qty_zero])%nat.
Proof.
  apply (import_counts_every_row PageScenarios.accepting None
           EntryScenarios.qty_form [EntryScenarios.qty_zero]
           EntryScenarios.empty_world).
  discriminate.
Defined.

Lemma import_only_appends_witness :
  exists w' t added,
    handleFileUpload PageScenarios.accepting None EntryScenarios.qty_form
      [EntryScenarios.qty_zero] EntryScenarios.empty_world = Ok (w', t)
    /\ submissions w' = app (submissions EntryScenarios.empty_world) added
    /\ length added = 1%nat.
Proof.
  destruct (import_only_appends PageScenarios.accepting None
              EntryScenarios.qty_form [EntryScenarios.qty_zero]
              EntryScenarios.empty_world)
    as (w' & t & added & Hup & Happ & _ & _ & _ & Hall & _).
  - discriminate.
  - exists w', t, added. split; [exact Hup|]. split; [exact Happ|].
    rewrite Hall by reflexivity. reflexivity.
Defined.

Lemma import_of_blank_rows_witness :
  exists w',
    handleFileUpload PageScenarios.accepting None EntryScenarios.qty_form
      [∅] EntryScenarios.empty_world
    = Ok (w', {| message := "Upload complete. Success: 0, Errors: "
                            ++ String_of_int (Z.of_nat (length [∅ : gmap string val]));
                 kind := error |})
    /\ submissions w' = submissions EntryScenarios.empty_world
    /\ addDoc_calls w' = addDoc_calls EntryScenarios.empty_world.
Proof.
  apply (import_of_blank_rows PageScenarios.accepting None
           EntryScenarios.qty_form [∅] EntryScenarios.empty_world).
  - discriminate.
  - intros row [<- | []]. reflexivity.
Defined.

End ImportSpec.

(** ** The entry row: keys, saving, deleting, editing *)

Module EntryPageSpec.
Import Js Schema EntryPage.

Lemma NoDup_map_inj_on {A B : Type} (f : A -> B) (l : list A) (x y : A) :
  NoDup (map f l) -> In x l -> In y l -> f x = f y -> x = y.
Proof.
  induction l as [|a l IH]; simpl; intros Hnd Hx Hy E; [contradiction|].
  inversion Hnd as [|? ? Hnotin Hnd']; subst.
  destruct Hx as [-> | Hx], Hy as [-> | Hy].
  - reflexivity.
  - exfalso. apply Hnotin. apply list_elem_of_In. rewrite E.
    apply in_map. exact Hy.
  - exfalso. apply Hnotin. apply list_elem_of_In. rewrite <- E.
    apply in_map. exact Hx.
  - apply IH; assumption.
Qed.

Lemma filter_all {A : Type} (p : A -> bool) (l : list A) :
  (forall x, In x l -> p x = true) -> List.filter p l = l.
Proof.
  induction l as [|a l IH]; simpl; intros H; [reflexivity|].
  rewrite (H a) by (left; reflexivity). f_equal. apply IH.
  intros x Hx. apply H. right. exact Hx.
Qed.

Lemma map_id_on {A : Type} (f : A -> A) (l : list A) :
  (forall x, In x l -> f x = x) -> map f l = l.
Proof.
  induction l as [|a l IH]; simpl; intros H; [reflexivity|].
  rewrite (H a) by (left; reflexivity). f_equal. apply IH.
  intros x Hx. apply H. right. exact Hx.
Qed.

Lemma editing_target_Some (p : Page) (editing : string) :
  editingId p = Some editing -> editing <> "" ->
  editing_target p = Some editing.
Proof.
  intros He Hne. unfold editing_target, truthy_str. rewrite He.
  destruct (String.eqb_spec editing ""); [contradiction|reflexivity].
Qed.

(** X19.  From an input of the entry row, a key either submits, moves the
    focus to the input next to it, or does nothing: Enter submits exactly on
    the last input and never does nothing, and the focus never leaves the
    row. *)
Theorem handleKeyDown_stays_in_row (key : Key) (index : nat) (p : Page) :
  (index < field_count p)%nat ->
  (handleKeyDown key index p = Submit
   <-> key = Enter /\ (index + 1 = field_count p)%nat)
  /\ (forall j, handleKeyDown key index p = Focus j ->
        (j < field_count p)%nat /\ (j = index + 1 \/ index = j + 1)%nat)
  /\ (handleKeyDown key index p = NoAction -> key <> Enter).
Proof.
  intros Hi. unfold handleKeyDown.
  destruct key.
  - destruct (Nat.eqb_spec (index + 1) (field_count p)) as [E|E].
    + split; [tauto|]. split; [discriminate|discriminate].
    + split; [split; [discriminate|intros [_ ?]; contradiction]|].
      split; [|discriminate].
      intros j Hj. injection Hj as <-. lia.
  - destruct (Nat.ltb_spec (index + 1) (field_count p)) as [E|E].
    + split; [split; [discriminate|intros [? _]; discriminate]|].
      split; [|discriminate]. intros j Hj. injection Hj as <-. lia.
    + split; [split; [discriminate|intros [? _]; discriminate]|].
      split; [discriminate|]. intros _. discriminate.
  - destruct (Nat.ltb_spec 0 index) as [E|E].
    + split; [split; [discriminate|intros [? _]; discriminate]|].
      split; [|discriminate]. intros j Hj. injection Hj as <-. lia.
    + split; [split; [discriminate|intros [? _]; discriminate]|].
      split; [discriminate|]. intros _. discriminate.
  - split; [split; [discriminate|intros [? _]; discriminate]|].
    split; [discriminate|]. intros _. discriminate.
Qed.

(** X20.  [handleSubmit] sends no request exactly when no form is selected
    or a required field of the form holds a falsy value; the page is then
    left as it was, apart from the toast.  Whether and what it sends does
    not depend on the store's answer. *)
Theorem handleSubmit_sends_nothing_invalid (uid : option string)
    (reply : StoreReply) (p : Page) :
  ((handleSubmit uid reply p).2 = None
   <-> selectedForm p = None
       \/ exists form f, selectedForm p = Some form /\ In f (fields form)
                         /\ required f = true
                         /\ truthy (get (formData p) (field_name f)) = false)
  /\ ((handleSubmit uid reply p).2 = None ->
      submissions (handleSubmit uid reply p).1 = submissions p
      /\ formData (handleSubmit uid reply p).1 = formData p
      /\ editingId (handleSubmit uid reply p).1 = editingId p)
  /\ forall reply', (handleSubmit uid reply' p).2 = (handleSubmit uid reply p).2.
Proof.
  unfold handleSubmit.
  destruct (selectedForm p) as [form|] eqn:Hf.
  2:{ split; [split; [intros _; left; reflexivity|reflexivity]|].
      split; [intros _; repeat split; reflexivity|reflexivity]. }
  destruct (DataEntry.handleSubmit_missingRequired form (formData p)) eqn:Hm.
  - split; [|split; [intros _; repeat split; reflexivity|reflexivity]].
    split; [|reflexivity]. intros _. right.
    unfold DataEntry.handleSubmit_missingRequired in Hm.
    apply existsb_exists in Hm as (f & Hin & Hb).
    apply andb_true_iff in Hb as [Hr Ht]. apply negb_true_iff in Ht.
    exists form, f. repeat split; assumption.
  - assert (Hnone : ~ (Some form = None
                       \/ exists form' f, Some form = Some form'
                            /\ In f (fields form') /\ required f = true
                            /\ truthy (get (formData p) (field_name f)) = false)).
    { intros [H|(form' & f & E & Hin & Hr & Ht)]; [discriminate|].
      injection E as <-.
      assert (Hex : DataEntry.handleSubmit_missingRequired form (formData p)
                    = true).
      { unfold DataEntry.handleSubmit_missingRequired.
        apply existsb_exists. exists f. split; [exact Hin|].
        rewrite Hr, Ht. reflexivity. }
      congruence. }
    destruct (editing_target p); simpl.
    + split; [split; [discriminate|intros H; destruct (Hnone H)]|].
      split; [discriminate|reflexivity].
    + split; [split; [discriminate|intros H; destruct (Hnone H)]|].
      split; [discriminate|reflexivity].
Qed.

(** X21.  A store call that is rejected changes nothing but the toasts: the
    listed entries, the data typed, the entry being edited and the selected
    form stay as they were after a failed save and after a failed delete,
    and the toast added is an error. *)
Theorem rejected_call_changes_only_toasts (uid : option string)
    (confirmed : bool) (target : string) (p p' : Page) :
  p' = (handleSubmit uid Rejected p).1
  \/ p' = (handleDelete confirmed Rejected target p).1 ->
  selectedForm p' = selectedForm p
  /\ formData p' = formData p
  /\ submissions p' = submissions p
  /\ editingId p' = editingId p
  /\ (toasts p' = toasts p
      \/ exists t, toasts p' = app (toasts p) [t]
                   /\ DataEntry.kind t = DataEntry.error).
Proof.
  intros [-> | ->].
  - unfold handleSubmit.
    destruct (selectedForm p) as [form|] eqn:Hf; simpl.
    + destruct (DataEntry.handleSubmit_missingRequired form (formData p));
        [|destruct (editing_target p)]; simpl;
        (repeat split; try assumption; right; eexists;
         split; [reflexivity|reflexivity]).
    + rewrite Hf. repeat split. left. reflexivity.
  - unfold handleDelete. destruct confirmed; simpl.
    + repeat split. right. eexists. split; reflexivity.
    + repeat split. left. reflexivity.
Qed.

(** X22.  A successful save while editing changes the data of the entries
    whose id is the edited one and nothing else of the list: the number of
    entries, their order and their ids, forms and authors are kept.  The
    request is an update of the edited document with the data typed, and
    editing ends with an empty row. *)
Theorem update_keeps_the_list_in_place (uid : option string) (r : string)
    (p : Page) (form : FormSchema) (editing : string) :
  selectedForm p = Some form ->
  DataEntry.handleSubmit_missingRequired form (formData p) = false ->
  editingId p = Some editing -> editing <> "" ->
  (handleSubmit uid (Resolved r) p).2
  = Some (UpdateDoc editing (formData p) uid)
  /\ length (submissions (handleSubmit uid (Resolved r) p).1)
     = length (submissions p)
  /\ (forall i sub, submissions p !! i = Some sub ->
        exists sub',
          submissions (handleSubmit uid (Resolved r) p).1 !! i = Some sub'
          /\ id sub' = id sub
          /\ DataEntry.formId (doc sub') = DataEntry.formId (doc sub)
          /\ DataEntry.formName (doc sub') = DataEntry.formName (doc sub)
          /\ DataEntry.submittedBy (doc sub') = DataEntry.submittedBy (doc sub)
          /\ (id sub = editing -> DataEntry.data (doc sub') = formData p)
          /\ (id sub <> editing -> sub' = sub))
  /\ editingId (handleSubmit uid (Resolved r) p).1 = None
  /\ formData (handleSubmit uid (Resolved r) p).1 = ∅.
Proof.
  intros Hf Hm He Hne. unfold handleSubmit.
  rewrite Hf, Hm, (editing_target_Some p editing He Hne). simpl.
  split; [reflexivity|]. split; [apply length_map|].
  split; [|split; reflexivity].
  intros i sub Hi. rewrite list_lookup_fmap, Hi. simpl.
  eexists. split; [reflexivity|].
  destruct (String.eqb_spec (id sub) editing) as [E|E]; simpl.
  - repeat split; try reflexivity. intros H. contradiction.
  - repeat split; try reflexivity. intros H. contradiction.
Qed.

(** X23.  A successful save of a new entry puts it first in the list under
    the id the store returned, with the selected form, the data typed and
    the user, and empties the row.  When that id is not yet listed, deleting
    the new entry brings the list back to what it was. *)
Theorem add_then_delete (uid : option string) (newId r : string) (p : Page)
    (form : FormSchema) :
  selectedForm p = Some form ->
  DataEntry.handleSubmit_missingRequired form (formData p) = false ->
  editing_target p = None ->
  ~ In newId (map id (submissions p)) ->
  exists added,
    submissions (handleSubmit uid (Resolved newId) p).1 = added :: submissions p
    /\ id added = newId
    /\ DataEntry.formId (doc added) = form_id form
    /\ DataEntry.formName (doc added) = form_name form
    /\ DataEntry.data (doc added) = formData p
    /\ DataEntry.submittedBy (doc added) = uid
    /\ (handleSubmit uid (Resolved newId) p).2 = Some (AddDoc (doc added))
    /\ formData (handleSubmit uid (Resolved newId) p).1 = ∅
    /\ submissions
         (handleDelete true (Resolved r) newId
            (handleSubmit uid (Resolved newId) p).1).1
       = submissions p.
Proof.
  intros Hf Hm He Hfresh. unfold handleSubmit. rewrite Hf, Hm, He. simpl.
  eexists. split; [reflexivity|]. simpl. repeat split.
  assert (Hsubs : List.filter (fun sub => negb (String.eqb (id sub) newId))
                    (submissions p) = submissions p).
  { apply filter_all. intros x Hx. apply negb_true_iff.
    destruct (String.eqb_spec (id x) newId) as [E|E]; [|reflexivity].
    exfalso. apply Hfresh. rewrite <- E. apply in_map. exact Hx. }
  unfold handleDelete. simpl. rewrite String.eqb_refl. simpl.
  destruct (editingId p) as [e|]; [destruct (String.eqb e newId)|];
    simpl; exact Hsubs.
Qed.

(** X24.  A confirmed delete that the store accepts removes exactly the
    entries with the given id and keeps the others in order; the row is
    emptied and editing ends exactly when the entry being edited is the one
    deleted.  A delete that is not confirmed sends nothing and changes
    nothing. *)
Theorem handleDelete_removes_exactly (reply : StoreReply) (r target : string)
    (p : Page) :
  (forall sub, In sub (submissions (handleDelete true (Resolved r) target p).1)
               <-> In sub (submissions p) /\ id sub <> target)
  /\ sublist (submissions (handleDelete true (Resolved r) target p).1)
       (submissions p)
  /\ (handleDelete true (Resolved r) target p).2 = Some (DeleteDoc target)
  /\ (editingId p = Some target ->
      editingId (handleDelete true (Resolved r) target p).1 = None
      /\ formData (handleDelete true (Resolved r) target p).1 = ∅)
  /\ (editingId p <> Some target ->
      editingId (handleDelete true (Resolved r) target p).1 = editingId p
      /\ formData (handleDelete true (Resolved r) target p).1 = formData p)
  /\ handleDelete false reply target p = (p, None).
Proof.
  assert (Hsubs : submissions (handleDelete true (Resolved r) target p).1
                  = List.filter (fun sub => negb (String.eqb (id sub) target))
                      (submissions p)).
  { unfold handleDelete. simpl.
    destruct (editingId p) as [e|]; [destruct (String.eqb e target)|];
      reflexivity. }
  split; [|split; [|split; [reflexivity|split; [|split; [|reflexivity]]]]].
  - intros sub. rewrite Hsubs, filter_In, negb_true_iff.
    destruct (String.eqb_spec (id sub) target); split;
      intros [H1 H2]; (split; [exact H1|]); congruence.
  - rewrite Hsubs. clear Hsubs.
    induction (submissions p) as [|a l IH]; simpl; [constructor|].
    destruct (negb (String.eqb (id a) target)).
    + apply sublist_skip. exact IH.
    + apply sublist_cons. exact IH.
  - intros He. unfold handleDelete. simpl. rewrite He, String.eqb_refl.
    split; reflexivity.
  - intros He. unfold handleDelete. simpl.
    destruct (editingId p) as [e|] eqn:Ee.
    + destruct (String.eqb_spec e target) as [E|E]; [congruence|].
      split; [simpl; exact Ee|reflexivity].
    + split; [simpl; exact Ee|reflexivity].
Qed.

(** X25.  Editing a listed entry and saving it as loaded leaves the list as
    it was, when the ids of the list are distinct and the entry's data pass
    the required-field check; the request is an update of that entry with
    its own data.  Cancelling instead also leaves the list as it was, and
    both end with an empty row and no entry being edited: what was typed
    before the edit started is not restored. *)
Theorem edit_then_save_is_identity (uid : option string) (r : string)
    (p : Page) (form : FormSchema) (s : Listed) :
  selectedForm p = Some form ->
  In s (submissions p) ->
  NoDup (map id (submissions p)) ->
  id s <> "" ->
  DataEntry.handleSubmit_missingRequired form (DataEntry.data (doc s)) = false ->
  (handleSubmit uid (Resolved r) (handleEdit s p)).2
  = Some (UpdateDoc (id s) (DataEntry.data (doc s)) uid)
  /\ submissions (handleSubmit uid (Resolved r) (handleEdit s p)).1
     = submissions p
  /\ editingId (handleSubmit uid (Resolved r) (handleEdit s p)).1 = None
  /\ formData (handleSubmit uid (Resolved r) (handleEdit s p)).1 = ∅
  /\ submissions (cancelEdit (handleEdit s p)) = submissions p
  /\ editingId (cancelEdit (handleEdit s p)) = None
  /\ formData (cancelEdit (handleEdit s p)) = ∅.
Proof.
  intros Hf Hin Hnd Hne Hm.
  assert (Ht : editing_target (handleEdit s p) = Some (id s)).
  { apply editing_target_Some; [reflexivity|exact Hne]. }
  unfold handleSubmit. rewrite Ht. simpl. rewrite Hf, Hm. simpl.
  split; [reflexivity|]. split; [|repeat split].
  apply map_id_on. intros x Hx.
  destruct (String.eqb_spec (id x) (id s)) as [E|E]; [|reflexivity].
  assert (x = s) as -> by (eapply NoDup_map_inj_on; eauto).
  destruct s as [i [a b c d]]. reflexivity.
Qed.

(** *** Evaluations on the scenarios *)

Lemma handleKeyDown_stays_in_row_witness :
  handleKeyDown Enter 1 PageScenarios.entry_page = Submit.
Proof.
  destruct (handleKeyDown_stays_in_row Enter 1 PageScenarios.entry_page)
    as [Hsubmit _].
  - vm_compute. lia.
  - apply Hsubmit. split; reflexivity.
Defined.

Lemma rejected_call_changes_only_toasts_witness :
  submissions (handleSubmit None Rejected PageScenarios.entry_page).1
  = submissions PageScenarios.entry_page.
Proof.
  destruct (rejected_call_changes_only_toasts None true "s1"
              PageScenarios.entry_page
              (handleSubmit None Rejected PageScenarios.entry_page).1)
    as (_ & _ & H & _).
  - left. reflexivity.
  - exact H.
Defined.

Lemma update_keeps_the_list_in_place_witness :
  (handleSubmit None (Resolved "s1") PageScenarios.editing_page).2
  = Some (UpdateDoc "s1" (formData PageScenarios.editing_page) None).
Proof.
  destruct (update_keeps_the_list_in_place None "s1"
              PageScenarios.editing_page EntryScenarios.time_form "s1")
    as [H _].
  - reflexivity.
  - vm_compute. reflexivity.
  - reflexivity.
  - discriminate.
  - exact H.
Defined.

Lemma add_then_delete_witness :
  submissions
    (handleDelete true (Resolved "s2") "s2"
       (handleSubmit None (Resolved "s2") PageScenarios.entry_page).1).1
  = submissions PageScenarios.entry_page.
Proof.
  destruct (add_then_delete None "s2" "s2" PageScenarios.entry_page
              EntryScenarios.time_form)
    as (added & _ & _ & _ & _ & _ & _ & _ & _ & H).
  - reflexivity.
  - vm_compute. reflexivity.
  - reflexivity.
  - simpl. intros [H | []]. discriminate.
  - exact H.
Defined.

Lemma edit_then_save_is_identity_witness :
  submissions
    (handleSubmit None (Resolved "s1")
       (handleEdit PageScenarios.listed_shift PageScenarios.entry_page)).1
  = submissions PageScenarios.entry_page.
Proof.
  destruct (edit_then_save_is_identity None "s1" PageScenarios.entry_page
              EntryScenarios.time_form PageScenarios.listed_shift)
    as (_ & H & _).
  - reflexivity.
  - left. reflexivity.
  - simpl. apply NoDup_cons. split; [apply not_elem_of_nil|apply NoDup_nil_2].
  - discriminate.
  - vm_compute. reflexivity.
  - exact H.
Defined.

End EntryPageSpec.

(** ** Routing *)

Module RoutingSpec.
Import Routing.

Lemma Role_eqb_spec (a b : Role) : Role_eqb a b = true <-> a = b.
Proof. destruct a, b; simpl; split; intros H; congruence. Qed.

Lemma includes_spec (role : Role) (roles : list Role) :
  existsb (Role_eqb role) roles = true <-> In role roles.
Proof.
  rewrite existsb_exists. split.
  - intros (x & Hx & E). apply Role_eqb_spec in E. subst. exact Hx.
  - intros H. exists role. split; [exact H|]. apply Role_eqb_spec. reflexivity.
Qed.

Lemma ProtectedRoute_redirect (loading currentUser : bool)
    (userRole : option Role) (allowedRoles : option (list Role))
    (path : string) :
  ProtectedRoute loading currentUser userRole allowedRoles = NavigateTo path ->
  loading = false
  /\ (currentUser = false /\ path = "/login"
      \/ currentUser = true /\ path = "/").
Proof.
  unfold ProtectedRoute. destruct loading; [discriminate|].
  destruct currentUser; simpl.
  - destruct allowedRoles as [roles|], userRole as [role|]; try discriminate.
    destruct (existsb (Role_eqb role) roles); simpl; [discriminate|].
    intros H. injection H as <-. split; [reflexivity|].
    right. split; reflexivity.
  - intros H. injection H as <-. split; [reflexivity|].
    left. split; reflexivity.
Qed.

(** X26.  [ProtectedRoute] renders the page exactly when loading is over, a
    user is signed in and, if the route restricts roles and the user's role
    is known, the role is one of those allowed: a signed-in user whose role
    is null passes every guard.  Any redirect goes to "/login" when nobody
    is signed in, and to "/" otherwise. *)
Theorem ProtectedRoute_children (loading currentUser : bool)
    (userRole : option Role) (allowedRoles : option (list Role)) :
  (ProtectedRoute loading currentUser userRole allowedRoles = Children
   <-> loading = false /\ currentUser = true
       /\ forall roles role, allowedRoles = Some roles ->
            userRole = Some role -> In role roles)
  /\ (forall path,
        ProtectedRoute loading currentUser userRole allowedRoles
        = NavigateTo path ->
        loading = false
        /\ (currentUser = false /\ path = "/login"
            \/ currentUser = true /\ path = "/"))
  /\ (ProtectedRoute loading currentUser userRole allowedRoles = Spinner
      <-> loading = true).
Proof.
  unfold ProtectedRoute.
  destruct loading.
  { split; [split; [discriminate|intros [? _]; discriminate]|].
    split; [discriminate|]. split; reflexivity. }
  destruct currentUser; simpl.
  2:{ split; [split; [discriminate|intros (_ & ? & _); discriminate]|].
      split; [|split; discriminate].
      intros path H. injection H as <-. split; [reflexivity|].
      left. split; reflexivity. }
  destruct allowedRoles as [roles|], userRole as [role|];
    try (split; [split; [intros _; repeat split; intros; discriminate
                        |reflexivity]
                |split; [discriminate|split; discriminate]]).
  destruct (existsb (Role_eqb role) roles) eqn:E; simpl.
  - apply includes_spec in E.
    split; [split; [|reflexivity]|split; [discriminate|split; discriminate]].
    intros _. repeat split. intros roles' role' H1 H2.
    injection H1 as <-. injection H2 as <-. exact E.
  - split; [split; [discriminate|]|].
    + intros (_ & _ & H). specialize (H roles role eq_refl eq_refl).
      apply includes_spec in H. congruence.
    + split; [|split; discriminate].
      intros path H. injection H as <-. split; [reflexivity|].
      right. split; reflexivity.
Qed.

(** X27.  The guarded routes of [App] for a signed-in user with a known
    role: an admin reaches every page, an editor every page but "/admin",
    a viewer every page but "/admin" and "/form-builder".  A redirect never
    leads to a second one: "/login" is not guarded, and "/" admits every
    signed-in user. *)
Theorem route_access (path : string) (allowed : option (list Role))
    (role : Role) :
  route_allowedRoles path = Some allowed ->
  (ProtectedRoute false true (Some role) allowed = Children
   <-> role = admin
       \/ (role = editor /\ path <> "/admin")
       \/ (role = viewer /\ path <> "/admin" /\ path <> "/form-builder"))
  /\ (forall loading currentUser userRole target,
        ProtectedRoute loading currentUser userRole allowed
        = NavigateTo target ->
        (target = "/login" /\ route_allowedRoles target = None)
        \/ (target = "/"
            /\ exists a, route_allowedRoles target = Some a
                 /\ ProtectedRoute loading currentUser userRole a = Children)).
Proof.
  intros Hr.
  assert (Hcases : allowed = None /\ path <> "/admin" /\ path <> "/form-builder"
                   \/ allowed = Some [admin; editor] /\ path = "/form-builder"
                   \/ allowed = Some [admin] /\ path = "/admin").
  { unfold route_allowedRoles in Hr.
    destruct (String.eqb_spec path "/") as [->|?];
      [injection Hr as <-; left; repeat split; discriminate|].
    destruct (String.eqb_spec path "/analysis") as [->|?];
      [injection Hr as <-; left; repeat split; discriminate|].
    destruct (String.eqb_spec path "/form-builder") as [->|?];
      [injection Hr as <-; right; left; split; reflexivity|].
    destruct (String.eqb_spec path "/data-entry") as [->|?];
      [injection Hr as <-; left; repeat split; discriminate|].
    destruct (String.eqb_spec path "/admin") as [->|?];
      [injection Hr as <-; right; right; split; reflexivity|].
    discriminate. }
  split.
  - destruct Hcases as [(-> & H1 & H2) | [(-> & ->) | (-> & ->)]];
      destruct role; simpl;
      (split;
       [ intros H; try discriminate H;
         first [ left; reflexivity
               | right; left; split;
                 [reflexivity|first [assumption|discriminate]]
               | right; right; split;
                 [reflexivity|split; first [assumption|discriminate]] ]
       | intros H; try reflexivity;
         destruct H as [H | [[Ha Hb] | [Ha [Hb Hc]]]]; congruence ]).
  - intros loading currentUser userRole target H.
    destruct (ProtectedRoute_redirect _ _ _ _ _ H) as [Hl [[Hu ->] | [Hu ->]]].
    + left. split; reflexivity.
    + right. split; [reflexivity|]. exists None. split; [reflexivity|].
      subst. reflexivity.
Qed.


Lemma route_access_witness :
  ProtectedRoute false true (Some admin) (Some [admin]) = Children.
Proof.
  destruct (route_access "/admin" (Some [admin]) admin) as [[_ H] _].
  - reflexivity.
  - apply H. left. reflexivity.
Defined.

End RoutingSpec.
